(** * Lunix:TNG -- a shallow embedding of the driver's core logic

    The development follows the layout of the driver:

    - [lunix.h] / [lunix-sensors.c]   : per-sensor measurement buffers,
    - [lunix-protocol.c]              : the XMesh frame parser,
    - [mk-lunix-lookup.c]             : raw sample -> physical value,
    - [lunix-chrdev.c]                : the character device (open / read).

    Only [lunix-chrdev.c] is available as C text; the other units are known
    through their descriptions and are marked as such where they are
    modelled.

    Conventions.  C integers are [Z]; bytes of the serial stream are [Z] in
    [0, 256) so that the bit operations of the parser can be written with
    [Z.lxor], [Z.lor] and [Z.shiftl]; text produced by [snprintf] is a list
    of [ascii].  Arrays are lists indexed with stdpp's [!!]; an access
    outside an array is undefined in C and is a [Fault] here. *)

From Stdlib Require Import ZArith String Ascii List Lia Bool.
From Stdlib Require Import DecimalString DecimalZ QArith Qround.
From stdpp Require Import base option list.

Local Open Scope Z_scope.

(* ================================================================== *)
(** ** Results of kernel code *)

(** A call either returns, touches memory outside an object ([Fault],
    undefined behaviour in C), is still asleep when the schedule of
    external events is exhausted ([Block]), or has used up the unrolling
    budget of a loop ([Spin]). *)
Inductive res (A : Type) : Type :=
| Ret (a : A)
| Fault
| Block
| Spin.
Arguments Ret {A} a.
Arguments Fault {A}.
Arguments Block {A}.
Arguments Spin {A}.

Definition res_bind {A B : Type} (f : A -> res B) (m : res A) : res B :=
  match m with
  | Ret a => f a
  | Fault => Fault
  | Block => Block
  | Spin => Spin
  end.

#[export] Instance res_mbind : MBind res := @res_bind.
#[export] Instance res_mret : MRet res := @Ret.
#[export] Instance res_fmap : FMap res :=
  fun A B f => res_bind (fun a => Ret (f a)).

(** Array read: [None] from the list lookup is an out-of-bounds access. *)
Definition deref {A : Type} (o : option A) : res A :=
  match o with
  | Some a => Ret a
  | None => Fault
  end.

(* ================================================================== *)
(** ** errno values used by the driver *)

Module Errno.
Definition EAGAIN : Z := 11.
Definition ENOMEM : Z := 12.
Definition EFAULT : Z := 14.
Definition EINVAL : Z := 22.
Definition ERESTARTSYS : Z := 512.
End Errno.
Import Errno.

(* ================================================================== *)
(** ** lunix.h : measurement buffers *)

(** [enum lunix_msr_enum { BATT = 0, TEMP, LIGHT, N_LUNIX_MSR }] *)
Definition BATT : Z := 0.
Definition TEMP : Z := 1.
Definition LIGHT : Z := 2.
Definition N_LUNIX_MSR : Z := 3.

Definition LUNIX_MSR_MAGIC : Z := 0xF00DF00D.

(** [struct lunix_msr_data_struct { uint32_t magic; uint32_t last_update;
    uint32_t values[]; }].  Only [values[0]] is ever used. *)
Record lunix_msr_data_struct : Type := mk_msr {
  magic : Z;
  last_update : Z;
  values0 : Z
}.

(** [struct lunix_sensor_struct]: the array [msr_data[N_LUNIX_MSR]] of
    pages.  The spinlock and the wait queue carry no data; their use is
    recorded in the trace of [lunix_sensor_update] below. *)
Record lunix_sensor_struct : Type := mk_sensor {
  msr_data : list lunix_msr_data_struct
}.

(** A page as [get_zeroed_page] hands it out, after [lunix_sensor_init]
    has set the magic number. *)
Definition fresh_msr : lunix_msr_data_struct :=
  {| magic := LUNIX_MSR_MAGIC; last_update := 0; values0 := 0 |}.

Definition fresh_sensor : lunix_sensor_struct :=
  {| msr_data := [fresh_msr; fresh_msr; fresh_msr] |}.

(** What [lunix_sensor_init] establishes and nothing later destroys:
    one page per measurement. *)
Definition sensor_initialised (s : lunix_sensor_struct) : Prop :=
  length (msr_data s) = Z.to_nat N_LUNIX_MSR.

(** [uint32_t] truncation of a 64-bit time value. *)
Definition to_uint32 (x : Z) : Z := x mod 2 ^ 32.

(** Kernel-visible actions of the update path, in program order. *)
Inductive kevent : Type :=
| KSpinLock
| KStoreValue (m : Z) (v : Z)
| KStoreMagic (m : Z)
| KStoreStamp (m : Z) (t : Z)
| KSpinUnlock
| KWakeUp.

Definition set_value (v : Z) (d : lunix_msr_data_struct) :=
  {| magic := magic d; last_update := last_update d; values0 := v |}.
Definition set_magic (d : lunix_msr_data_struct) :=
  {| magic := LUNIX_MSR_MAGIC; last_update := last_update d; values0 := values0 d |}.
Definition set_stamp (t : Z) (d : lunix_msr_data_struct) :=
  {| magic := magic d; last_update := t; values0 := values0 d |}.

(** [s->msr_data[m]-> ... = ...] *)
Definition on_msr (m : Z) (f : lunix_msr_data_struct -> lunix_msr_data_struct)
    (s : lunix_sensor_struct) : lunix_sensor_struct :=
  {| msr_data := alter f (Z.to_nat m) (msr_data s) |}.

(** Modelled from the spec: lunix-sensors.c is not among the sources; this
    follows its description (spin_lock; the three [values[0]] stores; the
    three magic stores; the chained stamp assignment
    [msr_data[BATT]->last_update = ... = ktime_get_real_seconds()];
    spin_unlock; wake_up_interruptible).  [now] is the value returned by
    [ktime_get_real_seconds()], read once; [batt], [temp], [light] are
    [uint16_t].  The result is the new sensor and the actions performed. *)
Definition lunix_sensor_update (s : lunix_sensor_struct)
    (batt temp light : Z) (now : Z) : lunix_sensor_struct * list kevent :=
  let t := to_uint32 now in
  let s := on_msr BATT (set_value batt) s in
  let s := on_msr TEMP (set_value temp) s in
  let s := on_msr LIGHT (set_value light) s in
  let s := on_msr BATT set_magic s in
  let s := on_msr TEMP set_magic s in
  let s := on_msr LIGHT set_magic s in
  let s := on_msr LIGHT (set_stamp t) s in
  let s := on_msr TEMP (set_stamp t) s in
  let s := on_msr BATT (set_stamp t) s in
  (s, [ KSpinLock;
        KStoreValue BATT batt; KStoreValue TEMP temp; KStoreValue LIGHT light;
        KStoreMagic BATT; KStoreMagic TEMP; KStoreMagic LIGHT;
        KStoreStamp LIGHT t; KStoreStamp TEMP t; KStoreStamp BATT t;
        KSpinUnlock;
        KWakeUp ]).

(** The global array [lunix_sensors], and an update of one of its cells. *)
Definition sensors_update (i : nat) (batt temp light now : Z)
    (sensors : list lunix_sensor_struct) : list lunix_sensor_struct :=
  alter (fun s => fst (lunix_sensor_update s batt temp light now)) i sensors.

(* ================================================================== *)
(** ** lunix-protocol.h / lunix-protocol.c : the XMesh frame parser *)

Definition MAX_PACKET_LEN : Z := 300.
Definition PACKET_SIGNATURE_OFFSET : Z := 4.
Definition NODE_OFFSET : Z := 9.
Definition VREF_OFFSET : Z := 18.
Definition TEMPERATURE_OFFSET : Z := 20.
Definition LIGHT_OFFSET : Z := 22.

(** The nine stages of the state machine, in order. *)
Inductive lunix_protocol_stage : Type :=
| SEEKING_START_BYTE
| SEEKING_PACKET_TYPE
| SEEKING_DESTINATION_ADDRESS
| SEEKING_AM_TYPE
| SEEKING_AM_GROUP
| SEEKING_PAYLOAD_LENGTH
| SEEKING_PAYLOAD
| SEEKING_CRC
| SEEKING_END_BYTE.

(** [struct lunix_protocol_state_struct].  [packet] is the working buffer
    [unsigned char packet[MAX_PACKET_LEN]]. *)
Record lunix_protocol_state_struct : Type := mk_pstate {
  state : lunix_protocol_stage;
  bytes_read : Z;
  bytes_to_read : Z;
  pos : Z;
  next_is_special : bool;
  payload_length : Z;
  packet : list Z
}.

(** [packet[i]] as an rvalue; the buffer holds [unsigned char]. *)
Definition packet_at (pk : list Z) (i : Z) : Z := pk !!! Z.to_nat i.

(** Modelled from the spec: lunix-protocol.c is not among the sources.
    [static inline void set_state(statep, state, btr, br)] sets the stage
    and the two counters. *)
Definition set_state (statep : lunix_protocol_state_struct)
    (st : lunix_protocol_stage) (btr br : Z) : lunix_protocol_state_struct :=
  {| state := st; bytes_read := br; bytes_to_read := btr;
     pos := pos statep; next_is_special := next_is_special statep;
     payload_length := payload_length statep; packet := packet statep |}.

(** Modelled from the spec: lunix-protocol.c is not among the sources.
    [void lunix_protocol_init(state)]: [pos = 0], [next_is_special = 0],
    then [set_state(state, SEEKING_START_BYTE, 1, 0)]. *)
Definition lunix_protocol_init (st : lunix_protocol_state_struct)
    : lunix_protocol_state_struct :=
  set_state
    {| state := state st; bytes_read := bytes_read st;
       bytes_to_read := bytes_to_read st;
       pos := 0; next_is_special := false;
       payload_length := payload_length st; packet := packet st |}
    SEEKING_START_BYTE 1 0.

(** The parser state as the module holds it after [kzalloc]-style zero
    initialisation and [lunix_protocol_init]. *)
Definition initial_protocol_state : lunix_protocol_state_struct :=
  lunix_protocol_init
    {| state := SEEKING_START_BYTE; bytes_read := 0; bytes_to_read := 0;
       pos := 0; next_is_special := false; payload_length := 0;
       packet := replicate (Z.to_nat MAX_PACKET_LEN) 0 |}.

(** [state->packet[state->pos++] = c; state->bytes_read++] *)
Definition store_byte (st : lunix_protocol_state_struct) (c : Z)
    : lunix_protocol_state_struct :=
  {| state := state st; bytes_read := bytes_read st + 1;
     bytes_to_read := bytes_to_read st;
     pos := pos st + 1; next_is_special := false;
     payload_length := payload_length st;
     packet := <[Z.to_nat (pos st) := c]> (packet st) |}.

(** [state->next_is_special = 1]: the escape byte itself is not stored and
    does not count as a byte of the stage. *)
Definition mark_special (st : lunix_protocol_state_struct)
    : lunix_protocol_state_struct :=
  {| state := state st; bytes_read := bytes_read st;
     bytes_to_read := bytes_to_read st;
     pos := pos st; next_is_special := true;
     payload_length := payload_length st; packet := packet st |}.

(** Modelled from the spec: lunix-protocol.c is not among the sources.
    One byte of the inner loop, byte stuffing included: [0x7D] announces
    an escaped byte and is never itself stored; the byte that follows it is
    stored with bit [0x20] flipped. *)
Definition consume_byte (st : lunix_protocol_state_struct) (c : Z)
    (use_specials : bool) : lunix_protocol_state_struct :=
  if use_specials then
    if next_is_special st then store_byte st (Z.lxor c 0x20)
    else if c =? 0x7D then mark_special st
    else store_byte st c
  else store_byte st c.

(** What [lunix_protocol_parse_state] reports to its caller. *)
Inductive parse_outcome : Type :=
| StageDone      (* returns 1: the stage has all its bytes *)
| NeedMore       (* returns 0: more data is needed *)
| TooBig.        (* the working buffer is full: the frame is abandoned *)

Definition stage_status (st : lunix_protocol_state_struct) : parse_outcome :=
  if bytes_read st =? bytes_to_read st then StageDone else NeedMore.

(** Modelled from the spec: lunix-protocol.c is not among the sources; this
    follows its description.  The loop runs while input remains and
    [bytes_read < bytes_to_read]; before a byte is taken, [pos] is compared
    with [MAX_PACKET_LEN] and a full buffer resets the parser on the spot.
    The result is the outcome, the new state and the input not yet
    consumed ([data + *i]). *)
Fixpoint lunix_protocol_parse_state (st : lunix_protocol_state_struct)
    (data : list Z) (use_specials : bool)
    : parse_outcome * lunix_protocol_state_struct * list Z :=
  match data with
  | [] => (stage_status st, st, [])
  | c :: rest =>
      if bytes_read st <? bytes_to_read st then
        if pos st =? MAX_PACKET_LEN then
          (TooBig, lunix_protocol_init st, data)
        else
          lunix_protocol_parse_state (consume_byte st c use_specials) rest
            use_specials
      else (stage_status st, st, data)
  end.

(** Modelled from the spec: lunix-protocol.c is not among the sources.
    Byte stuffing applies to every field after the start byte up to and
    including the CRC; the two delimiters are matched literally. *)
Definition use_specials_in (s : lunix_protocol_stage) : bool :=
  match s with
  | SEEKING_START_BYTE | SEEKING_END_BYTE => false
  | _ => true
  end.

(** Modelled from the spec: lunix-protocol.c is not among the sources.
    The transition taken when a stage has all its bytes: a start byte that
    is not [0x7E] keeps the parser scanning; the payload length sets the
    byte count of the payload stage; an end byte [0x7E] hands the packet to
    [lunix_protocol_update_sensors] (second component), and with or without
    it the parser goes back to its initial stage. *)
Definition stage_complete (st : lunix_protocol_state_struct)
    : lunix_protocol_state_struct * list (list Z) :=
  match state st with
  | SEEKING_START_BYTE =>
      if packet_at (packet st) (pos st - 1) =? 0x7E
      then (set_state st SEEKING_PACKET_TYPE 1 0, [])
      else (lunix_protocol_init st, [])
  | SEEKING_PACKET_TYPE => (set_state st SEEKING_DESTINATION_ADDRESS 2 0, [])
  | SEEKING_DESTINATION_ADDRESS => (set_state st SEEKING_AM_TYPE 1 0, [])
  | SEEKING_AM_TYPE => (set_state st SEEKING_AM_GROUP 1 0, [])
  | SEEKING_AM_GROUP => (set_state st SEEKING_PAYLOAD_LENGTH 1 0, [])
  | SEEKING_PAYLOAD_LENGTH =>
      let len := packet_at (packet st) (pos st - 1) mod 256 in
      (set_state
         {| state := state st; bytes_read := bytes_read st;
            bytes_to_read := bytes_to_read st; pos := pos st;
            next_is_special := next_is_special st;
            payload_length := len; packet := packet st |}
         SEEKING_PAYLOAD len 0, [])
  | SEEKING_PAYLOAD => (set_state st SEEKING_CRC 2 0, [])
  | SEEKING_CRC => (set_state st SEEKING_END_BYTE 1 0, [])
  | SEEKING_END_BYTE =>
      if packet_at (packet st) (pos st - 1) =? 0x7E
      then (lunix_protocol_init st, [packet st])
      else (lunix_protocol_init st, [])
  end.

(** Modelled from the spec: lunix-protocol.c is not among the sources.
    One turn of [while (i < length) switch (state->state) ...]: the inner
    loop for the current stage, then the transition if the stage is
    complete. *)
Definition received_buf_turn (st : lunix_protocol_state_struct)
    (data : list Z)
    : lunix_protocol_state_struct * list Z * list (list Z) :=
  let '(r, st1, rest) :=
    lunix_protocol_parse_state st data (use_specials_in (state st)) in
  match r with
  | StageDone => let '(st2, out) := stage_complete st1 in (st2, rest, out)
  | NeedMore => (st1, rest, [])
  | TooBig => (st1, rest, [])
  end.

(** The outer loop, unrolled at most [fuel] times; [None] when the budget
    is used up before the input is. *)
Fixpoint received_buf_loop (fuel : nat) (st : lunix_protocol_state_struct)
    (data : list Z)
    : option (lunix_protocol_state_struct * list (list Z)) :=
  match data with
  | [] => Some (st, [])
  | _ :: _ =>
      match fuel with
      | O => None
      | S fuel' =>
          let '(st1, rest, out) := received_buf_turn st data in
          match received_buf_loop fuel' st1 rest with
          | Some (st2, out') => Some (st2, out ++ out')
          | None => None
          end
      end
  end.

(** Modelled from the spec: lunix-protocol.c is not among the sources.
    [lunix_protocol_received_buf(state, buf, length)] advances the state
    machine over [buf]; the result lists, in order, the packets for which
    the end byte was found.  A turn that takes no byte is followed within
    four turns by one that does, hence the budget. *)
Definition lunix_protocol_received_buf (st : lunix_protocol_state_struct)
    (buf : list Z)
    : option (lunix_protocol_state_struct * list (list Z)) :=
  received_buf_loop (4 * length buf + 4) st buf.

(** [uint16_from_packet]: two bytes, little endian. *)
Definition uint16_from_packet (pk : list Z) (off : Z) : Z :=
  Z.lor (packet_at pk off) (Z.shiftl (packet_at pk (off + 1)) 8).

(** What the update path does with a packet. *)
Inductive apply_event : Type :=
| Received (nodeid batt temp light : Z)
| Updated (index : Z) (trace : list kevent)
| WarnInvalidNode (nodeid : Z).

(** The (nodeId, batt, temp, light) tuple of a packet, if it carries the
    sensor-data signature [0x0B]. *)
Definition packet_measurements (pk : list Z) : option (Z * Z * Z * Z) :=
  if packet_at pk PACKET_SIGNATURE_OFFSET =? 0x0B then
    Some (uint16_from_packet pk NODE_OFFSET,
          uint16_from_packet pk VREF_OFFSET,
          uint16_from_packet pk TEMPERATURE_OFFSET,
          uint16_from_packet pk LIGHT_OFFSET)
  else None.

(** Modelled from the spec: lunix-protocol.c is not among the sources.
    [lunix_protocol_update_sensors(state, lunix_sensors)]: a packet without
    the signature is ignored; otherwise the four fields are read and the
    node id is checked against [1 .. lunix_sensor_cnt] before
    [lunix_sensor_update(&lunix_sensors[nodeid - 1], ...)]; an id out of
    range only logs a warning. *)
Definition lunix_protocol_update_sensors (lunix_sensor_cnt : Z) (now : Z)
    (pk : list Z) (lunix_sensors : list lunix_sensor_struct)
    : res (list lunix_sensor_struct * list apply_event) :=
  match packet_measurements pk with
  | None => Ret (lunix_sensors, [])
  | Some (nodeid, batt, temp, light) =>
      if (0 <? nodeid) && (nodeid <=? lunix_sensor_cnt) then
        s ← deref (lunix_sensors !! Z.to_nat (nodeid - 1));
        let '(s', tr) := lunix_sensor_update s batt temp light now in
        Ret (<[Z.to_nat (nodeid - 1) := s']> lunix_sensors,
             [Received nodeid batt temp light; Updated (nodeid - 1) tr])
      else
        Ret (lunix_sensors,
             [Received nodeid batt temp light; WarnInvalidNode nodeid])
  end.

(** The packets of one call, applied in order. *)
Fixpoint apply_packets (lunix_sensor_cnt : Z) (now : Z)
    (pks : list (list Z)) (lunix_sensors : list lunix_sensor_struct)
    : res (list lunix_sensor_struct * list apply_event) :=
  match pks with
  | [] => Ret (lunix_sensors, [])
  | pk :: pks' =>
      '(sensors1, ev1) ←
        lunix_protocol_update_sensors lunix_sensor_cnt now pk lunix_sensors;
      '(sensors2, ev2) ← apply_packets lunix_sensor_cnt now pks' sensors1;
      Ret (sensors2, ev1 ++ ev2)
  end.

(** Modelled from the spec: lunix-ldisc.c is not among the sources.
    [lunix_ldisc_receive_buf] hands the bytes received on the line to
    [lunix_protocol_received_buf(&lunix_protocol_state, cp, count)]; every
    packet completed during the call goes through
    [lunix_protocol_update_sensors].  [now] is the clock during the
    call. *)
Definition lunix_ldisc_receive_buf (lunix_sensor_cnt : Z) (now : Z)
    (lunix_protocol_state : lunix_protocol_state_struct)
    (lunix_sensors : list lunix_sensor_struct) (cp : list Z)
    : res (lunix_protocol_state_struct * list lunix_sensor_struct
           * list apply_event) :=
  match lunix_protocol_received_buf lunix_protocol_state cp with
  | None => Spin
  | Some (st, pks) =>
      '(sensors, evs) ← apply_packets lunix_sensor_cnt now pks lunix_sensors;
      Ret (st, sensors, evs)
  end.

(* ================================================================== *)
(** ** mk-lunix-lookup.c : raw sample to physical value *)

(** A C cast [(long)d] of a finite value: truncation toward zero. *)
Definition Qtrunc (x : Q) : Z := Z.quot (Qnum x) (Z.pos (Qden x)).

(** Rounding to the nearest integer, halves away from zero on the
    positive side; used only to compare with the cast. *)
Definition Qround_nearest (x : Q) : Z := Qfloor (x + (1 # 2)).

(** The voltage before the cast, in millivolts. *)
Definition batt_millivolts (value : Z) : Q :=
  ((if value =? 0 then 0 else (1223 # 1000) * (1023 / inject_Z value)) * 1000)%Q.

(** Modelled from the spec: mk-lunix-lookup.c is not among the sources; this
    follows its description: [d = 1.223 * (1023.0 / value)] (0 for a zero
    sample), multiplied by 1000 and cast to [long].  The doubles of the
    generator are replaced by exact rationals. *)
Definition uint16_to_batt (value : Z) : Z := Qtrunc (batt_millivolts value).

(* ================================================================== *)
(** ** printf-style rendering *)

Definition decimal_digits (n : Z) : list ascii :=
  list_ascii_of_string
    (NilZero.string_of_uint
       (match Z.to_int n with Decimal.Pos d => d | Decimal.Neg d => d end)).

Definition sign_chars (n : Z) : list ascii :=
  if n <? 0 then ["-"%char] else [].

(** [%ld] *)
Definition render_ld (n : Z) : list ascii := sign_chars n ++ decimal_digits n.

(** [%0<w>ld]: zeros are inserted between the sign and the digits until
    the field is [w] characters wide. *)
Definition render_0ld (w : nat) (n : Z) : list ascii :=
  let s := sign_chars n in
  let d := decimal_digits n in
  s ++ replicate (w - length s - length d) "0"%char ++ d.

(** The expansion of ["%ld.%03ld\n"]. *)
Definition render_measurement (a b : Z) : list ascii :=
  render_ld a ++ ["."%char] ++ render_0ld 3 b ++ ["010"%char].

(** [snprintf(buf, size, ...)] for an expansion [text]: at most [size - 1]
    characters are stored, followed by a NUL; the return value is the
    length of the whole expansion. *)
Definition snprintf (buf : list ascii) (size : Z) (text : list ascii)
    : Z * list ascii :=
  if size <=? 0 then (Z.of_nat (length text), buf)
  else
    let n := Nat.min (length text) (Z.to_nat (size - 1)) in
    (Z.of_nat (length text),
     take n text ++ ["000"%char] ++ drop (S n) buf).

(* ================================================================== *)
(** ** lunix-chrdev.c : the character device *)

(** [struct lunix_chrdev_state_struct] (lunix-chrdev.h).  [sensor] is the
    pointer [&lunix_sensors[sensor_num]], kept as the index; [lock] is the
    count of the semaphore. *)
Record lunix_chrdev_state_struct : Type := mk_cstate {
  type : Z;
  sensor : Z;
  buf_lim : Z;
  buf_data : list ascii;
  lock : Z;
  buf_timestamp : Z
}.

Definition with_buf_timestamp (t : Z) (st : lunix_chrdev_state_struct) :=
  {| type := type st; sensor := sensor st; buf_lim := buf_lim st;
     buf_data := buf_data st; lock := lock st; buf_timestamp := t |}.

Definition with_buf (lim : Z) (data : list ascii) (st : lunix_chrdev_state_struct) :=
  {| type := type st; sensor := sensor st; buf_lim := lim;
     buf_data := data; lock := lock st; buf_timestamp := buf_timestamp st |}.

Definition with_lock (l : Z) (st : lunix_chrdev_state_struct) :=
  {| type := type st; sensor := sensor st; buf_lim := buf_lim st;
     buf_data := buf_data st; lock := l; buf_timestamp := buf_timestamp st |}.

(** [sensor->msr_data[state->type]] *)
Definition session_msr (lunix_sensors : list lunix_sensor_struct)
    (st : lunix_chrdev_state_struct) : res lunix_msr_data_struct :=
  s ← deref (lunix_sensors !! Z.to_nat (sensor st));
  deref (msr_data s !! Z.to_nat (type st)).

(** [lunix_chrdev_state_needs_refresh]: 1 if the cached timestamp differs
    from the sensor's, 0 otherwise. *)
Definition lunix_chrdev_state_needs_refresh
    (lunix_sensors : list lunix_sensor_struct)
    (st : lunix_chrdev_state_struct) : res Z :=
  m ← session_msr lunix_sensors st;
  if negb (buf_timestamp st =? last_update m) then Ret 1 else Ret 0.

(** What the scheduler and the producer do while a reader sleeps. *)
Inductive sched_event : Type :=
| SignalPending
| SensorUpdate (i : nat) (batt temp light now : Z).

(** The caller's buffer: [ubuf_writable] bytes from [usrbuf] on may be
    written; [ubuf_data] is what has been written. *)
Record user_buffer : Type := mk_ubuf {
  ubuf_writable : Z;
  ubuf_data : list ascii
}.

(** [copy_to_user(to, from, n)]: returns the number of bytes that could
    not be copied. *)
Definition copy_to_user (to : user_buffer) (from : list ascii) (n : Z)
    : Z * user_buffer :=
  let k := Z.min n (Z.max 0 (ubuf_writable to)) in
  (n - k,
   {| ubuf_writable := ubuf_writable to;
      ubuf_data := take (Z.to_nat k) from ++ drop (Z.to_nat k) (ubuf_data to) |}).

(** What a call of [lunix_chrdev_read] leaves behind. *)
Record read_result : Type := mk_read {
  rd_ret : Z;
  rd_sensors : list lunix_sensor_struct;
  rd_state : lunix_chrdev_state_struct;
  rd_usrbuf : user_buffer;
  rd_f_pos : Z;
  rd_pending : list sched_event
}.

Definition EINTR : Z := 4.

(** [up(&state->lock)] *)
Definition up (st : lunix_chrdev_state_struct) : lunix_chrdev_state_struct :=
  with_lock (lock st + 1) st.

(** [down_interruptible(&state->lock)]: takes the semaphore if its count
    is positive; otherwise sleeps until a signal arrives.  The producer
    may run meanwhile. *)
Fixpoint down_interruptible (lunix_sensors : list lunix_sensor_struct)
    (st : lunix_chrdev_state_struct) (evs : list sched_event)
    : res (Z * list lunix_sensor_struct * lunix_chrdev_state_struct
           * list sched_event) :=
  if 0 <? lock st then Ret (0, lunix_sensors, with_lock (lock st - 1) st, evs)
  else
    match evs with
    | [] => Block
    | SignalPending :: evs' => Ret (- EINTR, lunix_sensors, st, evs')
    | SensorUpdate i b t l now :: evs' =>
        down_interruptible (sensors_update i b t l now lunix_sensors) st evs'
    end.

(** [wait_event_interruptible(sensor->wq,
    lunix_chrdev_state_needs_refresh(state))]: returns 0 as soon as the
    condition holds, [-ERESTARTSYS] when a signal arrives first. *)
Fixpoint wait_event_interruptible (lunix_sensors : list lunix_sensor_struct)
    (st : lunix_chrdev_state_struct) (evs : list sched_event)
    : res (Z * list lunix_sensor_struct * list sched_event) :=
  c ← lunix_chrdev_state_needs_refresh lunix_sensors st;
  if negb (c =? 0) then Ret (0, lunix_sensors, evs)
  else
    match evs with
    | [] => Block
    | SignalPending :: evs' => Ret (- ERESTARTSYS, lunix_sensors, evs')
    | SensorUpdate i b t l now :: evs' =>
        wait_event_interruptible (sensors_update i b t l now lunix_sensors)
          st evs'
    end.

Section Chrdev.

(** The generated tables [lookup_voltage], [lookup_temperature] and
    [lookup_light] (lunix-lookup.h, 65536 entries of [long] each) and the
    size of the session cache (lunix-chrdev.h) are not among the
    sources. *)
Variable lookup_voltage lookup_temperature lookup_light : Z -> Z.
Variable LUNIX_CHRDEV_BUFSZ : Z.

(** The [switch (state->type)] of [lunix_chrdev_state_update]: the table
    entry for a valid type, [None] for the [default] branch. *)
Definition lookup_by_type (ty : Z) (raw_data : Z) : option Z :=
  if ty =? BATT then Some (lookup_voltage raw_data)
  else if ty =? TEMP then Some (lookup_temperature raw_data)
  else if ty =? LIGHT then Some (lookup_light raw_data)
  else None.

(** [lunix_chrdev_state_update]: the return value and the new state. *)
Definition lunix_chrdev_state_update
    (lunix_sensors : list lunix_sensor_struct)
    (st : lunix_chrdev_state_struct)
    : res (Z * lunix_chrdev_state_struct) :=
  nr ← lunix_chrdev_state_needs_refresh lunix_sensors st;
  if nr =? 0 then Ret (- EAGAIN, st)
  else
    m ← session_msr lunix_sensors st;
    let raw_data := values0 m in
    let last_update := last_update m in
    let st := with_buf_timestamp last_update st in
    match lookup_by_type (type st) raw_data with
    | None => Ret (- EINVAL, st)
    | Some converted_value =>
        let '(n, buf) :=
          snprintf (buf_data st) LUNIX_CHRDEV_BUFSZ
            (render_measurement (Z.quot converted_value 1000)
               (Z.abs (Z.rem converted_value 1000))) in
        Ret (0, with_buf n buf st)
    end.

(** [lunix_chrdev_open].  [nonseekable_ret] is what [nonseekable_open]
    returned, [minor_num] is [iminor(inode)], [kmalloc_ret] is the
    object [kmalloc] returned ([None] for NULL), contents arbitrary.
    The result is the return value [ret] and [filp->private_data]; on
    the path that creates the state [ret] still holds the value of
    [nonseekable_open]. *)
Definition lunix_chrdev_open (nonseekable_ret : Z) (minor_num : Z)
    (kmalloc_ret : option lunix_chrdev_state_struct)
    : Z * option lunix_chrdev_state_struct :=
  if nonseekable_ret <? 0 then (nonseekable_ret, None)
  else
    let type_ := minor_num mod 8 in
    let sensor_num := minor_num / 8 in
    if type_ >=? N_LUNIX_MSR then (- EINVAL, None)
    else
      match kmalloc_ret with
      | None => (- ENOMEM, None)
      | Some mem =>
          (nonseekable_ret,
           Some {| type := type_; sensor := sensor_num; buf_lim := 0;
                   buf_data := buf_data mem; lock := 1;
                   buf_timestamp := 0 |})
      end.

(** The loop [while (lunix_chrdev_state_update(state) == -EAGAIN)] of
    [lunix_chrdev_read], unrolled at most [fuel] times.  [Some r] in the
    first component is an early [return r] from inside the loop (the
    session lock is not held then); [None] is the normal exit. *)
Fixpoint read_refresh_loop (fuel : nat)
    (lunix_sensors : list lunix_sensor_struct)
    (st : lunix_chrdev_state_struct) (evs : list sched_event)
    : res (option Z * list lunix_sensor_struct
           * lunix_chrdev_state_struct * list sched_event) :=
  match fuel with
  | O => Spin
  | S fuel' =>
      '(r, st1) ← lunix_chrdev_state_update lunix_sensors st;
      if r =? - EAGAIN then
        let st2 := up st1 in
        '(wr, sensors1, evs1) ← wait_event_interruptible lunix_sensors st2 evs;
        if negb (wr =? 0)
        then Ret (Some (- ERESTARTSYS), sensors1, st2, evs1)
        else
          '(dr, sensors2, st3, evs2) ← down_interruptible sensors1 st2 evs1;
          if negb (dr =? 0)
          then Ret (Some (- ERESTARTSYS), sensors2, st3, evs2)
          else read_refresh_loop fuel' sensors2 st3 evs2
      else Ret (None, lunix_sensors, st1, evs)
  end.

(** [lunix_chrdev_read(filp, usrbuf, cnt, f_pos)].  [st] is
    [filp->private_data], [f_pos] the value of [*f_pos] on entry, [evs]
    what happens around the reader while it sleeps.  The C code hands
    [state->buf_data + *f_pos] and [cnt] to [copy_to_user] without
    comparing them with the size of the cache; the bytes around the cache
    are not part of this state, so a copy that would leave the cache is
    [Fault] here, where the C code goes on with whatever lies there. *)
Definition lunix_chrdev_read (fuel : nat)
    (lunix_sensors : list lunix_sensor_struct)
    (st : lunix_chrdev_state_struct)
    (usrbuf : user_buffer) (cnt : Z) (f_pos : Z)
    (evs : list sched_event) : res read_result :=
  '(dr, sensors0, st0, evs0) ← down_interruptible lunix_sensors st evs;
  if negb (dr =? 0)
  then Ret (mk_read (- ERESTARTSYS) sensors0 st0 usrbuf f_pos evs0)
  else
    '(early, sensors1, st1, evs1) ←
      (if f_pos =? 0 then read_refresh_loop fuel sensors0 st0 evs0
       else Ret (None, sensors0, st0, evs0));
    match early with
    | Some r => Ret (mk_read r sensors1 st1 usrbuf f_pos evs1)
    | None =>
        let available_bytes := buf_lim st1 - f_pos in
        let available_bytes :=
          if available_bytes <? 0 then 0 else available_bytes in
        let cnt := if cnt >? available_bytes then available_bytes else cnt in
        if cnt =? 0
        then Ret (mk_read 0 sensors1 (up st1) usrbuf f_pos evs1)
        else
          if (f_pos <? 0)
             || (Z.of_nat (length (buf_data st1)) <? f_pos + cnt)
          then Fault
          else
            let from := take (Z.to_nat cnt) (drop (Z.to_nat f_pos) (buf_data st1)) in
            let '(not_copied, usrbuf1) := copy_to_user usrbuf from cnt in
            if negb (not_copied =? 0)
            then Ret (mk_read (- EFAULT) sensors1 (up st1) usrbuf1 f_pos evs1)
            else
              let f_pos1 := f_pos + cnt in
              let ret := cnt in
              let f_pos2 := if f_pos1 >=? buf_lim st1 then 0 else f_pos1 in
              Ret (mk_read ret sensors1 (up st1) usrbuf1 f_pos2 evs1)
    end.

End Chrdev.

(* ================================================================== *)
(** ** Reading rendered text back *)

(** The character of a decimal digit. *)
Definition digit_char (d : Z) : ascii := ascii_of_nat (48 + Z.to_nat d).

(** A signed decimal numeral read back as an integer ([strtol]-like, the
    whole text must be a numeral). *)
Definition parse_ld (s : list ascii) : option Z :=
  option_map Z.of_int (NilZero.int_of_string (string_of_list_ascii s)).

(** The three decimal digits of a number below 1000. *)
Definition three_digits (r : Z) : list ascii :=
  [digit_char (r / 100); digit_char (r / 10 mod 10); digit_char (r mod 10)].

(** The three results that the read protocol names: bytes delivered,
    end of data, interrupted. *)
Definition read_three_outcomes (r : Z) : Prop :=
  0 < r \/ r = 0 \/ r = - ERESTARTSYS.


(* ================================================================== *)
(** ** Sample data *)

(** Tables for the examples: the voltage table as the generator computes
    it, two simple stand-ins for the others. *)
Definition sample_temperature (raw : Z) : Z := 10 * raw - 50000.
Definition sample_light (raw : Z) : Z := raw.
Definition sample_bufsz : Z := 20.

(** An object as [kmalloc] may return it: every field holds junk. *)
Definition sample_kmalloc : lunix_chrdev_state_struct :=
  {| type := 7; sensor := 99; buf_lim := 5;
     buf_data := replicate 20 "x"%char; lock := 0; buf_timestamp := 77 |}.

(** Sixteen sensors after [lunix_sensor_init]. *)
Definition sample_sensors_fresh : list lunix_sensor_struct :=
  replicate 16 fresh_sensor.

(** ... and after node 1 reported (batt, temp, light) = (512, 100, 200). *)
Definition sample_sensors : list lunix_sensor_struct :=
  sensors_update 0 512 100 200 1700000000 sample_sensors_fresh.

(** The session of minor 0 (sensor 0, battery). *)
Definition sample_session : lunix_chrdev_state_struct :=
  {| type := 0; sensor := 0; buf_lim := 0;
     buf_data := replicate 20 "x"%char; lock := 1; buf_timestamp := 0 |}.

(** The session of minor 1 (sensor 0, temperature). *)
Definition sample_session_temp : lunix_chrdev_state_struct :=
  {| type := 1; sensor := 0; buf_lim := 0;
     buf_data := replicate 20 "x"%char; lock := 1; buf_timestamp := 0 |}.

(** The battery page of sensor 0 in [sample_sensors]. *)
Definition sample_page : lunix_msr_data_struct :=
  mk_msr LUNIX_MSR_MAGIC 1700000000 512.

(** The caller's buffer: 64 writable bytes, nothing written yet. *)
Definition sample_usrbuf : user_buffer := mk_ubuf 64 [].

(** A caller's buffer that cannot be written at all. *)
Definition bad_usrbuf : user_buffer := mk_ubuf 0 [].

(** The text ["2.443\n"]. *)
Definition text_2_443 : list ascii :=
  ["2"%char; "."%char; "4"%char; "4"%char; "3"%char; "010"%char].

(** A working buffer holding a sensor-data packet of the given node. *)
Definition sample_packet (nodeid batt temp light : Z) : list Z :=
  <[Z.to_nat PACKET_SIGNATURE_OFFSET := 0x0B]>
    (<[Z.to_nat NODE_OFFSET := nodeid mod 256]>
       (<[Z.to_nat (NODE_OFFSET + 1) := nodeid / 256]>
          (<[Z.to_nat VREF_OFFSET := batt mod 256]>
             (<[Z.to_nat (VREF_OFFSET + 1) := batt / 256]>
                (<[Z.to_nat TEMPERATURE_OFFSET := temp mod 256]>
                   (<[Z.to_nat (TEMPERATURE_OFFSET + 1) := temp / 256]>
                      (<[Z.to_nat LIGHT_OFFSET := light mod 256]>
                         (<[Z.to_nat (LIGHT_OFFSET + 1) := light / 256]>
                            (replicate (Z.to_nat MAX_PACKET_LEN) 0))))))))).

(** The session after its first refresh, and what the first read of 64
    bytes leaves behind. *)
Definition sample_refreshed : lunix_chrdev_state_struct :=
  match lunix_chrdev_state_update uint16_to_batt sample_temperature
          sample_light sample_bufsz sample_sensors sample_session with
  | Ret (_, st) => st
  | _ => sample_session
  end.

Definition sample_read_result : read_result :=
  match lunix_chrdev_read uint16_to_batt sample_temperature sample_light
          sample_bufsz 2 sample_sensors sample_session sample_usrbuf 64 0 []
  with
  | Ret rr => rr
  | _ => mk_read 0 [] sample_session sample_usrbuf 0 []
  end.

(** A session in good order: a valid kind, an existing sensor with its
    three pages, a cache of [bufsz] bytes and a text length within it. *)
Definition session_ok (bufsz : Z) (sensors : list lunix_sensor_struct)
    (st : lunix_chrdev_state_struct) : Prop :=
  0 <= type st < N_LUNIX_MSR
  /\ (exists s, sensors !! Z.to_nat (sensor st) = Some s
                /\ sensor_initialised s)
  /\ Z.of_nat (length (buf_data st)) = bufsz
  /\ 0 <= buf_lim st < bufsz.

(** The cache is large enough for every entry of the tables. *)
Definition tables_fit (lookup_voltage lookup_temperature lookup_light : Z -> Z)
    (bufsz : Z) : Prop :=
  forall ty raw v,
    lookup_by_type lookup_voltage lookup_temperature lookup_light ty raw
    = Some v ->
    Z.of_nat (length (render_measurement (Z.quot v 1000)
                        (Z.abs (Z.rem v 1000)))) < bufsz.

(* ================================================================== *)
(** ** Frames on the wire *)

(** Byte stuffing as the sender applies it: [0x7E] and [0x7D] travel as
    [0x7D] followed by the byte with bit [0x20] flipped. *)
Definition escape_byte (c : Z) : list Z :=
  if (c =? 0x7E) || (c =? 0x7D) then [0x7D; Z.lxor c 0x20] else [c].

Definition stuff (bs : list Z) : list Z := flat_map escape_byte bs.

(** The fields of a frame between the two delimiters. *)
Record xmesh_frame : Type := mk_frame {
  fr_type : Z;
  fr_dest_lo : Z;
  fr_dest_hi : Z;
  fr_am_type : Z;
  fr_am_group : Z;
  fr_payload : list Z;
  fr_crc_lo : Z;
  fr_crc_hi : Z
}.

Definition is_byte (c : Z) : Prop := 0 <= c < 256.

Definition frame_header (f : xmesh_frame) : list Z :=
  [fr_type f; fr_dest_lo f; fr_dest_hi f; fr_am_type f; fr_am_group f;
   Z.of_nat (length (fr_payload f))].

Definition frame_body (f : xmesh_frame) : list Z :=
  frame_header f ++ fr_payload f ++ [fr_crc_lo f; fr_crc_hi f].

(** The bytes of a frame as they arrive: start byte, stuffed body, end
    byte. *)
Definition frame_wire (f : xmesh_frame) : list Z :=
  0x7E :: stuff (frame_body f) ++ [0x7E].

(** A well-formed sensor frame: every field is a byte, the payload length
    fits its field, the AM type is the sensor-data signature and the
    payload reaches the light field. *)
Definition well_formed_sensor_frame (f : xmesh_frame) : Prop :=
  Forall is_byte (frame_body f)
  /\ (length (fr_payload f) < 256)%nat
  /\ fr_am_type f = 0x0B
  /\ (17 <= length (fr_payload f))%nat.

(** The 16-bit little-endian field at payload offset [i]. *)
Definition payload_uint16 (f : xmesh_frame) (i : nat) : Z :=
  Z.lor (fr_payload f !!! i) (Z.shiftl (fr_payload f !!! S i) 8).

(** (nodeId, batt, temp, light) as the sender put them into the payload:
    packet offsets 9, 18, 20 and 22 are payload offsets 2, 11, 13, 15. *)
Definition frame_measurements (f : xmesh_frame) : Z * Z * Z * Z :=
  (payload_uint16 f 2, payload_uint16 f 11,
   payload_uint16 f 13, payload_uint16 f 15).

(** Feeding the parser chunk by chunk, one call per chunk. *)
Fixpoint feed_chunks (st : lunix_protocol_state_struct)
    (chunks : list (list Z))
    : option (lunix_protocol_state_struct * list (list Z)) :=
  match chunks with
  | [] => Some (st, [])
  | c :: chunks' =>
      match lunix_protocol_received_buf st c with
      | Some (st1, out) =>
          match feed_chunks st1 chunks' with
          | Some (st2, out') => Some (st2, out ++ out')
          | None => None
          end
      | None => None
      end
  end.

(** The measurements of the packets handed to the update path. *)
Definition extracted (r : option (lunix_protocol_state_struct * list (list Z)))
    : option (list (option (Z * Z * Z * Z))) :=
  match r with
  | Some (_, out) => Some (map packet_measurements out)
  | None => None
  end.

(** A sensor frame of node 5 whose payload holds both special bytes. *)
Definition sample_frame : xmesh_frame :=
  {| fr_type := 0x42; fr_dest_lo := 0x7E; fr_dest_hi := 0x00;
     fr_am_type := 0x0B; fr_am_group := 0x7D;
     fr_payload := [0x01; 0x02; 0x05; 0x00; 0x7E; 0x7D; 0x00; 0x00; 0x00;
                    0x00; 0x00; 0x00; 0x02; 0x7E; 0x01; 0x7D; 0x03];
     fr_crc_lo := 0x7D; fr_crc_hi := 0x7E |}.

(** Invariants of the parser state: the byte count of a stage never
    exceeds its target, and the write position stays within the working
    buffer. *)
Definition count_ok (st : lunix_protocol_state_struct) : Prop :=
  0 <= bytes_read st <= bytes_to_read st.

Definition pos_ok (st : lunix_protocol_state_struct) : Prop :=
  0 <= pos st <= MAX_PACKET_LEN.

(** The number of turns that may pass before the next byte is taken. *)
Definition idle_turns (st : lunix_protocol_state_struct) : nat :=
  if bytes_read st <? bytes_to_read st then
    if pos st =? MAX_PACKET_LEN then 1%nat else 0%nat
  else
    match state st with
    | SEEKING_PAYLOAD_LENGTH => 3%nat
    | _ => 2%nat
    end.

(** What a turn does once the input is used up. *)
Definition finish_turn (st : lunix_protocol_state_struct)
    : lunix_protocol_state_struct * list (list Z) :=
  match stage_status st with
  | StageDone => stage_complete st
  | _ => (st, [])
  end.

(** [bs] stored from position [p] on, as [store_byte] does byte by byte. *)
Fixpoint write_bytes (p : nat) (bs pk : list Z) : list Z :=
  match bs with
  | [] => pk
  | c :: bs' => write_bytes (S p) bs' (<[p := c]> pk)
  end.

(** The parser between two stages: [s] is about to start and expects [n]
    bytes, the bytes [prefix] of the frame are in the buffer. *)
Definition at_stage (pk0 : list Z) (st : lunix_protocol_state_struct)
    (s : lunix_protocol_stage) (n : Z) (prefix : list Z) : Prop :=
  state st = s /\ bytes_read st = 0 /\ bytes_to_read st = n
  /\ next_is_special st = false
  /\ pos st = Z.of_nat (length prefix)
  /\ packet st = write_bytes 0 prefix pk0.

(** The bytes of a frame as they end up in the working buffer. *)
Definition frame_raw (f : xmesh_frame) : list Z :=
  0x7E :: frame_body f ++ [0x7E].

(** A parser in the middle of a payload with the working buffer full. *)
Definition sample_full_state : lunix_protocol_state_struct :=
  {| state := SEEKING_PAYLOAD; bytes_read := 200; bytes_to_read := 255;
     pos := MAX_PACKET_LEN; next_is_special := false; payload_length := 255;
     packet := replicate (Z.to_nat MAX_PACKET_LEN) 0x55 |}.

(** The wire bytes of [sample_frame], one byte per chunk. *)
Definition sample_chunks : list (list Z) :=
  map (fun c => [c]) (frame_wire sample_frame).
(* ================================================================== *)
(** ** lunix-chrdev.c : the remaining file operations *)

(** [lunix_chrdev_release]: [kfree(filp->private_data)], returns 0.  The
    result is the return value and the object handed to [kfree]. *)
Definition lunix_chrdev_release
    (private_data : option lunix_chrdev_state_struct)
    : Z * option lunix_chrdev_state_struct :=
  (0, private_data).

(** [lunix_chrdev_ioctl]: no command is supported. *)
Definition lunix_chrdev_ioctl (cmd arg : Z) : Z := - EINVAL.

(** [lunix_chrdev_mmap]: not supported. *)
Definition lunix_chrdev_mmap : Z := - EINVAL.

(* ================================================================== *)
(** ** lunix-chrdev.c : registration of the device *)

(** What the kernel records for the driver: the reserved regions of
    device numbers, each as (first device number, count), and the range
    the object [lunix_chrdev_cdev] is live for once it has been added. *)
Record chrdev_registry : Type := mk_registry {
  regions : list (Z * Z);
  cdev_live : option (Z * Z)
}.

(** [MKDEV(ma, mi)] of linux/kdev_t.h. *)
Definition MINORBITS : Z := 20.
Definition MKDEV (ma mi : Z) : Z := Z.lor (Z.shiftl ma MINORBITS) mi.

(** [register_chrdev_region(from, count, name)].  [outcome] is the
    kernel's decision: [None] for success (the call returns 0 and the
    region is recorded), [Some e] for the error code [e]. *)
Definition register_chrdev_region (outcome : option Z) (from count : Z)
    (k : chrdev_registry) : Z * chrdev_registry :=
  match outcome with
  | None => (0, {| regions := (from, count) :: regions k;
                   cdev_live := cdev_live k |})
  | Some e => (e, k)
  end.

Definition region_eqb (a b : Z * Z) : bool :=
  (fst a =? fst b) && (snd a =? snd b).

Fixpoint remove_region (r : Z * Z) (l : list (Z * Z)) : list (Z * Z) :=
  match l with
  | [] => []
  | x :: l' => if region_eqb r x then l' else x :: remove_region r l'
  end.

(** [unregister_chrdev_region(from, count)] *)
Definition unregister_chrdev_region (from count : Z) (k : chrdev_registry)
    : chrdev_registry :=
  {| regions := remove_region (from, count) (regions k);
     cdev_live := cdev_live k |}.

(** [cdev_add(&lunix_chrdev_cdev, dev, count)], with the kernel's decision
    as for [register_chrdev_region]. *)
Definition cdev_add (outcome : option Z) (dev count : Z)
    (k : chrdev_registry) : Z * chrdev_registry :=
  match outcome with
  | None => (0, {| regions := regions k; cdev_live := Some (dev, count) |})
  | Some e => (e, k)
  end.

(** [cdev_del(&lunix_chrdev_cdev)] *)
Definition cdev_del (k : chrdev_registry) : chrdev_registry :=
  {| regions := regions k; cdev_live := None |}.

Section ChrdevInit.

(** The major number (lunix-chrdev.h) is not among the sources. *)
Variable LUNIX_CHRDEV_MAJOR : Z.

(** [lunix_chrdev_init].  [lunix_sensor_cnt] is the global of that name,
    [reg_outcome] and [add_outcome] what the two kernel calls decide.  The
    result is the return value and the registry afterwards. *)
Definition lunix_chrdev_init (lunix_sensor_cnt : Z)
    (reg_outcome add_outcome : option Z) (k : chrdev_registry)
    : Z * chrdev_registry :=
  let lunix_minor_cnt := to_uint32 (Z.shiftl lunix_sensor_cnt 3) in
  let dev_no := MKDEV LUNIX_CHRDEV_MAJOR 0 in
  let '(ret, k1) :=
    register_chrdev_region reg_outcome dev_no lunix_minor_cnt k in
  if ret <? 0 then (ret, k1)
  else
    let '(ret, k2) := cdev_add add_outcome dev_no lunix_minor_cnt k1 in
    if ret <? 0
    then (ret, unregister_chrdev_region dev_no lunix_minor_cnt k2)
    else (0, k2).

(** [lunix_chrdev_destroy] *)
Definition lunix_chrdev_destroy (lunix_sensor_cnt : Z) (k : chrdev_registry)
    : chrdev_registry :=
  let lunix_minor_cnt := to_uint32 (Z.shiftl lunix_sensor_cnt 3) in
  let dev_no := MKDEV LUNIX_CHRDEV_MAJOR 0 in
  unregister_chrdev_region dev_no lunix_minor_cnt (cdev_del k).

End ChrdevInit.

(* ================================================================== *)
(** ** Events a sleeping reader does not react to *)

(** An update that leaves the condition of the wait queue false for the
    session [st]: it goes to another sensor, or it carries the timestamp
    the session has cached. *)
Definition unnoticed (st : lunix_chrdev_state_struct) (e : sched_event)
    : Prop :=
  match e with
  | SignalPending => False
  | SensorUpdate i _ _ _ now =>
      i <> Z.to_nat (sensor st) \/ to_uint32 now = buf_timestamp st
  end.

(** The raw value an update stores for the measurement kind [ty]. *)
Definition raw_of_kind (ty : Z) (batt temp light : Z) : Z :=
  if ty =? BATT then batt else if ty =? TEMP then temp else light.

(* ================================================================== *)
(** ** lunix-ldisc.c : attaching the line discipline *)

Definition EPERM : Z := 1.
Definition EIO : Z := 5.
Definition EBUSY : Z := 16.

(** [atomic_add_unless(v, a, u)]: adds [a] to [v] unless [v] is [u];
    reports whether it added. *)
Definition atomic_add_unless (v a u : Z) : bool * Z :=
  if v =? u then (false, v) else (true, v + a).

(** The one field of [struct tty_struct] the discipline writes. *)
Record tty_struct : Type := mk_tty {
  receive_room : Z
}.

(** Modelled from the spec: lunix-ldisc.c is not among the sources; this
    follows the statements quoted in its description:
    [if (!capable(CAP_SYS_ADMIN)) return -EPERM;],
    [if (!atomic_add_unless(&lunix_disc_available, -1, 0)) return -EBUSY;],
    [tty->receive_room = 65536;].  The result is the return value, the
    counter and the tty afterwards. *)
Definition lunix_ldisc_open (capable_sys_admin : bool)
    (lunix_disc_available : Z) (tty : tty_struct)
    : Z * Z * tty_struct :=
  if negb capable_sys_admin then (- EPERM, lunix_disc_available, tty)
  else
    let '(added, avail) := atomic_add_unless lunix_disc_available (-1) 0 in
    if negb added then (- EBUSY, avail, tty)
    else (0, avail, {| receive_room := 65536 |}).

(** Modelled from the spec: lunix-ldisc.c is not among the sources.
    [lunix_ldisc_close]: [atomic_inc(&lunix_disc_available)]. *)
Definition lunix_ldisc_close (lunix_disc_available : Z) : Z :=
  lunix_disc_available + 1.

(** Modelled from the spec: lunix-ldisc.c is not among the sources.
    [lunix_ldisc_init]: [atomic_set(&lunix_disc_available, 1)]. *)
Definition lunix_ldisc_init_available : Z := 1.

(** Modelled from the spec: lunix-ldisc.c is not among the sources.
    [lunix_ldisc_read] and [lunix_ldisc_write] deny the operation. *)
Definition lunix_ldisc_read : Z := - EIO.
Definition lunix_ldisc_write : Z := - EIO.

(** What the tty layer asks of the discipline: to attach it to a tty on
    behalf of a process with or without [CAP_SYS_ADMIN], or to detach it
    from a tty it is attached to. *)
Inductive ldisc_request : Type :=
| AttachLdisc (capable_sys_admin : bool)
| DetachLdisc.

(** The requests served in order.  The state is the counter and the
    number of ttys the discipline is attached to; the tty layer calls
    [close] only for a tty whose [open] succeeded.  The result also lists
    the return values of the [open] calls. *)
Fixpoint ldisc_serve (reqs : list ldisc_request) (lunix_disc_available : Z)
    (attached : nat) : Z * nat * list Z :=
  match reqs with
  | [] => (lunix_disc_available, attached, [])
  | AttachLdisc c :: reqs' =>
      let '(ret, avail, _) :=
        lunix_ldisc_open c lunix_disc_available (mk_tty 0) in
      let '(a, n, rets) :=
        ldisc_serve reqs' avail (if ret =? 0 then S attached else attached) in
      (a, n, ret :: rets)
  | DetachLdisc :: reqs' =>
      match attached with
      | O => ldisc_serve reqs' lunix_disc_available attached
      | S n => ldisc_serve reqs' (lunix_ldisc_close lunix_disc_available) n
      end
  end.

(* ================================================================== *)
(** ** lunix-sensors.c : setting up and tearing down a sensor *)

(** A page as [get_zeroed_page] returns it. *)
Definition zeroed_page : lunix_msr_data_struct :=
  {| magic := 0; last_update := 0; values0 := 0 |}.

(** Modelled from the spec: lunix-sensors.c is not among the sources; this
    follows its description.  The allocation loop of [lunix_sensor_init]
    from index [i] on, [todo] slots to go: [page_ok j] tells whether the
    [j]-th call of [get_zeroed_page] succeeds; a failure sets
    [ret = -ENOMEM] and leaves the loop.  The slots hold [None] for NULL.
    The result is the return value, the slots and the number of pages
    obtained. *)
Fixpoint sensor_init_loop (todo : nat) (i : nat) (page_ok : nat -> bool)
    (slots : list (option lunix_msr_data_struct)) (got : nat)
    : Z * list (option lunix_msr_data_struct) * nat :=
  match todo with
  | O => (0, slots, got)
  | S todo' =>
      if page_ok i then
        sensor_init_loop todo' (S i) page_ok
          (<[i := Some (set_magic zeroed_page)]> slots) (S got)
      else (- ENOMEM, slots, got)
  end.

(** Modelled from the spec: lunix-sensors.c is not among the sources.
    [lunix_sensor_init]: every slot is set to NULL, then the loop runs
    over the [N_LUNIX_MSR] measurements. *)
Definition lunix_sensor_init (page_ok : nat -> bool)
    : Z * list (option lunix_msr_data_struct) * nat :=
  sensor_init_loop (Z.to_nat N_LUNIX_MSR) 0 page_ok
    (replicate (Z.to_nat N_LUNIX_MSR) None) 0.

(** Modelled from the spec: lunix-sensors.c is not among the sources.
    [lunix_sensor_destroy]: [free_page] for every slot that is not NULL;
    the result is the number of pages freed. *)
Definition lunix_sensor_destroy
    (slots : list (option lunix_msr_data_struct)) : nat :=
  length (filter (fun p => is_Some p) slots).

(* ================================================================== *)
(** ** mk-lunix-lookup.c : writing out a table *)

(** Modelled from the spec: mk-lunix-lookup.c is not among the sources;
    this follows the description of [main].  One line of a table: the
    entries of [i], [i+1], [i+2], [i+3]. *)
Definition table_line (convert : Z -> Z) (i : Z) : list Z :=
  [convert i; convert (i + 1); convert (i + 2); convert (i + 3)].

(** Modelled from the spec: mk-lunix-lookup.c is not among the sources.
    The loop [i = 0, 4, ..., 65532] over the lines of a table. *)
Definition generate_table (convert : Z -> Z) : list Z :=
  flat_map (fun k => table_line convert (4 * Z.of_nat k)) (seq 0 (Z.to_nat 16384)).

(* ================================================================== *)
(** ** A stream of frames *)

(** The working buffer as it is handed over at the end of each frame of a
    stream: every frame overwrites the buffer from its start and leaves
    the bytes beyond its own length as they were. *)
Fixpoint stream_packets (pk0 : list Z) (fs : list xmesh_frame)
    : list (list Z) :=
  match fs with
  | [] => []
  | f :: fs' =>
      let pk := write_bytes 0 (frame_raw f) pk0 in
      pk :: stream_packets pk fs'
  end.

(** A frame the parser accepts: every field is a byte, the payload length
    fits its field, and a frame with the sensor-data signature has a
    payload that reaches the light field. *)
Definition accepted_frame (f : xmesh_frame) : Prop :=
  Forall is_byte (frame_body f)
  /\ (length (fr_payload f) < 256)%nat
  /\ (fr_am_type f = 0x0B -> (17 <= length (fr_payload f))%nat).

(** What the update path extracts from a frame. *)
Definition frame_extract (f : xmesh_frame) : option (Z * Z * Z * Z) :=
  if fr_am_type f =? 0x0B then Some (frame_measurements f) else None.

(** A frame of another kind than sensor data, with an empty payload. *)
Definition sample_other_frame : xmesh_frame :=
  {| fr_type := 0x42; fr_dest_lo := 0x00; fr_dest_hi := 0x00;
     fr_am_type := 0x03; fr_am_group := 0x7D;
     fr_payload := []; fr_crc_lo := 0x10; fr_crc_hi := 0x20 |}.

(* ================================================================== *)
(** ** The session cache after a refresh *)

(** The session once [lunix_chrdev_state_update] has stored the timestamp
    [t] and rendered [text] into a cache that has room for it. *)
Definition cache_text (text : list ascii) (t : Z)
    (st : lunix_chrdev_state_struct) : lunix_chrdev_state_struct :=
  with_buf (Z.of_nat (length text))
    (text ++ ["000"%char] ++ drop (S (length text)) (buf_data st))
    (with_buf_timestamp t st).

(* ================================================================== *)
(** ** More sample data *)


(** What a read leaves behind when a signal ends it: the session of
    [sample_refreshed] on [sample_sensors], asleep on a current cache. *)
Definition sample_interrupted : read_result :=
  mk_read (- ERESTARTSYS) sample_sensors sample_refreshed sample_usrbuf 0 [].

(** Two updates the session of [sample_refreshed] does not notice: one of
    another sensor, one of its own sensor within the cached second. *)
Definition sample_unnoticed : list sched_event :=
  [ SensorUpdate 1 600 100 200 1700000060;
    SensorUpdate 0 700 150 250 1700000000 ].

(** The session of minor 32 (sensor 4, battery), as [open] leaves it. *)
Definition sample_session_node5 : lunix_chrdev_state_struct :=
  {| type := 0; sensor := 4; buf_lim := 0;
     buf_data := replicate 20 "x"%char; lock := 1; buf_timestamp := 0 |}.

(** Three frames in a row, and their bytes cut into three chunks. *)
Definition sample_frames : list xmesh_frame :=
  [sample_frame; sample_other_frame; sample_frame].

Definition sample_stream_chunks : list (list Z) :=
  let w := concat (map frame_wire sample_frames) in
  [take 5 w; take 30 (drop 5 w); drop 35 w].

(** Nothing registered yet. *)
Definition sample_registry : chrdev_registry := mk_registry [] None.

(* ================================================================== *)
(** ** Opening a device node, and the reads that follow *)

Definition ENXIO : Z := 6.

(** [MINOR(dev)] of linux/kdev_t.h. *)
Definition MINOR (dev : Z) : Z := Z.land dev (2 ^ MINORBITS - 1).

(** The kernel's [chrdev_open] in front of the driver: the file
    operations of [lunix_chrdev_cdev] are reached only through a device
    number inside the range the cdev was added for; for any other number
    the call fails with [-ENXIO] and [lunix_chrdev_open] is not run.
    [i_rdev] is the device number of the node that is opened,
    [iminor(inode)] its minor part. *)
Definition device_open (k : chrdev_registry) (i_rdev : Z)
    (nonseekable_ret : Z) (kmalloc_ret : option lunix_chrdev_state_struct)
    : Z * option lunix_chrdev_state_struct :=
  match cdev_live k with
  | Some (dev, count) =>
      if (dev <=? i_rdev) && (i_rdev <? dev + count)
      then lunix_chrdev_open nonseekable_ret (MINOR i_rdev) kmalloc_ret
      else (- ENXIO, None)
  | None => (- ENXIO, None)
  end.

(** What the producer stores while no read is in progress. *)
Fixpoint producer_runs (evs : list sched_event)
    (sensors : list lunix_sensor_struct) : list lunix_sensor_struct :=
  match evs with
  | [] => sensors
  | SignalPending :: evs' => producer_runs evs' sensors
  | SensorUpdate i b t l now :: evs' =>
      producer_runs evs' (sensors_update i b t l now sensors)
  end.

(** One later call of [read] on a session: what the producer stored since
    the previous call, the caller's buffer and count, and what happens
    while the call sleeps. *)
Record read_request : Type := mk_request {
  rq_before : list sched_event;
  rq_usrbuf : user_buffer;
  rq_cnt : Z;
  rq_during : list sched_event
}.

Section ReadSession.

Variable lookup_voltage lookup_temperature lookup_light : Z -> Z.
Variable LUNIX_CHRDEV_BUFSZ : Z.

(** The successive calls of [read] on one open file, each starting from
    the session, the sensors and the file offset the previous one left;
    the result lists their return values. *)
Fixpoint read_session (fuel : nat) (reqs : list read_request)
    (sensors : list lunix_sensor_struct) (st : lunix_chrdev_state_struct)
    (f_pos : Z) : res (list Z) :=
  match reqs with
  | [] => Ret []
  | rq :: reqs' =>
      rr ← lunix_chrdev_read lookup_voltage lookup_temperature lookup_light
             LUNIX_CHRDEV_BUFSZ fuel (producer_runs (rq_before rq) sensors)
             st (rq_usrbuf rq) (rq_cnt rq) f_pos (rq_during rq);
      rets ← read_session fuel reqs' (rd_sensors rr) (rd_state rr)
               (rd_f_pos rr);
      Ret (rd_ret rr :: rets)
  end.

End ReadSession.

(** The registry once the module is loaded with major number 60 and 16
    sensors. *)
Definition sample_loaded : chrdev_registry :=
  snd (lunix_chrdev_init 60 16 None None sample_registry).

(** Three later reads on a session: a first one, one after an update of
    another sensor, one into a buffer that cannot be written. *)
Definition sample_requests : list read_request :=
  [ mk_request [] sample_usrbuf 64 [];
    mk_request [SensorUpdate 0 600 100 200 1700000060] sample_usrbuf 3 [];
    mk_request [] bad_usrbuf 64 [] ].

(* ================================================================== *)
(** * Properties *)

(** Unfolding of the result monad. *)
Ltac res_unfold := unfold mbind, res_mbind, res_bind in *.

Ltac invert H := inversion H; subst; clear H.

(** ** The session lock and the wait queue *)

Lemma down_interruptible_ret sensors st evs dr sensors' st' evs' :
  down_interruptible sensors st evs = Ret (dr, sensors', st', evs') ->
  (dr = 0 /\ 0 < lock st /\ st' = with_lock (lock st - 1) st
   /\ sensors' = sensors /\ evs' = evs)
  \/ (dr = - EINTR /\ st' = st /\ lock st <= 0).
Proof.
  revert sensors.
  induction evs as [|e evs IH]; intros sensors; simpl;
    destruct (0 <? lock st) eqn:Hl.
  - intros H; invert H. left. repeat split; lia.
  - discriminate.
  - intros H; invert H. left. repeat split; lia.
  - destruct e as [|i b t l now].
    + intros H; invert H. right. repeat split; lia.
    + intros H. apply IH in H. destruct H as [H|H]; [lia | right; exact H].
Qed.

Lemma down_interruptible_free sensors st evs :
  0 < lock st ->
  down_interruptible sensors st evs
  = Ret (0, sensors, with_lock (lock st - 1) st, evs).
Proof.
  intros Hl. destruct evs; simpl;
    (destruct (0 <? lock st) eqn:E; [reflexivity | lia]).
Qed.

Lemma wait_event_interruptible_ret sensors st evs wr sensors' evs' :
  wait_event_interruptible sensors st evs = Ret (wr, sensors', evs') ->
  (wr = 0 /\ exists c, lunix_chrdev_state_needs_refresh sensors' st = Ret c
                       /\ c <> 0)
  \/ wr = - ERESTARTSYS.
Proof.
  revert sensors.
  induction evs as [|e evs IH]; intros sensors; simpl; res_unfold;
    destruct (lunix_chrdev_state_needs_refresh sensors st) as [c| | |] eqn:Hc;
    try discriminate;
    destruct (c =? 0) eqn:Hz; simpl.
  - discriminate.
  - intros H; invert H. left. split; [reflexivity|]. exists c. split; [assumption|lia].
  - destruct e as [|i b t l now].
    + intros H; invert H. right. reflexivity.
    + apply IH.
  - intros H; invert H. left. split; [reflexivity|]. exists c. split; [assumption|lia].
Qed.

Lemma down_interruptible_no_spin sensors st evs :
  down_interruptible sensors st evs <> Spin.
Proof.
  revert sensors.
  induction evs as [|e evs IH]; intros sensors; simpl;
    destruct (0 <? lock st); try discriminate.
  destruct e; [discriminate | apply IH].
Qed.

Lemma session_msr_no_spin sensors st : session_msr sensors st <> Spin.
Proof.
  unfold session_msr. res_unfold.
  destruct (sensors !! Z.to_nat (sensor st)) as [s|]; simpl; [|discriminate].
  destruct (msr_data s !! Z.to_nat (type st)); simpl; discriminate.
Qed.

Lemma needs_refresh_no_spin sensors st :
  lunix_chrdev_state_needs_refresh sensors st <> Spin.
Proof.
  unfold lunix_chrdev_state_needs_refresh. res_unfold.
  pose proof (session_msr_no_spin sensors st) as H.
  destruct (session_msr sensors st); try discriminate; [|congruence].
  destruct (negb _); discriminate.
Qed.

Lemma wait_event_interruptible_no_spin sensors st evs :
  wait_event_interruptible sensors st evs <> Spin.
Proof.
  revert sensors.
  induction evs as [|e evs IH]; intros sensors; simpl; res_unfold;
    pose proof (needs_refresh_no_spin sensors st) as H;
    destruct (lunix_chrdev_state_needs_refresh sensors st) as [c| | |];
    try discriminate; try congruence;
    destruct (negb (c =? 0)); try discriminate.
  destruct e; [discriminate | apply IH].
Qed.

(** The staleness check does not look at the lock or at the cache text. *)
Lemma needs_refresh_with_lock sensors st l :
  lunix_chrdev_state_needs_refresh sensors (with_lock l st)
  = lunix_chrdev_state_needs_refresh sensors st.
Proof. reflexivity. Qed.

Section ChrdevFacts.

Variable lookup_voltage lookup_temperature lookup_light : Z -> Z.
Variable LUNIX_CHRDEV_BUFSZ : Z.

Abbreviation state_update :=
  (lunix_chrdev_state_update lookup_voltage lookup_temperature lookup_light
     LUNIX_CHRDEV_BUFSZ).
Abbreviation refresh_loop :=
  (read_refresh_loop lookup_voltage lookup_temperature lookup_light
     LUNIX_CHRDEV_BUFSZ).
Abbreviation chrdev_read :=
  (lunix_chrdev_read lookup_voltage lookup_temperature lookup_light
     LUNIX_CHRDEV_BUFSZ).

(** The three ways [lunix_chrdev_state_update] returns. *)
Lemma state_update_ret sensors st r st' :
  state_update sensors st = Ret (r, st') ->
  (r = - EAGAIN /\ st' = st
   /\ lunix_chrdev_state_needs_refresh sensors st = Ret 0)
  \/ (exists m c,
        session_msr sensors st = Ret m
        /\ lunix_chrdev_state_needs_refresh sensors st = Ret c /\ c <> 0
        /\ ((r = - EINVAL
             /\ lookup_by_type lookup_voltage lookup_temperature lookup_light
                  (type st) (values0 m) = None
             /\ st' = with_buf_timestamp (last_update m) st)
            \/ (exists v,
                  r = 0
                  /\ lookup_by_type lookup_voltage lookup_temperature
                       lookup_light (type st) (values0 m) = Some v
                  /\ st' = (let '(n, buf) :=
                              snprintf (buf_data st) LUNIX_CHRDEV_BUFSZ
                                (render_measurement (Z.quot v 1000)
                                   (Z.abs (Z.rem v 1000))) in
                            with_buf n buf
                              (with_buf_timestamp (last_update m) st))))).
Proof.
  unfold lunix_chrdev_state_update. res_unfold.
  destruct (lunix_chrdev_state_needs_refresh sensors st) as [c| | |] eqn:Hc;
    try discriminate.
  destruct (c =? 0) eqn:Hz.
  - intros H; invert H. left. apply Z.eqb_eq in Hz. subst c. auto.
  - destruct (session_msr sensors st) as [m| | |] eqn:Hm; try discriminate.
    simpl.
    destruct (lookup_by_type _ _ _ (type st) (values0 m)) as [v|] eqn:Hv.
    + destruct (snprintf _ _ _) as [n buf] eqn:Hs.
      intros H; invert H. right. exists m, c.
      split; [reflexivity|]. split; [reflexivity|]. split; [lia|].
      right. exists v. rewrite Hs. auto.
    + intros H; invert H. right. exists m, c.
      split; [reflexivity|]. split; [reflexivity|]. split; [lia|].
      left. auto.
Qed.

Lemma state_update_no_spin sensors st : state_update sensors st <> Spin.
Proof.
  unfold lunix_chrdev_state_update. res_unfold.
  pose proof (needs_refresh_no_spin sensors st) as H.
  destruct (lunix_chrdev_state_needs_refresh sensors st) as [c| | |];
    try discriminate; try congruence.
  destruct (c =? 0); [discriminate|].
  pose proof (session_msr_no_spin sensors st) as H'.
  destruct (session_msr sensors st) as [m| | |];
    try discriminate; try congruence.
  cbn zeta. destruct (lookup_by_type _ _ _ _ _); [|discriminate].
  destruct (snprintf _ _ _). discriminate.
Qed.

(** Leaving the refresh loop early means the reader was interrupted. *)
Lemma read_refresh_loop_early fuel sensors st evs r sensors' st' evs' :
  refresh_loop fuel sensors st evs = Ret (Some r, sensors', st', evs') ->
  r = - ERESTARTSYS.
Proof.
  revert sensors st evs.
  induction fuel as [|fuel IH]; intros sensors st evs; simpl; [discriminate|].
  res_unfold.
  destruct (state_update sensors st) as [[r0 st1]| | |]; try discriminate.
  destruct (r0 =? - EAGAIN); [|discriminate].
  destruct (wait_event_interruptible sensors (up st1) evs)
    as [[[wr s1] e1]| | |]; try discriminate.
  destruct (negb (wr =? 0)); [intros H; invert H; reflexivity|].
  destruct (down_interruptible s1 (up st1) e1)
    as [[[[dr s2] st3] e2]| | |]; try discriminate.
  destruct (negb (dr =? 0)); [intros H; invert H; reflexivity|].
  apply IH.
Qed.

(** Two turns of the loop are always enough: after a wake-up with the
    condition true, the lock is free and the refresh finds new data. *)
Lemma read_refresh_loop_no_spin fuel sensors st evs :
  (2 <= fuel)%nat -> 0 <= lock st ->
  refresh_loop fuel sensors st evs <> Spin.
Proof.
  intros Hf Hl.
  destruct fuel as [|[|fuel]]; try lia. clear Hf.
  cbn [read_refresh_loop]. res_unfold.
  pose proof (state_update_no_spin sensors st) as Hns.
  destruct (state_update sensors st) as [[r0 st1]| | |] eqn:Hu;
    try discriminate; try congruence. clear Hns.
  destruct (r0 =? - EAGAIN) eqn:Hr; [|discriminate].
  apply state_update_ret in Hu.
  destruct Hu as [(_ & -> & _)|(m & c & _ & _ & _ & [(-> & _)|(v & -> & _)])];
    try (vm_compute in Hr; discriminate).
  pose proof (wait_event_interruptible_no_spin sensors (up st) evs) as Hns.
  destruct (wait_event_interruptible sensors (up st) evs)
    as [[[wr s1] e1]| | |] eqn:Hw; try discriminate; try congruence.
  clear Hns.
  destruct (negb (wr =? 0)) eqn:Hwr; [discriminate|].
  apply wait_event_interruptible_ret in Hw.
  destruct Hw as [(-> & c & Hc & Hc0)| -> ]; [|vm_compute in Hwr; discriminate].
  rewrite down_interruptible_free by (simpl; lia).
  cbn [negb Z.eqb].
  unfold lunix_chrdev_state_update. res_unfold.
  rewrite needs_refresh_with_lock.
  rewrite Hc.
  destruct (c =? 0) eqn:Hz; [lia|].
  match goal with
  | |- context [session_msr ?s ?x] =>
      pose proof (session_msr_no_spin s x) as Hns;
      destruct (session_msr s x) as [m| | |];
      try discriminate; try congruence
  end.
  cbn zeta.
  destruct (lookup_by_type _ _ _ _ _).
  - destruct (snprintf _ _ _). cbn. discriminate.
  - cbn. discriminate.
Qed.

(** The return values of [lunix_chrdev_read]. *)
Lemma lunix_chrdev_read_ret fuel sensors st usrbuf cnt f_pos evs rr :
  0 <= cnt ->
  chrdev_read fuel sensors st usrbuf cnt f_pos evs = Ret rr ->
  rd_ret rr = - ERESTARTSYS
  \/ rd_ret rr = 0
  \/ (0 < rd_ret rr <= cnt
      /\ rd_ret rr <= buf_lim (rd_state rr) - f_pos
      /\ rd_ret rr <= ubuf_writable usrbuf)
  \/ (rd_ret rr = - EFAULT /\ ubuf_writable usrbuf < cnt).
Proof.
  intros Hcnt. unfold lunix_chrdev_read. res_unfold.
  destruct (down_interruptible sensors st evs)
    as [[[[dr s0] st0] e0]| | |]; try discriminate.
  destruct (negb (dr =? 0)); [intros H; invert H; auto|].
  destruct (if f_pos =? 0 then refresh_loop fuel s0 st0 e0
            else Ret (None, s0, st0, e0))
    as [[[[early s1] st1] e1]| | |] eqn:Hloop; try discriminate.
  destruct early as [r|].
  - intros H; invert H. left. simpl.
    destruct (f_pos =? 0); [|discriminate].
    eapply read_refresh_loop_early; eassumption.
  - set (avail := if buf_lim st1 - f_pos <? 0 then 0 else buf_lim st1 - f_pos).
    set (n := if cnt >? avail then avail else cnt).
    assert (Hn : 0 <= n <= cnt /\ (n = 0 \/ n <= buf_lim st1 - f_pos)).
    { subst n avail.
      destruct (buf_lim st1 - f_pos <? 0) eqn:E1;
        destruct (cnt >? _) eqn:E2; lia. }
    destruct (n =? 0) eqn:Hn0.
    + intros H; invert H. auto.
    + destruct (_ || _); [discriminate|].
      unfold copy_to_user.
      destruct (negb (n - Z.min n (Z.max 0 (ubuf_writable usrbuf)) =? 0)) eqn:Hc.
      * intros H; invert H. right. right. right. simpl. split; [reflexivity|].
        apply negb_true_iff, Z.eqb_neq in Hc. lia.
      * intros H; invert H. right. right. left. simpl.
        apply negb_false_iff, Z.eqb_eq in Hc. lia.
Qed.

(** With a budget of two turns the read never runs out of budget. *)
Lemma lunix_chrdev_read_no_spin fuel sensors st usrbuf cnt f_pos evs :
  (2 <= fuel)%nat ->
  chrdev_read fuel sensors st usrbuf cnt f_pos evs <> Spin.
Proof.
  intros Hf. unfold lunix_chrdev_read. res_unfold.
  pose proof (down_interruptible_no_spin sensors st evs) as Hds.
  destruct (down_interruptible sensors st evs)
    as [[[[dr s0] st0] e0]| | |] eqn:Hd; try discriminate; try congruence.
  clear Hds.
  destruct (negb (dr =? 0)) eqn:Hdr; [discriminate|].
  apply down_interruptible_ret in Hd.
  destruct Hd as [(-> & Hl & -> & -> & ->)| (-> & _)];
    [|vm_compute in Hdr; discriminate].
  destruct (f_pos =? 0).
  - pose proof (read_refresh_loop_no_spin fuel sensors
                  (with_lock (lock st - 1) st) evs Hf) as Hns.
    destruct (refresh_loop fuel sensors (with_lock (lock st - 1) st) evs)
      as [[[[early s1] st1] e1]| | |]; try discriminate.
    + destruct early; [discriminate|].
      repeat match goal with
             | |- context [if ?b then _ else _] => destruct b
             | |- context [let '(_, _) := ?p in _] => destruct p
             end; discriminate.
    + intros _. apply Hns; [simpl; lia | reflexivity].
  - repeat match goal with
           | |- context [if ?b then _ else _] => destruct b
           | |- context [let '(_, _) := ?p in _] => destruct p
           end; discriminate.
Qed.

End ChrdevFacts.

(** ** Rendering *)

Lemma pos_to_uint_nonnil p : Pos.to_uint p <> Decimal.Nil.
Proof.
  intros H.
  pose proof (DecimalPos.Unsigned.of_to p) as Hp.
  rewrite H in Hp. discriminate.
Qed.

Lemma render_ld_string n :
  render_ld n
  = list_ascii_of_string (NilZero.string_of_int (Z.to_int n)).
Proof.
  unfold render_ld, sign_chars, decimal_digits.
  destruct n as [|p|p]; reflexivity.
Qed.

(** [%ld] prints a numeral that reads back as the number printed. *)
Lemma parse_render_ld n : parse_ld (render_ld n) = Some n.
Proof.
  unfold parse_ld. rewrite render_ld_string, string_of_list_ascii_of_string.
  rewrite NilZero.isi.
  - simpl. f_equal. apply DecimalZ.of_to.
  - destruct n as [|p|p]; simpl; try discriminate.
    intros H. injection H as H. exact (pos_to_uint_nonnil p H).
  - destruct n as [|p|p]; simpl; try discriminate.
    intros H. injection H as H. exact (pos_to_uint_nonnil p H).
Qed.

Lemma render_03ld_table :
  forallb (fun r => if List.list_eq_dec Ascii.ascii_dec (render_0ld 3 r) (three_digits r)
                    then true else false)
    (map Z.of_nat (seq 0 1000)) = true.
Proof. vm_compute. reflexivity. Qed.

(** [%03ld] of a number below 1000 is its three decimal digits. *)
Lemma render_03ld_digits r :
  0 <= r < 1000 -> render_0ld 3 r = three_digits r.
Proof.
  intros Hr.
  pose proof render_03ld_table as H.
  rewrite forallb_forall in H.
  specialize (H r).
  destruct (List.list_eq_dec Ascii.ascii_dec (render_0ld 3 r) (three_digits r)) as [E|E];
    [exact E|].
  exfalso. assert (false = true) as Hf; [|discriminate].
  apply H. apply in_map_iff. exists (Z.to_nat r). split; [lia|].
  apply in_seq. lia.
Qed.

Lemma snprintf_fits buf size text :
  Z.of_nat (length text) < size ->
  snprintf buf size text
  = (Z.of_nat (length text),
     text ++ ["000"%char] ++ drop (S (length text)) buf).
Proof.
  intros H. unfold snprintf.
  destruct (size <=? 0) eqn:E; [lia|].
  replace (Nat.min (length text) (Z.to_nat (size - 1))) with (length text)
    by lia.
  rewrite firstn_all. reflexivity.
Qed.

(** ** The measurement buffers *)

(** The pages of a sensor after an update, page by page. *)
Lemma lunix_sensor_update_pages s batt temp light now a b c :
  msr_data s = [a; b; c] ->
  msr_data (fst (lunix_sensor_update s batt temp light now))
  = [ mk_msr LUNIX_MSR_MAGIC (to_uint32 now) batt;
      mk_msr LUNIX_MSR_MAGIC (to_uint32 now) temp;
      mk_msr LUNIX_MSR_MAGIC (to_uint32 now) light ].
Proof.
  intros H. unfold lunix_sensor_update, on_msr. simpl. rewrite H. reflexivity.
Qed.

Lemma sensor_initialised_pages s :
  sensor_initialised s -> exists a b c, msr_data s = [a; b; c].
Proof.
  unfold sensor_initialised. intros H.
  destruct (msr_data s) as [|a [|b [|c [|d l]]]]; try discriminate.
  eauto.
Qed.

Lemma lunix_sensor_update_initialised s batt temp light now :
  sensor_initialised s ->
  sensor_initialised (fst (lunix_sensor_update s batt temp light now)).
Proof.
  intros H. destruct (sensor_initialised_pages s H) as (a & b & c & E).
  unfold sensor_initialised.
  rewrite (lunix_sensor_update_pages _ _ _ _ _ _ _ _ E). reflexivity.
Qed.

(** A page either keeps its stamp or gets the new one. *)
Lemma lunix_sensor_update_page s batt temp light now k d :
  msr_data s !! k = Some d ->
  exists d',
    msr_data (fst (lunix_sensor_update s batt temp light now)) !! k = Some d'
    /\ (last_update d' = to_uint32 now \/ d' = d).
Proof.
  unfold lunix_sensor_update, on_msr. simpl.
  destruct (msr_data s) as [|a [|b [|c l]]];
    destruct k as [|[|[|k]]]; simpl; try discriminate;
    intros H; try (injection H as H; subst);
    eexists; (split; [first [reflexivity | eassumption]|]); auto.
Qed.

Lemma to_uint32_small x : 0 <= x < 2 ^ 32 -> to_uint32 x = x.
Proof. intros H. unfold to_uint32. apply Z.mod_small. exact H. Qed.




(** ** Sessions and producer updates *)

Lemma session_msr_ret sensors st m :
  session_msr sensors st = Ret m <->
  exists s, sensors !! Z.to_nat (sensor st) = Some s
            /\ msr_data s !! Z.to_nat (type st) = Some m.
Proof.
  unfold session_msr. res_unfold.
  destruct (sensors !! Z.to_nat (sensor st)) as [s|]; simpl.
  - destruct (msr_data s !! Z.to_nat (type st)) as [d|] eqn:E; simpl.
    + split.
      * intros H; invert H. eauto.
      * intros (s' & Hs & Hd). invert Hs. congruence.
    + split; [discriminate|]. intros (s' & Hs & Hd). invert Hs. congruence.
  - split; [discriminate|]. intros (s' & Hs & _). discriminate.
Qed.

(** A producer update leaves the page a session looks at alone, unless it
    is an update of the session's own sensor that stamps the page. *)
Lemma session_msr_sensors_update sensors st i batt temp light now m :
  session_msr sensors st = Ret m ->
  exists m',
    session_msr (sensors_update i batt temp light now sensors) st = Ret m'
    /\ ((i = Z.to_nat (sensor st) /\ last_update m' = to_uint32 now)
        \/ m' = m).
Proof.
  intros H. apply session_msr_ret in H. destruct H as (s & Hs & Hd).
  unfold sensors_update.
  destruct (decide (i = Z.to_nat (sensor st))) as [->|Hne].
  - destruct (lunix_sensor_update_page s batt temp light now _ _ Hd)
      as (d' & Hd' & Hor).
    exists d'. split.
    + apply session_msr_ret. eexists. split; [|exact Hd'].
      rewrite list_lookup_alter_eq, Hs. reflexivity.
    + destruct Hor; auto.
  - exists m. split; [|auto].
    apply session_msr_ret. exists s. split; [|exact Hd].
    rewrite list_lookup_alter_ne by exact Hne. exact Hs.
Qed.

Lemma needs_refresh_ret sensors st m :
  session_msr sensors st = Ret m ->
  lunix_chrdev_state_needs_refresh sensors st
  = Ret (if buf_timestamp st =? last_update m then 0 else 1).
Proof.
  intros H. unfold lunix_chrdev_state_needs_refresh. res_unfold.
  rewrite H. destruct (buf_timestamp st =? last_update m); reflexivity.
Qed.

Lemma needs_refresh_defined sensors st c :
  lunix_chrdev_state_needs_refresh sensors st = Ret c ->
  exists m, session_msr sensors st = Ret m.
Proof.
  unfold lunix_chrdev_state_needs_refresh. res_unfold.
  destruct (session_msr sensors st) as [m| | |]; try discriminate. eauto.
Qed.

Section ChrdevProgress.

Variable lookup_voltage lookup_temperature lookup_light : Z -> Z.
Variable LUNIX_CHRDEV_BUFSZ : Z.

(** A stale cache is refreshed on the spot. *)
Lemma state_update_stale sensors st m v :
  session_msr sensors st = Ret m ->
  buf_timestamp st <> last_update m ->
  lookup_by_type lookup_voltage lookup_temperature lookup_light
    (type st) (values0 m) = Some v ->
  let text := render_measurement (Z.quot v 1000) (Z.abs (Z.rem v 1000)) in
  Z.of_nat (length text) < LUNIX_CHRDEV_BUFSZ ->
  lunix_chrdev_state_update lookup_voltage lookup_temperature lookup_light
    LUNIX_CHRDEV_BUFSZ sensors st
  = Ret (0, with_buf (Z.of_nat (length text))
              (text ++ ["000"%char] ++ drop (S (length text)) (buf_data st))
              (with_buf_timestamp (last_update m) st)).
Proof.
  intros Hm Hne Hv text Hfit.
  unfold lunix_chrdev_state_update. res_unfold.
  rewrite (needs_refresh_ret _ _ _ Hm), Hm.
  destruct (buf_timestamp st =? last_update m) eqn:E;
    [apply Z.eqb_eq in E; contradiction|].
  simpl. rewrite Hv. fold text. rewrite (snprintf_fits _ _ _ Hfit).
  reflexivity.
Qed.

(** A read at offset 0 over a stale cache returns at once with the whole
    text when the caller asks for at least that much and can take it. *)
Lemma lunix_chrdev_read_stale fuel sensors st usrbuf cnt evs m v :
  (1 <= fuel)%nat ->
  0 < lock st ->
  session_msr sensors st = Ret m ->
  buf_timestamp st <> last_update m ->
  lookup_by_type lookup_voltage lookup_temperature lookup_light
    (type st) (values0 m) = Some v ->
  let text := render_measurement (Z.quot v 1000) (Z.abs (Z.rem v 1000)) in
  Z.of_nat (length text) < LUNIX_CHRDEV_BUFSZ ->
  0 < Z.of_nat (length text) <= cnt ->
  Z.of_nat (length text) <= ubuf_writable usrbuf ->
  exists rr,
    lunix_chrdev_read lookup_voltage lookup_temperature lookup_light
      LUNIX_CHRDEV_BUFSZ fuel sensors st usrbuf cnt 0 evs = Ret rr
    /\ rd_ret rr = Z.of_nat (length text)
    /\ ubuf_data (rd_usrbuf rr)
       = text ++ drop (length text) (ubuf_data usrbuf)
    /\ rd_f_pos rr = 0
    /\ rd_sensors rr = sensors
    /\ lock (rd_state rr) = lock st
    /\ buf_timestamp (rd_state rr) = last_update m.
Proof.
  intros Hf Hl Hm Hne Hv text Hfit Hcnt Hw.
  destruct fuel as [|fuel]; [lia|].
  unfold lunix_chrdev_read. res_unfold.
  rewrite (down_interruptible_free _ _ _ Hl).
  cbn [negb Z.eqb]. cbn [read_refresh_loop]. res_unfold.
  rewrite (state_update_stale sensors (with_lock (lock st - 1) st) m v
             Hm Hne Hv Hfit).
  fold text.
  change (0 =? - EAGAIN) with false. cbv iota.
  set (L := Z.of_nat (length text)) in *.
  cbn [buf_lim with_buf].
  replace (L - 0) with L by lia.
  destruct (L <? 0) eqn:E1; [lia|].
  destruct (cnt >? L) eqn:E2.
  - destruct (L =? 0) eqn:E3; [lia|].
    cbn [buf_data with_buf].
    match goal with
    | |- context [(0 <? 0) || ?b] => replace b with false
    end.
    2:{ symmetry. apply Z.ltb_ge. rewrite length_app. subst L. simpl. lia. }
    cbn [orb Z.ltb Z.compare].
    unfold copy_to_user.
    replace (Z.min L (Z.max 0 (ubuf_writable usrbuf))) with L by lia.
    replace (L - L) with 0 by lia. cbn [negb Z.eqb].
    replace (0 + L >=? L) with true by (symmetry; apply Z.geb_le; lia).
    eexists. split; [reflexivity|]. cbn.
    split; [reflexivity|].
    split.
    { subst L. rewrite Nat2Z.id. change (Z.to_nat 0) with 0%nat.
      rewrite drop_0, take_app_length, firstn_all. reflexivity. }
    repeat split; lia.
  - destruct (cnt =? 0) eqn:E3; [lia|].
    assert (cnt = L) as -> by lia.
    cbn [buf_data with_buf].
    match goal with
    | |- context [(0 <? 0) || ?b] => replace b with false
    end.
    2:{ symmetry. apply Z.ltb_ge. rewrite length_app. subst L. simpl. lia. }
    cbn [orb Z.ltb Z.compare].
    unfold copy_to_user.
    replace (Z.min L (Z.max 0 (ubuf_writable usrbuf))) with L by lia.
    replace (L - L) with 0 by lia. cbn [negb Z.eqb].
    replace (0 + L >=? L) with true by (symmetry; apply Z.geb_le; lia).
    eexists. split; [reflexivity|]. cbn.
    split; [reflexivity|].
    split.
    { subst L. rewrite Nat2Z.id. change (Z.to_nat 0) with 0%nat.
      rewrite drop_0, take_app_length, firstn_all. reflexivity. }
    repeat split; lia.
Qed.

End ChrdevProgress.

(** ** A read on a session in good order returns or sleeps *)

Lemma session_ok_with_lock bufsz sensors st l :
  session_ok bufsz sensors st -> session_ok bufsz sensors (with_lock l st).
Proof. intros H. exact H. Qed.

Lemma session_ok_sensors_update bufsz sensors st i b t l now :
  session_ok bufsz sensors st ->
  session_ok bufsz (sensors_update i b t l now sensors) st.
Proof.
  intros (Hty & (s & Hs & Hi) & Hbuf). split; [exact Hty|]. split; [|exact Hbuf].
  unfold sensors_update.
  destruct (decide (i = Z.to_nat (sensor st))) as [->|Hne].
  - eexists. split.
    + rewrite list_lookup_alter_eq, Hs. reflexivity.
    + apply lunix_sensor_update_initialised. exact Hi.
  - exists s. split; [|exact Hi].
    rewrite list_lookup_alter_ne by exact Hne. exact Hs.
Qed.

Lemma session_ok_msr bufsz sensors st :
  session_ok bufsz sensors st -> exists m, session_msr sensors st = Ret m.
Proof.
  intros (Hty & (s & Hs & Hi) & _).
  destruct (sensor_initialised_pages s Hi) as (a & b & c & E).
  assert (exists m, msr_data s !! Z.to_nat (type st) = Some m) as (m & Hm).
  { rewrite E. unfold N_LUNIX_MSR in Hty.
    assert (type st = 0 \/ type st = 1 \/ type st = 2) as [->|[->| ->]]
      by lia; simpl; eauto. }
  exists m. apply session_msr_ret. eauto.
Qed.

Lemma down_interruptible_total sensors st evs :
  (exists r, down_interruptible sensors st evs = Ret r)
  \/ down_interruptible sensors st evs = Block.
Proof.
  revert sensors. induction evs as [|e evs IH]; intros sensors; simpl;
    destruct (0 <? lock st); eauto.
  destruct e; eauto.
Qed.

Lemma down_interruptible_session_ok bufsz evs : forall sensors st dr s' st' evs',
  down_interruptible sensors st evs = Ret (dr, s', st', evs') ->
  session_ok bufsz sensors st -> session_ok bufsz s' st'.
Proof.
  induction evs as [|e evs IH]; intros sensors st dr s' st' evs' Hd Hok;
    simpl in Hd; destruct (0 <? lock st).
  - injection Hd as <- <- <- <-. exact Hok.
  - discriminate.
  - injection Hd as <- <- <- <-. exact Hok.
  - destruct e as [|i b t l now].
    + injection Hd as <- <- <- <-. exact Hok.
    + apply (IH _ _ _ _ _ _ Hd). apply session_ok_sensors_update. exact Hok.
Qed.

Lemma wait_event_interruptible_total bufsz sensors st evs :
  session_ok bufsz sensors st ->
  (exists wr sensors' evs',
     wait_event_interruptible sensors st evs = Ret (wr, sensors', evs')
     /\ session_ok bufsz sensors' st)
  \/ wait_event_interruptible sensors st evs = Block.
Proof.
  revert sensors. induction evs as [|e evs IH]; intros sensors Hok;
    destruct (session_ok_msr _ _ _ Hok) as (m & Hm);
    simpl; res_unfold; rewrite (needs_refresh_ret _ _ _ Hm);
    destruct (buf_timestamp st =? last_update m); simpl; eauto 6.
  destruct e as [|i b t l now]; [eauto 6|].
  apply IH. apply session_ok_sensors_update. exact Hok.
Qed.

Section ChrdevTotal.

Variable lookup_voltage lookup_temperature lookup_light : Z -> Z.
Variable LUNIX_CHRDEV_BUFSZ : Z.
Hypothesis fits :
  tables_fit lookup_voltage lookup_temperature lookup_light LUNIX_CHRDEV_BUFSZ.

Lemma state_update_total sensors st :
  session_ok LUNIX_CHRDEV_BUFSZ sensors st ->
  exists r st',
    lunix_chrdev_state_update lookup_voltage lookup_temperature lookup_light
      LUNIX_CHRDEV_BUFSZ sensors st = Ret (r, st')
    /\ session_ok LUNIX_CHRDEV_BUFSZ sensors st'
    /\ lock st' = lock st.
Proof.
  intros Hok. destruct (session_ok_msr _ _ _ Hok) as (m & Hm).
  unfold lunix_chrdev_state_update. res_unfold.
  rewrite (needs_refresh_ret _ _ _ Hm), Hm.
  destruct (buf_timestamp st =? last_update m); simpl; [eauto|].
  destruct Hok as (Hty & Hs & Hlen & Hlim).
  destruct (lookup_by_type lookup_voltage lookup_temperature lookup_light
              (type st) (values0 m)) as [v|] eqn:Hv.
  - pose proof (fits _ _ _ Hv) as Hfit.
    rewrite (snprintf_fits _ _ _ Hfit).
    eexists _, _. split; [reflexivity|]. split; [|reflexivity].
    split; [exact Hty|]. split; [exact Hs|].
    cbn [buf_data buf_lim with_buf with_buf_timestamp].
    split; [|lia].
    rewrite length_app. cbn [app length]. rewrite length_drop. lia.
  - eexists _, _. split; [reflexivity|]. split; [|reflexivity].
    split; [exact Hty|]. split; [exact Hs|]. simpl. auto.
Qed.

Lemma read_refresh_loop_cases fuel : forall sensors st evs,
  session_ok LUNIX_CHRDEV_BUFSZ sensors st ->
  (exists early sensors' st' evs',
     read_refresh_loop lookup_voltage lookup_temperature lookup_light
       LUNIX_CHRDEV_BUFSZ fuel sensors st evs
     = Ret (early, sensors', st', evs')
     /\ session_ok LUNIX_CHRDEV_BUFSZ sensors' st')
  \/ read_refresh_loop lookup_voltage lookup_temperature lookup_light
       LUNIX_CHRDEV_BUFSZ fuel sensors st evs = Block
  \/ read_refresh_loop lookup_voltage lookup_temperature lookup_light
       LUNIX_CHRDEV_BUFSZ fuel sensors st evs = Spin.
Proof.
  induction fuel as [|fuel IH]; intros sensors st evs Hok; [auto|].
  cbn [read_refresh_loop]. res_unfold.
  destruct (state_update_total sensors st Hok) as (r & st1 & Hu & Hok1 & Hl1).
  rewrite Hu.
  destruct (r =? - EAGAIN); [|left; eauto 8].
  assert (Hok2 : session_ok LUNIX_CHRDEV_BUFSZ sensors (up st1)) by exact Hok1.
  destruct (wait_event_interruptible_total _ sensors (up st1) evs Hok2)
    as [(wr & s1 & e1 & Hw & Hok3)| Hw]; rewrite Hw; [|auto].
  destruct (negb (wr =? 0)); [left; eauto 8|].
  destruct (down_interruptible_total s1 (up st1) e1)
    as [([[[dr s2] st3] e2] & Hd)|Hd]; rewrite Hd; [|auto].
  pose proof (down_interruptible_session_ok _ _ _ _ _ _ _ _ Hd Hok3) as Hok4.
  destruct (negb (dr =? 0)); [left; eauto 8|].
  apply IH. exact Hok4.
Qed.

Lemma read_refresh_loop_total fuel sensors st evs :
  (2 <= fuel)%nat -> 0 <= lock st ->
  session_ok LUNIX_CHRDEV_BUFSZ sensors st ->
  (exists early sensors' st' evs',
     read_refresh_loop lookup_voltage lookup_temperature lookup_light
       LUNIX_CHRDEV_BUFSZ fuel sensors st evs
     = Ret (early, sensors', st', evs')
     /\ session_ok LUNIX_CHRDEV_BUFSZ sensors' st')
  \/ read_refresh_loop lookup_voltage lookup_temperature lookup_light
       LUNIX_CHRDEV_BUFSZ fuel sensors st evs = Block.
Proof.
  intros Hf Hl Hok.
  destruct (read_refresh_loop_cases fuel sensors st evs Hok) as [H|[H|H]];
    [left; exact H | right; exact H |].
  exfalso. revert H. apply read_refresh_loop_no_spin; assumption.
Qed.

(** A read on a session in good order, at an offset within the cached
    text, returns or sleeps for ever: it neither touches memory outside
    the cache nor spins. *)
Lemma lunix_chrdev_read_total fuel sensors st usrbuf cnt f_pos evs :
  (2 <= fuel)%nat ->
  session_ok LUNIX_CHRDEV_BUFSZ sensors st ->
  0 <= cnt -> 0 <= f_pos ->
  (exists rr,
     lunix_chrdev_read lookup_voltage lookup_temperature lookup_light
       LUNIX_CHRDEV_BUFSZ fuel sensors st usrbuf cnt f_pos evs = Ret rr
     /\ session_ok LUNIX_CHRDEV_BUFSZ (rd_sensors rr) (rd_state rr)
     /\ 0 <= rd_f_pos rr)
  \/ lunix_chrdev_read lookup_voltage lookup_temperature lookup_light
       LUNIX_CHRDEV_BUFSZ fuel sensors st usrbuf cnt f_pos evs = Block.
Proof.
  intros Hf Hok Hcnt Hpos. unfold lunix_chrdev_read. res_unfold.
  destruct (down_interruptible_total sensors st evs)
    as [([[[dr s0] st0] e0] & Hd)|Hd]; rewrite Hd; [|auto].
  pose proof (down_interruptible_session_ok _ _ _ _ _ _ _ _ Hd Hok) as Hok0.
  apply down_interruptible_ret in Hd.
  destruct Hd as [(-> & Hl & -> & -> & ->)|(-> & -> & Hl)].
  2:{ left. eexists. split; [reflexivity|]. simpl. auto. }
  cbn [negb Z.eqb].
  assert (Hloop :
    (exists early s1 st1 e1,
       (if f_pos =? 0
        then read_refresh_loop lookup_voltage lookup_temperature lookup_light
               LUNIX_CHRDEV_BUFSZ fuel sensors (with_lock (lock st - 1) st) evs
        else Ret (None, sensors, with_lock (lock st - 1) st, evs))
       = Ret (early, s1, st1, e1)
       /\ session_ok LUNIX_CHRDEV_BUFSZ s1 st1)
    \/ (if f_pos =? 0
        then read_refresh_loop lookup_voltage lookup_temperature lookup_light
               LUNIX_CHRDEV_BUFSZ fuel sensors (with_lock (lock st - 1) st) evs
        else Ret (None, sensors, with_lock (lock st - 1) st, evs)) = Block).
  { destruct (f_pos =? 0).
    - apply read_refresh_loop_total; [exact Hf | simpl; lia | exact Hok].
    - left. eexists _, _, _, _. split; [reflexivity | exact Hok]. }
  destruct Hloop as [(early & s1 & st1 & e1 & Hr & Hok1)|Hr]; rewrite Hr;
    [|auto].
  left. destruct early as [r|].
  - eexists. split; [reflexivity|]. simpl. auto.
  - pose proof Hok1 as (_ & _ & Hlen & Hlim).
    set (avail := if buf_lim st1 - f_pos <? 0 then 0 else buf_lim st1 - f_pos).
    set (n := if cnt >? avail then avail else cnt).
    assert (Hn : 0 <= n /\ (n = 0 \/ f_pos + n <= buf_lim st1)).
    { subst n avail.
      destruct (buf_lim st1 - f_pos <? 0) eqn:E1;
        destruct (cnt >? _) eqn:E2; lia. }
    destruct (n =? 0) eqn:Hn0.
    + eexists. split; [reflexivity|]. simpl. auto.
    + destruct ((f_pos <? 0) || (Z.of_nat (length (buf_data st1)) <? f_pos + n))
        eqn:Hoob.
      { apply orb_true_iff in Hoob. destruct Hoob as [E|E];
          [apply Z.ltb_lt in E | apply Z.ltb_lt in E]; lia. }
      unfold copy_to_user.
      destruct (negb (n - Z.min n (Z.max 0 (ubuf_writable usrbuf)) =? 0)).
      * eexists. split; [reflexivity|]. simpl. auto.
      * eexists. split; [reflexivity|]. simpl. split; [exact Hok1|].
        destruct (f_pos + n >=? buf_lim st1); lia.
Qed.

End ChrdevTotal.

(** ** Claims about the character device *)

Section ChrdevClaims.

Variable lookup_voltage lookup_temperature lookup_light : Z -> Z.
Variable LUNIX_CHRDEV_BUFSZ : Z.

Abbreviation state_update' :=
  (lunix_chrdev_state_update lookup_voltage lookup_temperature lookup_light
     LUNIX_CHRDEV_BUFSZ).
Abbreviation chrdev_read' :=
  (lunix_chrdev_read lookup_voltage lookup_temperature lookup_light
     LUNIX_CHRDEV_BUFSZ).

(** What a successful [lunix_chrdev_open] stores in the new state. *)
Lemma lunix_chrdev_open_ok nonseekable_ret minor_num kmalloc_ret r st :
  0 <= minor_num ->
  lunix_chrdev_open nonseekable_ret minor_num kmalloc_ret = (r, Some st) ->
  type st = minor_num mod 8 /\ 0 <= type st < N_LUNIX_MSR
  /\ sensor st = minor_num / 8
  /\ buf_lim st = 0 /\ buf_timestamp st = 0 /\ lock st = 1.
Proof.
  intros Hm. unfold lunix_chrdev_open.
  destruct (nonseekable_ret <? 0); [discriminate|].
  destruct (minor_num mod 8 >=? N_LUNIX_MSR) eqn:Ht; [discriminate|].
  destruct kmalloc_ret as [mem|]; [|discriminate].
  intros H; invert H. simpl.
  pose proof (Z.mod_pos_bound minor_num 8 ltac:(lia)).
  unfold N_LUNIX_MSR in *. repeat split; lia.
Qed.

(** On a registered minor, with the sensors initialised and a cache of
    [LUNIX_CHRDEV_BUFSZ] bytes in the allocated object, the new session is
    in good order. *)
Lemma lunix_chrdev_open_session_ok
    lunix_sensor_cnt sensors nonseekable_ret minor_num mem r st :
  0 <= minor_num < Z.shiftl lunix_sensor_cnt 3 ->
  Z.of_nat (length sensors) = lunix_sensor_cnt ->
  Forall sensor_initialised sensors ->
  Z.of_nat (length (buf_data mem)) = LUNIX_CHRDEV_BUFSZ ->
  0 < LUNIX_CHRDEV_BUFSZ ->
  lunix_chrdev_open nonseekable_ret minor_num (Some mem) = (r, Some st) ->
  session_ok LUNIX_CHRDEV_BUFSZ sensors st.
Proof.
  intros Hm Hlen Hinit Hbuf Hsz Hopen.
  pose proof (lunix_chrdev_open_ok _ _ _ _ _ (proj1 Hm) Hopen)
    as (Hty & Hrange & Hs & Hlim & _).
  assert (Hdata : buf_data st = buf_data mem).
  { unfold lunix_chrdev_open in Hopen.
    destruct (nonseekable_ret <? 0); [discriminate|].
    destruct (minor_num mod 8 >=? N_LUNIX_MSR); [discriminate|].
    invert Hopen. reflexivity. }
  rewrite Z.shiftl_mul_pow2 in Hm by lia. change (2 ^ 3) with 8 in Hm.
  assert (Hidx : 0 <= sensor st < lunix_sensor_cnt).
  { rewrite Hs.
    pose proof (Z.div_mod minor_num 8 ltac:(lia)).
    pose proof (Z.mod_pos_bound minor_num 8 ltac:(lia)).
    split; [apply Z.div_pos; lia | apply Z.div_lt_upper_bound; lia]. }
  split; [exact Hrange|]. split.
  - destruct (lookup_lt_is_Some_2 sensors (Z.to_nat (sensor st))) as [s Hsome];
      [lia|].
    exists s. split; [exact Hsome|].
    rewrite Forall_forall in Hinit. apply Hinit.
    eapply list_elem_of_lookup_2. exact Hsome.
  - rewrite Hdata, Hlim. split; [exact Hbuf | lia].
Qed.

(** [lunix_chrdev_open] hands out a state only on the path where [ret]
    is the value of [nonseekable_open], which is not negative there. *)
Lemma lunix_chrdev_open_state nonseekable_ret minor_num kmalloc_ret r st :
  lunix_chrdev_open nonseekable_ret minor_num kmalloc_ret = (r, Some st) ->
  r = nonseekable_ret /\ 0 <= r.
Proof.
  unfold lunix_chrdev_open.
  destruct (nonseekable_ret <? 0) eqn:E; [discriminate|].
  destruct (minor_num mod 8 >=? N_LUNIX_MSR); [discriminate|].
  destruct kmalloc_ret; [|discriminate].
  intros H; invert H. split; [reflexivity|lia].
Qed.

(** C2 (amended).  A call of [lunix_chrdev_read] that returns gives one of
    four results: a positive byte count (no more than asked for, than the
    cache holds past the offset, or than the caller's buffer takes), 0
    for end of data, [-ERESTARTSYS] when interrupted, or [-EFAULT] when
    the caller's buffer cannot take the bytes.  With a loop budget of two
    the call never stops for lack of budget, and on a session in good
    order (with a cache that holds every table entry) it returns or sleeps
    for ever. *)
Theorem read_outcomes fuel sensors st usrbuf cnt f_pos evs rr :
  0 <= cnt ->
  chrdev_read' fuel sensors st usrbuf cnt f_pos evs = Ret rr ->
  ((0 < rd_ret rr <= cnt
    /\ rd_ret rr <= buf_lim (rd_state rr) - f_pos
    /\ rd_ret rr <= ubuf_writable usrbuf)
   \/ rd_ret rr = 0
   \/ rd_ret rr = - ERESTARTSYS
   \/ (rd_ret rr = - EFAULT /\ ubuf_writable usrbuf < cnt))
  /\ (forall fuel',
        (2 <= fuel')%nat ->
        chrdev_read' fuel' sensors st usrbuf cnt f_pos evs <> Spin)
  /\ (forall fuel',
        (2 <= fuel')%nat ->
        tables_fit lookup_voltage lookup_temperature lookup_light
          LUNIX_CHRDEV_BUFSZ ->
        session_ok LUNIX_CHRDEV_BUFSZ sensors st ->
        0 <= f_pos ->
        (exists rr',
           chrdev_read' fuel' sensors st usrbuf cnt f_pos evs = Ret rr')
        \/ chrdev_read' fuel' sensors st usrbuf cnt f_pos evs = Block).
Proof.
  intros Hc Hr. split; [|split].
  - pose proof (lunix_chrdev_read_ret _ _ _ _ _ _ _ _ _ _ _ _ Hc Hr) as H.
    tauto.
  - intros fuel' Hf. apply lunix_chrdev_read_no_spin. exact Hf.
  - intros fuel' Hf Hfit Hok Hpos.
    destruct (lunix_chrdev_read_total _ _ _ _ Hfit fuel' sensors st usrbuf
                cnt f_pos evs Hf Hok Hc Hpos) as [(rr' & H & _)|H]; eauto.
Qed.

(** C6 (amended).  [lunix_chrdev_state_needs_refresh] returns 1 exactly
    when the cached timestamp differs from the sensor's timestamp for the
    session's kind, and 0 otherwise; right after a refresh that returned
    0 it returns 0.  The test is for inequality: from a state of the
    sensors where it returns 0, it returns 1 in another exactly when the
    timestamp of the session's kind is a different one there, newer or
    older; and a producer update turns it from 0 to 1 only if it is an
    update of the session's own sensor whose truncated clock reading
    differs from the cached timestamp, and every such update does so,
    whether that reading is above or below the cached one. *)
Theorem needs_refresh_iff_stale sensors st m :
  session_msr sensors st = Ret m ->
  (lunix_chrdev_state_needs_refresh sensors st = Ret 1
   <-> buf_timestamp st <> last_update m)
  /\ (lunix_chrdev_state_needs_refresh sensors st = Ret 0
      <-> buf_timestamp st = last_update m)
  /\ (forall st',
        state_update' sensors st = Ret (0, st') ->
        lunix_chrdev_state_needs_refresh sensors st' = Ret 0)
  /\ (forall sensors' m',
        session_msr sensors' st = Ret m' ->
        lunix_chrdev_state_needs_refresh sensors st = Ret 0 ->
        (lunix_chrdev_state_needs_refresh sensors' st = Ret 1
         <-> last_update m' <> last_update m))
  /\ (forall i batt temp light now,
        lunix_chrdev_state_needs_refresh sensors st = Ret 0 ->
        (lunix_chrdev_state_needs_refresh
           (sensors_update i batt temp light now sensors) st = Ret 1 ->
         i = Z.to_nat (sensor st)
         /\ to_uint32 now <> buf_timestamp st
         /\ exists m',
              session_msr (sensors_update i batt temp light now sensors) st
              = Ret m'
              /\ last_update m' = to_uint32 now)
        /\ (0 <= type st < N_LUNIX_MSR ->
            i = Z.to_nat (sensor st) ->
            to_uint32 now <> buf_timestamp st ->
            lunix_chrdev_state_needs_refresh
              (sensors_update i batt temp light now sensors) st = Ret 1)).
Proof.
  intros Hm.
  pose proof (needs_refresh_ret sensors st m Hm) as Hnr.
  split; [|split; [|split; [|split]]].
  - rewrite Hnr. destruct (buf_timestamp st =? last_update m) eqn:E.
    + apply Z.eqb_eq in E. split; [discriminate | congruence].
    + apply Z.eqb_neq in E. split; [auto | reflexivity].
  - rewrite Hnr. destruct (buf_timestamp st =? last_update m) eqn:E.
    + apply Z.eqb_eq in E. split; [auto | reflexivity].
    + apply Z.eqb_neq in E. split; [discriminate | congruence].
  - intros st' Hu. apply state_update_ret in Hu.
    destruct Hu as [(Hr & _)|(m0 & c & Hm0 & _ & _ & [(Hr & _)|(v & _ & _ & ->)])];
      try discriminate.
    rewrite Hm in Hm0. invert Hm0.
    destruct (snprintf _ _ _) as [n buf].
    rewrite (needs_refresh_ret sensors _ m0).
    + simpl. rewrite Z.eqb_refl. reflexivity.
    + exact Hm.
  - intros sensors' m' Hm' H0.
    rewrite Hnr in H0. rewrite (needs_refresh_ret _ _ _ Hm').
    destruct (buf_timestamp st =? last_update m) eqn:E; [|discriminate].
    apply Z.eqb_eq in E.
    destruct (buf_timestamp st =? last_update m') eqn:E'.
    + apply Z.eqb_eq in E'. split; [discriminate | congruence].
    + apply Z.eqb_neq in E'. split; [congruence | reflexivity].
  - intros i batt temp light now H0.
    rewrite Hnr in H0.
    destruct (buf_timestamp st =? last_update m) eqn:E; [|discriminate].
    apply Z.eqb_eq in E.
    split.
    + intros H1.
      destruct (session_msr_sensors_update sensors st i batt temp light now
                  m Hm) as (m' & Hm' & Hor).
      rewrite (needs_refresh_ret _ _ _ Hm') in H1.
      destruct (buf_timestamp st =? last_update m') eqn:E'; [discriminate|].
      apply Z.eqb_neq in E'.
      destruct Hor as [(-> & Ht)| -> ]; [|congruence].
      split; [reflexivity|]. split; [congruence|].
      exists m'. split; [exact Hm' | exact Ht].
    + intros Hty -> Hne.
      apply session_msr_ret in Hm. destruct Hm as (s & Hs & Hp).
      assert (Hm' : exists m',
                session_msr (sensors_update (Z.to_nat (sensor st))
                               batt temp light now sensors) st = Ret m'
                /\ last_update m' = to_uint32 now).
      { unfold N_LUNIX_MSR in Hty.
        assert (Hk : (Z.to_nat (type st) < 3)%nat) by lia.
        destruct (msr_data s) as [|p0 [|p1 [|p2 l]]] eqn:Hd;
          destruct (Z.to_nat (type st)) as [|[|[|k]]] eqn:Hk';
          try lia; try discriminate;
          (eexists; split;
           [apply session_msr_ret;
            exists (fst (lunix_sensor_update s batt temp light now));
            split;
            [unfold sensors_update; rewrite list_lookup_alter_eq, Hs;
             reflexivity
            |rewrite Hk'; unfold lunix_sensor_update, on_msr; cbn;
             rewrite Hd; reflexivity]
           |reflexivity]). }
      destruct Hm' as (m' & Hm' & Ht).
      rewrite (needs_refresh_ret _ _ _ Hm'), Ht.
      replace (buf_timestamp st =? to_uint32 now) with false by lia.
      reflexivity.
Qed.


(** C3.  When a refresh succeeds for the converted value [v] (the table
    entry of the raw sample for the session's kind) and the text fits the
    cache, the cache holds exactly the expansion of ["%ld.%03ld\n"]: the
    numeral of [v / 1000] truncated toward zero -- it reads back as that
    number --, a dot, the three decimal digits of [abs (v % 1000)], and a
    newline; [buf_lim] is its length. *)
Theorem refresh_renders_measurement sensors st st' m v :
  session_msr sensors st = Ret m ->
  lookup_by_type lookup_voltage lookup_temperature lookup_light
    (type st) (values0 m) = Some v ->
  state_update' sensors st = Ret (0, st') ->
  let text := render_measurement (Z.quot v 1000) (Z.abs (Z.rem v 1000)) in
  let frac := Z.abs (Z.rem v 1000) in
  Z.of_nat (length text) < LUNIX_CHRDEV_BUFSZ ->
  buf_lim st' = Z.of_nat (length text)
  /\ take (length text) (buf_data st') = text
  /\ text = render_ld (Z.quot v 1000)
            ++ ["."%char]
            ++ [digit_char (frac / 100); digit_char (frac / 10 mod 10);
                digit_char (frac mod 10)]
            ++ ["010"%char]
  /\ parse_ld (render_ld (Z.quot v 1000)) = Some (Z.quot v 1000)
  /\ 0 <= frac / 100 <= 9 /\ 0 <= frac / 10 mod 10 <= 9
  /\ 0 <= frac mod 10 <= 9
  /\ 100 * (frac / 100) + 10 * (frac / 10 mod 10) + frac mod 10 = frac.
Proof.
  intros Hm Hv Hu text frac Hfit.
  assert (Hfrac : 0 <= frac < 1000).
  { subst frac. pose proof (Z.rem_bound_abs v 1000 ltac:(lia)). lia. }
  apply state_update_ret in Hu.
  destruct Hu as [(Hr & _)|(m0 & c & Hm0 & _ & _ & [(Hr & _)|(v0 & _ & Hv0 & ->)])];
    try discriminate.
  rewrite Hm in Hm0. invert Hm0. rewrite Hv in Hv0. invert Hv0.
  fold text. rewrite (snprintf_fits _ _ _ Hfit). simpl buf_lim. simpl buf_data.
  split; [reflexivity|].
  split; [rewrite take_app_length; reflexivity|].
  split.
  { subst text. unfold render_measurement. fold frac.
    rewrite (render_03ld_digits frac Hfrac). reflexivity. }
  split; [apply parse_render_ld|].
  pose proof (Z.div_mod frac 100 ltac:(lia)).
  pose proof (Z.mod_pos_bound frac 100 ltac:(lia)).
  pose proof (Z.div_mod frac 10 ltac:(lia)).
  pose proof (Z.mod_pos_bound frac 10 ltac:(lia)).
  pose proof (Z.div_mod (frac / 10) 10 ltac:(lia)).
  pose proof (Z.mod_pos_bound (frac / 10) 10 ltac:(lia)).
  assert (frac / 10 / 10 = frac / 100)
    by (rewrite Z.div_div by lia; reflexivity).
  assert (0 <= frac / 100) by (apply Z.div_pos; lia).
  assert (frac / 100 < 10) by (apply Z.div_lt_upper_bound; lia).
  repeat split; lia.
Qed.

End ChrdevClaims.

(** ** The claims at concrete sessions *)

Lemma sample_session_opened :
  lunix_chrdev_open 0 0 (Some sample_kmalloc) = (0, Some sample_session).
Proof. reflexivity. Qed.

(** A read into a buffer that cannot be written returns [-EFAULT], which
    is none of bytes-delivered, end-of-data, interrupted. *)
Lemma read_returns_efault :
  exists rr,
    lunix_chrdev_read uint16_to_batt sample_temperature sample_light
      sample_bufsz 2 sample_sensors sample_session bad_usrbuf 64 0 []
    = Ret rr
    /\ rd_ret rr = - EFAULT
    /\ ~ read_three_outcomes (rd_ret rr).
Proof.
  eexists. split; [vm_compute; reflexivity|]. split; [reflexivity|].
  unfold read_three_outcomes. cbn. unfold EFAULT, ERESTARTSYS. lia.
Qed.

Lemma read_outcomes_witness :
  (0 < rd_ret sample_read_result <= 64
   /\ rd_ret sample_read_result <= buf_lim (rd_state sample_read_result) - 0
   /\ rd_ret sample_read_result <= ubuf_writable sample_usrbuf)
  \/ rd_ret sample_read_result = 0
  \/ rd_ret sample_read_result = - ERESTARTSYS
  \/ (rd_ret sample_read_result = - EFAULT
      /\ ubuf_writable sample_usrbuf < 64).
Proof.
  refine (proj1 (read_outcomes uint16_to_batt sample_temperature sample_light
                   sample_bufsz 2 sample_sensors sample_session sample_usrbuf
                   64 0 [] sample_read_result _ _)).
  - lia.
  - vm_compute. reflexivity.
Defined.

(** The four results do occur. *)
Example read_delivers_bytes :
  rd_ret <$>
    lunix_chrdev_read uint16_to_batt sample_temperature sample_light
      sample_bufsz 2 sample_sensors sample_session sample_usrbuf 64 0 []
  = Ret 6.
Proof. vm_compute. reflexivity. Qed.

Example read_end_of_data :
  rd_ret <$>
    lunix_chrdev_read uint16_to_batt sample_temperature sample_light
      sample_bufsz 2 sample_sensors sample_session sample_usrbuf 0 0 []
  = Ret 0.
Proof. vm_compute. reflexivity. Qed.

Example read_interrupted :
  rd_ret <$>
    lunix_chrdev_read uint16_to_batt sample_temperature sample_light
      sample_bufsz 2 sample_sensors_fresh sample_session sample_usrbuf 64 0
      [SensorUpdate 3 1 2 3 1700000000; SignalPending]
  = Ret (- ERESTARTSYS).
Proof. vm_compute. reflexivity. Qed.

(** A reader asleep on an idle sensor is woken by the sensor's update. *)
Example read_wakes_on_update :
  rd_ret <$>
    lunix_chrdev_read uint16_to_batt sample_temperature sample_light
      sample_bufsz 2 sample_sensors_fresh sample_session sample_usrbuf 64 0
      [SensorUpdate 3 1 2 3 1700000000; SensorUpdate 0 512 100 200 1700000001]
  = Ret 6.
Proof. vm_compute. reflexivity. Qed.

(** ... and stays asleep for ever when nothing happens. *)
Example read_blocks :
  lunix_chrdev_read uint16_to_batt sample_temperature sample_light
    sample_bufsz 2 sample_sensors_fresh sample_session sample_usrbuf 64 0 []
  = Block.
Proof. vm_compute. reflexivity. Qed.

(** A negative value keeps its sign in the integer part, and loses it when
    the integer part is zero: the format is as stated all the same. *)
Example refresh_renders_negative :
  (fun r => take (Z.to_nat (buf_lim r.2)) (buf_data r.2)) <$>
    lunix_chrdev_state_update uint16_to_batt sample_temperature sample_light
      sample_bufsz sample_sensors sample_session_temp
  = Ret ["-"%char; "4"%char; "9"%char; "."%char;
         "0"%char; "0"%char; "0"%char; "010"%char].
Proof. vm_compute. reflexivity. Qed.

Example render_small_negative :
  render_measurement (Z.quot (-500) 1000) (Z.abs (Z.rem (-500) 1000))
  = ["0"%char; "."%char; "5"%char; "0"%char; "0"%char; "010"%char].
Proof. vm_compute. reflexivity. Qed.

(** A text longer than the cache is cut, and [buf_lim] still counts all of
    it. *)
Example snprintf_truncates :
  snprintf (replicate 4 "x"%char) 4 text_2_443
  = (6, ["2"%char; "."%char; "4"%char; "000"%char]).
Proof. vm_compute. reflexivity. Qed.

Lemma refresh_renders_measurement_witness :
  buf_lim sample_refreshed = 6
  /\ take 6 (buf_data sample_refreshed) = text_2_443.
Proof.
  pose proof (refresh_renders_measurement uint16_to_batt sample_temperature
                sample_light sample_bufsz sample_sensors sample_session
                sample_refreshed sample_page 2443) as H.
  destruct H as (H1 & H2 & _).
  - reflexivity.
  - vm_compute. reflexivity.
  - vm_compute. reflexivity.
  - vm_compute. reflexivity.
  - split; [exact H1 | exact H2].
Defined.

Lemma needs_refresh_iff_stale_witness :
  lunix_chrdev_state_needs_refresh sample_sensors sample_session = Ret 1
  <-> buf_timestamp sample_session <> last_update sample_page.
Proof.
  apply (proj1 (needs_refresh_iff_stale uint16_to_batt sample_temperature
                  sample_light sample_bufsz sample_sensors sample_session
                  sample_page ltac:(reflexivity))).
Defined.

(** An update of the session's sensor stamped earlier than the cached
    timestamp makes the check true as well. *)
Lemma needs_refresh_after_older_update :
  lunix_chrdev_state_needs_refresh sample_sensors sample_refreshed = Ret 0
  /\ buf_timestamp sample_refreshed = 1700000000
  /\ session_msr (sensors_update 0 600 100 200 1600000000 sample_sensors)
       sample_refreshed
     = Ret (mk_msr LUNIX_MSR_MAGIC 1600000000 600)
  /\ lunix_chrdev_state_needs_refresh
       (sensors_update 0 600 100 200 1600000000 sample_sensors)
       sample_refreshed
     = Ret 1
  /\ 1600000000 < 1700000000.
Proof. repeat split; vm_compute; reflexivity. Qed.


(** ** The battery table at sample 512 *)

Lemma batt_millivolts_512 :
  (batt_millivolts 512 == 2443611328125 # 1000000000)%Q.
Proof. reflexivity. Qed.

(** The cast does not depend on the last bits of the floating-point
    product: every value within a tenth of a millivolt of the exact one is
    cast to the same integer. *)
Lemma batt_512_cast_stable (q : Q) :
  (batt_millivolts 512 - (1 # 10) <= q)%Q ->
  (q <= batt_millivolts 512 + (1 # 10))%Q ->
  Qtrunc q = 2443.
Proof.
  destruct q as [n d]. unfold Qtrunc, Qle. cbn.
  intros H1 H2.
  assert (Hlo : 2443 * Z.pos d <= n) by lia.
  assert (Hhi : n < 2444 * Z.pos d) by lia.
  assert (0 <= n) by lia.
  rewrite Z.quot_div_nonneg by lia.
  symmetry. apply Z.div_unique with (r := n - 2443 * Z.pos d); lia.
Qed.

Section Battery512.

Variable lookup_temperature lookup_light : Z -> Z.
Variable LUNIX_CHRDEV_BUFSZ : Z.

(** C9 (amended).  For the raw battery sample 512 the generator computes
    [1.223 * 1023 / 512 * 1000 = 2443.611...] and casts it to [long], which
    truncates: the table entry is 2443 (rounding to the nearest integer
    would give 2444).  A battery session over a sensor whose raw sample is
    512 renders ["2.443\n"] into its cache, and a read of at least six bytes
    into a writable buffer delivers exactly that text. *)
Theorem battery_512_is_2_443 fuel sensors st usrbuf cnt evs m :
  6 < LUNIX_CHRDEV_BUFSZ ->
  (1 <= fuel)%nat ->
  6 <= cnt -> 6 <= ubuf_writable usrbuf ->
  0 < lock st -> type st = BATT ->
  session_msr sensors st = Ret m ->
  values0 m = 512 ->
  buf_timestamp st <> last_update m ->
  uint16_to_batt 512 = 2443
  /\ uint16_to_batt 512 = Qtrunc ((1223 # 1000) * (1023 / 512) * 1000)
  /\ Qround_nearest ((1223 # 1000) * (1023 / 512) * 1000) = 2444
  /\ (exists st',
        lunix_chrdev_state_update uint16_to_batt lookup_temperature
          lookup_light LUNIX_CHRDEV_BUFSZ sensors st = Ret (0, st')
        /\ buf_lim st' = 6
        /\ take 6 (buf_data st') = text_2_443)
  /\ (exists rr,
        lunix_chrdev_read uint16_to_batt lookup_temperature lookup_light
          LUNIX_CHRDEV_BUFSZ fuel sensors st usrbuf cnt 0 evs = Ret rr
        /\ rd_ret rr = 6
        /\ take 6 (ubuf_data (rd_usrbuf rr)) = text_2_443).
Proof.
  intros Hsz Hf Hcnt Hw Hl Hty Hm Hraw Hne.
  assert (Hv : lookup_by_type uint16_to_batt lookup_temperature lookup_light
                 (type st) (values0 m) = Some 2443).
  { rewrite Hty, Hraw. reflexivity. }
  assert (Htext : render_measurement (Z.quot 2443 1000)
                    (Z.abs (Z.rem 2443 1000)) = text_2_443) by reflexivity.
  split; [reflexivity|]. split; [reflexivity|]. split; [reflexivity|].
  split.
  - eexists. split.
    + apply (state_update_stale _ _ _ _ sensors st m 2443 Hm Hne Hv).
      rewrite Htext. simpl. lia.
    + rewrite Htext. split; reflexivity.
  - destruct (lunix_chrdev_read_stale uint16_to_batt lookup_temperature
                lookup_light LUNIX_CHRDEV_BUFSZ fuel sensors st usrbuf cnt evs
                m 2443 Hf Hl Hm Hne Hv)
      as (rr & Hr & Hret & Hdata & _).
    + rewrite Htext. simpl. lia.
    + rewrite Htext. simpl. lia.
    + rewrite Htext. simpl. lia.
    + exists rr. split; [exact Hr|]. rewrite Htext in *.
      split; [exact Hret|]. rewrite Hdata. reflexivity.
Qed.

End Battery512.

(** Rounding to nearest does not give the table entry. *)
Lemma battery_512_not_rounded :
  ~ (uint16_to_batt 512
     = Qround_nearest ((1223 # 1000) * (1023 / 512) * 1000)
     /\ Qround_nearest ((1223 # 1000) * (1023 / 512) * 1000) = 2443).
Proof. vm_compute. intros [H _]. discriminate H. Qed.

Lemma battery_512_is_2_443_witness :
  uint16_to_batt 512 = 2443
  /\ rd_ret sample_read_result = 6
  /\ take 6 (ubuf_data (rd_usrbuf sample_read_result)) = text_2_443.
Proof.
  destruct (battery_512_is_2_443 sample_temperature sample_light sample_bufsz
              2 sample_sensors sample_session sample_usrbuf 64 [] sample_page)
    as (H1 & _ & _ & _ & (rr & Hr & Hret & Hdata)).
  - reflexivity.
  - lia.
  - lia.
  - simpl. lia.
  - simpl. lia.
  - reflexivity.
  - reflexivity.
  - reflexivity.
  - vm_compute. discriminate.
  - split; [exact H1|].
    assert (rr = sample_read_result) as ->.
    { assert (Ret rr = Ret sample_read_result) as E
        by (rewrite <- Hr; vm_compute; reflexivity).
      injection E as E. exact E. }
    split; [exact Hret | exact Hdata].
Defined.

(** ** Applying a completed packet *)

(** C7.  For a packet carrying the sensor-data signature, a node id outside
    [1 .. lunix_sensor_cnt] leaves every sensor as it was and only logs a
    warning; a node id inside the range updates [lunix_sensors[nodeid - 1]]
    with the three values of the packet, and no other cell. *)
Theorem update_sensors_checks_node_id
    lunix_sensor_cnt now pk sensors nodeid batt temp light :
  packet_measurements pk = Some (nodeid, batt, temp, light) ->
  Z.of_nat (length sensors) = lunix_sensor_cnt ->
  (nodeid < 1 \/ lunix_sensor_cnt < nodeid ->
   lunix_protocol_update_sensors lunix_sensor_cnt now pk sensors
   = Ret (sensors, [Received nodeid batt temp light; WarnInvalidNode nodeid]))
  /\ (1 <= nodeid <= lunix_sensor_cnt ->
      exists s,
        sensors !! Z.to_nat (nodeid - 1) = Some s
        /\ lunix_protocol_update_sensors lunix_sensor_cnt now pk sensors
           = Ret (<[Z.to_nat (nodeid - 1) :=
                      fst (lunix_sensor_update s batt temp light now)]> sensors,
                  [Received nodeid batt temp light;
                   Updated (nodeid - 1)
                     (snd (lunix_sensor_update s batt temp light now))])
        /\ forall j, j <> Z.to_nat (nodeid - 1) ->
             <[Z.to_nat (nodeid - 1) :=
                 fst (lunix_sensor_update s batt temp light now)]> sensors !! j
             = sensors !! j).
Proof.
  intros Hpk Hlen. unfold lunix_protocol_update_sensors. rewrite Hpk. split.
  - intros Hout.
    destruct ((0 <? nodeid) && (nodeid <=? lunix_sensor_cnt)) eqn:E;
      [|reflexivity].
    apply andb_true_iff in E. destruct E as [E1 E2].
    apply Z.ltb_lt in E1. apply Z.leb_le in E2. lia.
  - intros Hin.
    destruct ((0 <? nodeid) && (nodeid <=? lunix_sensor_cnt)) eqn:E.
    + destruct (lookup_lt_is_Some_2 sensors (Z.to_nat (nodeid - 1))) as [s Hs];
        [lia|].
      exists s. split; [exact Hs|]. res_unfold. rewrite Hs. simpl.
      split.
      * destruct (lunix_sensor_update s batt temp light now). reflexivity.
      * intros j Hj. apply list_lookup_insert_ne. congruence.
    + apply andb_false_iff in E. destruct E as [E|E];
        [apply Z.ltb_ge in E | apply Z.leb_gt in E]; lia.
Qed.

Lemma update_sensors_checks_node_id_witness :
  lunix_protocol_update_sensors 16 1700000000
    (sample_packet 17 512 100 200) sample_sensors_fresh
  = Ret (sample_sensors_fresh, [Received 17 512 100 200; WarnInvalidNode 17]).
Proof.
  refine (proj1 (update_sensors_checks_node_id 16 1700000000
                   (sample_packet 17 512 100 200) sample_sensors_fresh
                   17 512 100 200 _ _) _).
  - reflexivity.
  - reflexivity.
  - right. lia.
Defined.

(** Node id 0 is rejected as well, and node 16 is the last one accepted. *)
Example update_sensors_node_0 :
  lunix_protocol_update_sensors 16 1700000000
    (sample_packet 0 512 100 200) sample_sensors_fresh
  = Ret (sample_sensors_fresh, [Received 0 512 100 200; WarnInvalidNode 0]).
Proof. reflexivity. Qed.

Example update_sensors_node_1 :
  fst <$> lunix_protocol_update_sensors 16 1700000000
            (sample_packet 1 512 100 200) sample_sensors_fresh
  = Ret sample_sensors.
Proof. reflexivity. Qed.

Example update_sensors_node_16 :
  (fun r => r.1 !! 15%nat) <$>
    lunix_protocol_update_sensors 16 1700000000
      (sample_packet 16 512 100 200) sample_sensors_fresh
  = Ret (Some (mk_sensor
                 [ mk_msr LUNIX_MSR_MAGIC 1700000000 512;
                   mk_msr LUNIX_MSR_MAGIC 1700000000 100;
                   mk_msr LUNIX_MSR_MAGIC 1700000000 200 ])).
Proof. reflexivity. Qed.

(** ** The frame parser *)

(** *** The inner loop *)

Lemma consume_byte_state st c u : state (consume_byte st c u) = state st.
Proof.
  unfold consume_byte.
  destruct u; [destruct (next_is_special st); [|destruct (c =? 125)]|];
    reflexivity.
Qed.

Lemma parse_state_nil st u :
  lunix_protocol_parse_state st [] u = (stage_status st, st, []).
Proof. reflexivity. Qed.

Lemma parse_state_full st data u :
  ~ bytes_read st < bytes_to_read st ->
  lunix_protocol_parse_state st data u = (stage_status st, st, data).
Proof.
  intros H. destruct data as [|c d]; [reflexivity|]. simpl.
  destruct (bytes_read st <? bytes_to_read st) eqn:E; [|reflexivity].
  apply Z.ltb_lt in E. contradiction.
Qed.

Lemma parse_state_overflow st c d u :
  bytes_read st < bytes_to_read st -> pos st = MAX_PACKET_LEN ->
  lunix_protocol_parse_state st (c :: d) u
  = (TooBig, lunix_protocol_init st, c :: d).
Proof.
  intros H1 H2. simpl.
  destruct (bytes_read st <? bytes_to_read st) eqn:E;
    [|apply Z.ltb_ge in E; lia].
  rewrite H2. reflexivity.
Qed.

Lemma parse_state_take st c d u :
  bytes_read st < bytes_to_read st -> pos st <> MAX_PACKET_LEN ->
  lunix_protocol_parse_state st (c :: d) u
  = lunix_protocol_parse_state (consume_byte st c u) d u.
Proof.
  intros H1 H2. simpl.
  destruct (bytes_read st <? bytes_to_read st) eqn:E;
    [|apply Z.ltb_ge in E; lia].
  destruct (pos st =? MAX_PACKET_LEN) eqn:E2;
    [apply Z.eqb_eq in E2; contradiction|].
  reflexivity.
Qed.

(** The three situations at the head of the input. *)
Lemma parse_state_head st c d u :
  (bytes_read st < bytes_to_read st /\ pos st <> MAX_PACKET_LEN
   /\ lunix_protocol_parse_state st (c :: d) u
      = lunix_protocol_parse_state (consume_byte st c u) d u)
  \/ (bytes_read st < bytes_to_read st /\ pos st = MAX_PACKET_LEN
      /\ lunix_protocol_parse_state st (c :: d) u
         = (TooBig, lunix_protocol_init st, c :: d))
  \/ (~ bytes_read st < bytes_to_read st
      /\ lunix_protocol_parse_state st (c :: d) u
         = (stage_status st, st, c :: d)).
Proof.
  destruct (Z_lt_dec (bytes_read st) (bytes_to_read st)) as [H|H].
  - destruct (Z.eq_dec (pos st) MAX_PACKET_LEN) as [E|E].
    + right. left. auto using parse_state_overflow.
    + left. auto using parse_state_take.
  - right. right. auto using parse_state_full.
Qed.

(** More input behind a call changes nothing when the call stopped
    early, and continues it when the call used up its input. *)
Lemma parse_state_app st a b u r st1 rest :
  lunix_protocol_parse_state st a u = (r, st1, rest) ->
  lunix_protocol_parse_state st (a ++ b) u
  = match rest with
    | [] => lunix_protocol_parse_state st1 b u
    | _ :: _ => (r, st1, rest ++ b)
    end.
Proof.
  revert st. induction a as [|c a IH]; intros st H.
  - rewrite parse_state_nil in H. invert H. reflexivity.
  - rewrite <- app_comm_cons.
    destruct (parse_state_head st c a u) as [(H1 & H2 & E)|[(H1 & H2 & E)|(H1 & E)]];
      rewrite E in H.
    + rewrite parse_state_take by assumption. apply IH. exact H.
    + invert H. apply parse_state_overflow; assumption.
    + invert H. apply parse_state_full. assumption.
Qed.

(** What is left over is a suffix of the input; the stage changes only
    when the buffer is full. *)
Lemma parse_state_result st data u r st1 rest :
  lunix_protocol_parse_state st data u = (r, st1, rest) ->
  (length rest <= length data)%nat
  /\ (r = TooBig
      /\ st1 = lunix_protocol_init st1 /\ rest <> []
      \/ r = stage_status st1 /\ state st1 = state st
         /\ (rest <> [] -> ~ bytes_read st1 < bytes_to_read st1)).
Proof.
  revert st. induction data as [|c d IH]; intros st H.
  - rewrite parse_state_nil in H. invert H. split; [lia|]. right. auto.
  - destruct (parse_state_head st c d u) as [(H1 & H2 & E)|[(H1 & H2 & E)|(H1 & E)]];
      rewrite E in H.
    + apply IH in H. destruct H as (Hl & Hor). split; [simpl; lia|].
      rewrite consume_byte_state in Hor. exact Hor.
    + invert H. split; [lia|]. left. split; [reflexivity|].
      split; [reflexivity | discriminate].
    + invert H. split; [lia|]. right. auto.
Qed.

(** Taking a byte makes the input shorter. *)
Lemma parse_state_progress st c d u r st1 rest :
  bytes_read st < bytes_to_read st -> pos st <> MAX_PACKET_LEN ->
  lunix_protocol_parse_state st (c :: d) u = (r, st1, rest) ->
  (length rest <= length d)%nat.
Proof.
  intros H1 H2 H. rewrite parse_state_take in H by assumption.
  apply parse_state_result in H. tauto.
Qed.

(** *** Invariants *)

Lemma consume_byte_count st c u :
  bytes_read st < bytes_to_read st -> count_ok st ->
  count_ok (consume_byte st c u).
Proof.
  unfold count_ok, consume_byte. intros H1 H2.
  destruct u; [destruct (next_is_special st); [|destruct (c =? 125)]|];
    simpl; lia.
Qed.

Lemma consume_byte_pos st c u :
  pos st <> MAX_PACKET_LEN -> pos_ok st -> pos_ok (consume_byte st c u).
Proof.
  unfold pos_ok, consume_byte. intros H1 H2.
  destruct u; [destruct (next_is_special st); [|destruct (c =? 125)]|];
    simpl; lia.
Qed.

Lemma consume_byte_packet_length st c u :
  length (packet (consume_byte st c u)) = length (packet st).
Proof.
  unfold consume_byte.
  destruct u; [destruct (next_is_special st); [|destruct (c =? 125)]|];
    simpl; rewrite ?length_insert; reflexivity.
Qed.

Lemma init_count st : count_ok (lunix_protocol_init st).
Proof. unfold count_ok. simpl. lia. Qed.

Lemma init_pos st : pos_ok (lunix_protocol_init st).
Proof. unfold pos_ok, MAX_PACKET_LEN. simpl. lia. Qed.

Lemma parse_state_invariant st data u r st1 rest :
  lunix_protocol_parse_state st data u = (r, st1, rest) ->
  (count_ok st -> count_ok st1)
  /\ (pos_ok st -> pos_ok st1)
  /\ length (packet st1) = length (packet st).
Proof.
  revert st. induction data as [|c d IH]; intros st H.
  - rewrite parse_state_nil in H. invert H. auto.
  - destruct (parse_state_head st c d u) as [(H1 & H2 & E)|[(H1 & H2 & E)|(H1 & E)]];
      rewrite E in H.
    + apply IH in H. destruct H as (Hc & Hp & Hl).
      rewrite consume_byte_packet_length in Hl.
      auto using consume_byte_count, consume_byte_pos.
    + invert H. auto using init_count, init_pos.
    + invert H. auto.
Qed.

Lemma stage_complete_invariant st :
  count_ok (stage_complete st).1
  /\ (pos_ok st -> pos_ok (stage_complete st).1)
  /\ length (packet (stage_complete st).1) = length (packet st)
  /\ (idle_turns (stage_complete st).1
      < match state st with SEEKING_PAYLOAD_LENGTH => 3 | _ => 2 end)%nat.
Proof.
  pose proof (Z.mod_pos_bound (packet_at (packet st) (pos st - 1)) 256
                ltac:(lia)) as Hb.
  unfold stage_complete, count_ok, pos_ok, idle_turns, MAX_PACKET_LEN.
  destruct (state st) eqn:Es;
    try destruct (packet_at (packet st) (pos st - 1) =? 126);
    cbn [fst set_state lunix_protocol_init state bytes_read bytes_to_read
         pos packet Z.ltb Z.compare];
    (split; [lia|]); (split; [intros; lia|]); (split; [reflexivity|]);
    repeat match goal with
           | |- context [if ?b then _ else _] => destruct b
           end; lia.
Qed.

(** *** One turn of the outer loop *)

Lemma turn_overflow st c d :
  bytes_read st < bytes_to_read st -> pos st = MAX_PACKET_LEN ->
  received_buf_turn st (c :: d) = (lunix_protocol_init st, c :: d, []).
Proof.
  intros H1 H2. unfold received_buf_turn.
  rewrite parse_state_overflow by assumption. reflexivity.
Qed.

Lemma turn_full st c d :
  ~ bytes_read st < bytes_to_read st ->
  received_buf_turn st (c :: d)
  = ((finish_turn st).1, c :: d, (finish_turn st).2).
Proof.
  intros H. unfold received_buf_turn, finish_turn.
  rewrite parse_state_full by assumption.
  destruct (stage_status st); [destruct (stage_complete st)| |]; reflexivity.
Qed.

Lemma turn_nil st :
  received_buf_turn st [] = ((finish_turn st).1, [], (finish_turn st).2).
Proof.
  unfold received_buf_turn, finish_turn. rewrite parse_state_nil.
  destruct (stage_status st); [destruct (stage_complete st)| |]; reflexivity.
Qed.

Lemma turn_take st c d :
  bytes_read st < bytes_to_read st -> pos st <> MAX_PACKET_LEN ->
  received_buf_turn st (c :: d)
  = received_buf_turn (consume_byte st c (use_specials_in (state st))) d.
Proof.
  intros H1 H2. unfold received_buf_turn.
  rewrite parse_state_take by assumption.
  rewrite consume_byte_state. reflexivity.
Qed.

(** A turn keeps the invariants, leaves a suffix of its input, and either
    takes a byte or uses up one of the idle turns. *)
Lemma turn_invariant st data st1 rest out :
  data <> [] ->
  received_buf_turn st data = (st1, rest, out) ->
  (count_ok st -> count_ok st1)
  /\ (pos_ok st -> pos_ok st1)
  /\ length (packet st1) = length (packet st)
  /\ (length rest <= length data)%nat
  /\ (count_ok st ->
      (4 * length rest + idle_turns st1
       < 4 * length data + idle_turns st)%nat).
Proof.
  intros Hne H. unfold received_buf_turn in H.
  destruct (lunix_protocol_parse_state st data (use_specials_in (state st)))
    as [[r st0] rest0] eqn:Hp.
  pose proof (parse_state_invariant _ _ _ _ _ _ Hp) as (Ic & Ip & Il).
  pose proof (parse_state_result _ _ _ _ _ _ Hp) as (Hlen & Hres).
  assert (Hidle3 : forall s, (idle_turns s <= 3)%nat).
  { intros s. unfold idle_turns.
    destruct (bytes_read s <? bytes_to_read s);
      [destruct (pos s =? MAX_PACKET_LEN)|destruct (state s)]; lia. }
  assert (Hstep :
    count_ok st ->
    (4 * length rest0 + match r with
                        | StageDone =>
                            match state st0 with
                            | SEEKING_PAYLOAD_LENGTH => 3
                            | _ => 2
                            end
                        | NeedMore => idle_turns st0
                        | TooBig => 1
                        end
     <= 4 * length data + idle_turns st)%nat
    /\ (r = NeedMore -> (4 * length rest0 + idle_turns st0
                         < 4 * length data + idle_turns st)%nat)).
  { intros Hc. destruct data as [|c d]; [contradiction|].
    destruct (parse_state_head st c d (use_specials_in (state st)))
      as [(H1 & H2 & E)|[(H1 & H2 & E)|(H1 & E)]].
    - (* a byte was taken *)
      pose proof (parse_state_progress _ _ _ _ _ _ _ H1 H2 Hp) as Hl.
      simpl length. split.
      + destruct r; [destruct (state st0)| |]; specialize (Hidle3 st0); lia.
      + intros _. specialize (Hidle3 st0). lia.
    - rewrite E in Hp. invert Hp. unfold idle_turns at 1.
      destruct (bytes_read st <? bytes_to_read st) eqn:Eb;
        [|apply Z.ltb_ge in Eb; lia].
      rewrite H2, Z.eqb_refl. split; [lia | discriminate].
    - rewrite E in Hp. invert Hp. unfold count_ok in Hc.
      assert (bytes_read st0 = bytes_to_read st0) as Heq by lia.
      unfold stage_status. rewrite Heq, Z.eqb_refl.
      unfold idle_turns.
      destruct (bytes_read st0 <? bytes_to_read st0) eqn:Eb;
        [apply Z.ltb_lt in Eb; lia|].
      split; [destruct (state st0); lia | discriminate]. }
  destruct r.
  - destruct (stage_complete st0) as [st2 out2] eqn:Hsc. invert H.
    pose proof (stage_complete_invariant st0) as (Sc & Sp & Sl & Si).
    rewrite Hsc in *. simpl in *.
    split; [auto|]. split; [auto|]. split; [congruence|]. split; [exact Hlen|].
    intros Hc. destruct (Hstep Hc) as (Hs & _).
    destruct (state st0); lia.
  - invert H. split; [auto|]. split; [auto|]. split; [exact Il|].
    split; [exact Hlen|].
    intros Hc. destruct (Hstep Hc) as (_ & Hs). auto.
  - invert H. split; [auto|]. split; [auto|]. split; [exact Il|].
    split; [exact Hlen|].
    intros Hc. destruct (Hstep Hc) as (Hs & _).
    destruct Hres as [(_ & E & _)|(E & _)];
      [|unfold stage_status in E; destruct (_ =? _); discriminate].
    assert (idle_turns st1 = 0%nat) as Hi by (rewrite E; reflexivity).
    lia.
Qed.

(** *** The outer loop *)

Lemma loop_nil fuel st : received_buf_loop fuel st [] = Some (st, []).
Proof. destruct fuel; reflexivity. Qed.

Lemma loop_cons fuel st c d :
  received_buf_loop (S fuel) st (c :: d)
  = let '(st1, rest, out) := received_buf_turn st (c :: d) in
    match received_buf_loop fuel st1 rest with
    | Some (st2, out') => Some (st2, out ++ out')
    | None => None
    end.
Proof. reflexivity. Qed.

(** More budget does not change a result. *)
Lemma loop_mono fuel fuel' st data r :
  (fuel <= fuel')%nat ->
  received_buf_loop fuel st data = Some r ->
  received_buf_loop fuel' st data = Some r.
Proof.
  revert fuel' st data r.
  induction fuel as [|fuel IH]; intros fuel' st data r Hle H.
  - destruct data; [|discriminate]. rewrite loop_nil. simpl in H. exact H.
  - destruct data as [|c d]; [rewrite loop_nil; simpl in H; exact H|].
    destruct fuel' as [|fuel']; [lia|].
    rewrite loop_cons in *.
    destruct (received_buf_turn st (c :: d)) as [[st1 rest] out].
    destruct (received_buf_loop fuel st1 rest) as [[st2 out']|] eqn:E;
      [|discriminate].
    rewrite (IH fuel' st1 rest _ ltac:(lia) E). exact H.
Qed.

(** The loop ends within the budget that the idle turns call for. *)
Lemma loop_terminates fuel st data :
  count_ok st ->
  (4 * length data + idle_turns st < fuel)%nat ->
  exists r, received_buf_loop fuel st data = Some r.
Proof.
  revert st data.
  induction fuel as [|fuel IH]; intros st data Hc Hf; [lia|].
  destruct data as [|c d]; [rewrite loop_nil; eauto|].
  rewrite loop_cons.
  destruct (received_buf_turn st (c :: d)) as [[st1 rest] out] eqn:Ht.
  pose proof (turn_invariant st (c :: d) st1 rest out ltac:(discriminate) Ht)
    as (Ic & _ & _ & _ & Hd).
  specialize (Hd Hc).
  destruct (IH st1 rest (Ic Hc) ltac:(lia)) as ([st2 out'] & E).
  rewrite E. eauto.
Qed.

Lemma loop_invariant fuel st data st' out :
  received_buf_loop fuel st data = Some (st', out) ->
  (count_ok st -> count_ok st')
  /\ (pos_ok st -> pos_ok st')
  /\ length (packet st') = length (packet st).
Proof.
  revert st data out.
  induction fuel as [|fuel IH]; intros st data out H.
  - destruct data; [|discriminate]. simpl in H. invert H. auto.
  - destruct data as [|c d]; [simpl in H; invert H; auto|].
    rewrite loop_cons in H.
    destruct (received_buf_turn st (c :: d)) as [[st1 rest] out1] eqn:Ht.
    destruct (received_buf_loop fuel st1 rest) as [[st2 out2]|] eqn:E;
      [|discriminate].
    invert H.
    pose proof (turn_invariant st (c :: d) st1 rest out1 ltac:(discriminate) Ht)
      as (Ic & Ip & Il & _).
    apply IH in E. destruct E as (Jc & Jp & Jl).
    split; [auto|]. split; [auto|]. congruence.
Qed.

(** Running over [a] and then over [b] is running over [a ++ b]. *)
Lemma loop_app f1 f2 st a b s1 o1 s2 o2 :
  received_buf_loop f1 st a = Some (s1, o1) ->
  received_buf_loop f2 s1 b = Some (s2, o2) ->
  exists f, received_buf_loop f st (a ++ b) = Some (s2, o1 ++ o2).
Proof.
  revert st a o1.
  induction f1 as [|f1 IH]; intros st a o1 Ha Hb.
  - destruct a; [|discriminate]. simpl in Ha. invert Ha. exists f2. exact Hb.
  - destruct a as [|c d]; [simpl in Ha; invert Ha; exists f2; exact Hb|].
    rewrite loop_cons in Ha.
    destruct (received_buf_turn st (c :: d)) as [[st1 rest] out] eqn:Ht.
    destruct (received_buf_loop f1 st1 rest) as [[s1' o1']|] eqn:El;
      [|discriminate].
    invert Ha.
    pose proof Ht as Ht0.
    unfold received_buf_turn in Ht.
    destruct (lunix_protocol_parse_state st (c :: d)
                (use_specials_in (state st))) as [[r st0] rest0] eqn:Hp.
    pose proof (parse_state_app st (c :: d) b _ _ _ _ Hp) as Happ.
    pose proof (parse_state_result _ _ _ _ _ _ Hp) as (_ & Hres).
    destruct rest0 as [|x rest0].
    + (* the turn used up [a] *)
      destruct Hres as [(_ & _ & Hne)|(Hr & Hst & _)]; [congruence|].
      destruct b as [|y b].
      { rewrite app_nil_r. rewrite loop_nil in Hb. injection Hb as <- <-.
        exists (S f1). rewrite loop_cons, Ht0, El, app_nil_r. reflexivity. }
      destruct r.
      * (* the stage is complete: the next turn starts the next stage *)
        destruct (stage_complete st0) as [st2 out2] eqn:Hsc. invert Ht.
        rewrite loop_nil in El. invert El.
        exists (S f2). rewrite <- app_comm_cons, loop_cons.
        unfold received_buf_turn.
        rewrite app_comm_cons, Happ.
        rewrite parse_state_full.
        2:{ unfold stage_status in Hr.
            destruct (bytes_read st0 =? bytes_to_read st0) eqn:E;
              [apply Z.eqb_eq in E; lia | discriminate]. }
        rewrite <- Hr, Hsc, Hb, app_nil_r. reflexivity.
      * (* the stage goes on in [b] *)
        invert Ht. rewrite loop_nil in El. invert El.
        destruct f2 as [|f2]; [discriminate|].
        exists (S f2). rewrite <- app_comm_cons, loop_cons.
        unfold received_buf_turn.
        rewrite app_comm_cons, Happ, <- Hst.
        rewrite loop_cons in Hb. unfold received_buf_turn in Hb.
        exact Hb.
      * unfold stage_status in Hr. destruct (_ =? _); discriminate.
    + (* the turn stopped inside [a] *)
      assert (Ht' : received_buf_turn st ((c :: d) ++ b)
                    = (st1, rest ++ b, out)).
      { unfold received_buf_turn. rewrite Happ.
        destruct r; [destruct (stage_complete st0)| |]; invert Ht;
          reflexivity. }
      destruct (IH st1 rest o1' El Hb) as (f & Hf).
      exists (S f). rewrite <- app_comm_cons, loop_cons, app_comm_cons, Ht', Hf.
      rewrite app_assoc. reflexivity.
Qed.

(** *** [lunix_protocol_received_buf] *)

Lemma idle_turns_le st : (idle_turns st <= 3)%nat.
Proof.
  unfold idle_turns.
  destruct (bytes_read st <? bytes_to_read st);
    [destruct (pos st =? MAX_PACKET_LEN)|destruct (state st)]; lia.
Qed.

(** On a state that satisfies the counting invariant the call returns. *)
Lemma received_buf_returns st buf :
  count_ok st -> exists r, lunix_protocol_received_buf st buf = Some r.
Proof.
  intros Hc. unfold lunix_protocol_received_buf.
  apply loop_terminates; [exact Hc|].
  pose proof (idle_turns_le st). lia.
Qed.

Lemma received_buf_invariant st buf st' out :
  lunix_protocol_received_buf st buf = Some (st', out) ->
  (count_ok st -> count_ok st')
  /\ (pos_ok st -> pos_ok st')
  /\ length (packet st') = length (packet st).
Proof. apply loop_invariant. Qed.

(** Two calls in a row are one call on the concatenated input. *)
Lemma received_buf_app st a b :
  count_ok st ->
  lunix_protocol_received_buf st (a ++ b)
  = match lunix_protocol_received_buf st a with
    | Some (s1, o1) =>
        match lunix_protocol_received_buf s1 b with
        | Some (s2, o2) => Some (s2, o1 ++ o2)
        | None => None
        end
    | None => None
    end.
Proof.
  intros Hc.
  destruct (received_buf_returns st a Hc) as ([s1 o1] & Ha). rewrite Ha.
  pose proof (received_buf_invariant _ _ _ _ Ha) as (Ic & _).
  destruct (received_buf_returns s1 b (Ic Hc)) as ([s2 o2] & Hb). rewrite Hb.
  destruct (received_buf_returns st (a ++ b) Hc) as (r & Hab). rewrite Hab.
  destruct (loop_app _ _ _ _ _ _ _ _ _ Ha Hb) as (f & Hf).
  unfold lunix_protocol_received_buf in Hab.
  pose proof (loop_mono f (Nat.max f (4 * length (a ++ b) + 4)) _ _ _
                ltac:(lia) Hf) as H1.
  pose proof (loop_mono (4 * length (a ++ b) + 4)
                (Nat.max f (4 * length (a ++ b) + 4)) _ _ _
                ltac:(lia) Hab) as H2.
  congruence.
Qed.

Lemma feed_chunks_concat st chunks :
  count_ok st ->
  feed_chunks st chunks = lunix_protocol_received_buf st (concat chunks).
Proof.
  revert st. induction chunks as [|c chunks IH]; intros st Hc.
  - reflexivity.
  - cbn [feed_chunks concat]. rewrite (received_buf_app st c _ Hc).
    destruct (lunix_protocol_received_buf st c) as [[s1 o1]|] eqn:E;
      [|reflexivity].
    pose proof (received_buf_invariant _ _ _ _ E) as (Ic & _).
    rewrite (IH s1 (Ic Hc)). reflexivity.
Qed.

(** *** Stored bytes *)

Lemma write_bytes_length bs : forall p pk,
  length (write_bytes p bs pk) = length pk.
Proof.
  induction bs as [|c bs IH]; intros p pk; simpl; [reflexivity|].
  rewrite IH. apply length_insert.
Qed.

Lemma write_bytes_app a : forall b p pk,
  write_bytes p (a ++ b) pk = write_bytes (p + length a) b (write_bytes p a pk).
Proof.
  induction a as [|c a IH]; intros b p pk; simpl.
  - rewrite Nat.add_0_r. reflexivity.
  - rewrite IH. f_equal. lia.
Qed.

Lemma write_bytes_lookup_lt bs : forall p pk i,
  (i < p)%nat -> write_bytes p bs pk !! i = pk !! i.
Proof.
  induction bs as [|c bs IH]; intros p pk i Hi; simpl; [reflexivity|].
  rewrite IH by lia. apply list_lookup_insert_ne. lia.
Qed.

Lemma write_bytes_lookup bs : forall p pk i,
  (p + length bs <= length pk)%nat -> (i < length bs)%nat ->
  write_bytes p bs pk !! (p + i)%nat = bs !! i.
Proof.
  induction bs as [|c bs IH]; intros p pk i Hp Hi; simpl in *; [lia|].
  destruct i as [|i].
  - rewrite Nat.add_0_r, write_bytes_lookup_lt by lia.
    apply list_lookup_insert_eq. lia.
  - replace (p + S i)%nat with (S p + i)%nat by lia.
    apply IH; [rewrite length_insert; lia | lia].
Qed.

Lemma packet_at_written raw pk0 i :
  (length raw <= length pk0)%nat -> (i < length raw)%nat ->
  packet_at (write_bytes 0 raw pk0) (Z.of_nat i) = raw !!! i.
Proof.
  intros Hl Hi. unfold packet_at. rewrite Nat2Z.id.
  destruct (lookup_lt_is_Some_2 raw i Hi) as [x Hx].
  rewrite (list_lookup_total_correct raw i x Hx).
  apply list_lookup_total_correct. rewrite <- Hx.
  apply (write_bytes_lookup raw 0 pk0 i); lia.
Qed.

(** *** Stuffed bytes through the inner loop *)

Lemma fill_fields bs : forall st,
  0 <= pos st ->
  let st' := fold_left store_byte bs st in
  state st' = state st
  /\ bytes_read st' = bytes_read st + Z.of_nat (length bs)
  /\ bytes_to_read st' = bytes_to_read st
  /\ pos st' = pos st + Z.of_nat (length bs)
  /\ payload_length st' = payload_length st
  /\ packet st' = write_bytes (Z.to_nat (pos st)) bs (packet st)
  /\ (next_is_special st = false -> next_is_special st' = false).
Proof.
  induction bs as [|c bs IH]; intros st Hp; cbn [fold_left length write_bytes].
  - repeat split; try lia. auto.
  - destruct (IH (store_byte st c)) as (H1 & H2 & H3 & H4 & H5 & H6 & H7);
      [simpl; lia|].
    cbn [store_byte state bytes_read bytes_to_read pos payload_length packet
         next_is_special] in *.
    repeat split; try lia; try assumption.
    + rewrite H6. f_equal. lia.
    + auto.
Qed.

Lemma lxor_0x20_twice c : Z.lxor (Z.lxor c 0x20) 0x20 = c.
Proof.
  rewrite Z.lxor_assoc, Z.lxor_nilpotent, Z.lxor_0_r. reflexivity.
Qed.

Lemma consume_escaped st c :
  next_is_special st = false ->
  consume_byte (consume_byte st 0x7D true) (Z.lxor c 0x20) true
  = store_byte st c.
Proof.
  intros H. unfold consume_byte at 2. rewrite H. simpl (125 =? 125).
  cbv iota. unfold consume_byte. cbn [mark_special next_is_special].
  rewrite lxor_0x20_twice. reflexivity.
Qed.

Lemma consume_plain st c :
  next_is_special st = false -> (c =? 0x7E) || (c =? 0x7D) = false ->
  consume_byte st c true = store_byte st c.
Proof.
  intros H Hc. unfold consume_byte. rewrite H.
  apply orb_false_iff in Hc. destruct Hc as [_ ->]. reflexivity.
Qed.

(** Stuffed bytes are stored unstuffed, one position each. *)
Lemma parse_state_stuffed bs : forall st rest,
  next_is_special st = false ->
  bytes_read st + Z.of_nat (length bs) <= bytes_to_read st ->
  pos st + Z.of_nat (length bs) <= MAX_PACKET_LEN ->
  lunix_protocol_parse_state st (stuff bs ++ rest) true
  = lunix_protocol_parse_state (fold_left store_byte bs st) rest true.
Proof.
  induction bs as [|c bs IH]; intros st rest Hn Hb Hp; [reflexivity|].
  cbn [length] in *. cbn [fold_left].
  assert (Hnext :
    lunix_protocol_parse_state st (stuff (c :: bs) ++ rest) true
    = lunix_protocol_parse_state (store_byte st c) (stuff bs ++ rest) true).
  { unfold stuff. cbn [flat_map]. unfold escape_byte.
    destruct ((c =? 126) || (c =? 125)) eqn:Ec.
    - cbn [app].
      rewrite parse_state_take by lia.
      rewrite parse_state_take.
      + rewrite consume_escaped by exact Hn. reflexivity.
      + unfold consume_byte. rewrite Hn. simpl. lia.
      + unfold consume_byte. rewrite Hn. simpl. lia.
    - cbn [app].
      rewrite parse_state_take by lia.
      rewrite consume_plain by assumption. reflexivity. }
  rewrite Hnext. apply IH; simpl; lia.
Qed.

(** *** One stage at a time *)

Lemma turn_done st data :
  ~ bytes_read st < bytes_to_read st ->
  received_buf_turn st data = ((finish_turn st).1, data, (finish_turn st).2).
Proof.
  intros H. destruct data; [apply turn_nil | apply turn_full; exact H].
Qed.

Lemma at_stage_fill pk0 st s prefix bs :
  at_stage pk0 st s (Z.of_nat (length bs)) prefix ->
  let st' := fold_left store_byte bs st in
  state st' = s
  /\ bytes_read st' = bytes_to_read st'
  /\ next_is_special st' = false
  /\ pos st' = Z.of_nat (length (prefix ++ bs))
  /\ packet st' = write_bytes 0 (prefix ++ bs) pk0.
Proof.
  intros (Hs & Hr & Ht & Hn & Hp & Hk) st'.
  destruct (fill_fields bs st ltac:(lia)) as (F1 & F2 & F3 & F4 & _ & F6 & F7).
  fold st' in F1, F2, F3, F4, F6, F7.
  split; [congruence|]. split; [lia|]. split; [auto|].
  split; [rewrite length_app; lia|].
  rewrite F6, Hk, Hp, Nat2Z.id, write_bytes_app. reflexivity.
Qed.

(** A stage that reads stuffed bytes, whole in one turn. *)
Lemma turn_stage pk0 st s bs prefix rest :
  at_stage pk0 st s (Z.of_nat (length bs)) prefix ->
  use_specials_in s = true ->
  (length prefix + length bs <= 300)%nat ->
  received_buf_turn st (stuff bs ++ rest)
  = ((stage_complete (fold_left store_byte bs st)).1, rest,
     (stage_complete (fold_left store_byte bs st)).2).
Proof.
  intros Ha Hu Hlen.
  pose proof (at_stage_fill _ _ _ _ _ Ha) as (F1 & F2 & _).
  destruct Ha as (Hs & Hr & Ht & Hn & Hp & Hk).
  unfold received_buf_turn. rewrite Hs, Hu.
  rewrite parse_state_stuffed;
    [|exact Hn | lia | unfold MAX_PACKET_LEN; lia].
  rewrite parse_state_full by lia.
  unfold stage_status. rewrite F2, Z.eqb_refl.
  destruct (stage_complete _). reflexivity.
Qed.

Lemma at_stage_set_state pk0 st s nxt k prefix :
  state st = s -> next_is_special st = false ->
  pos st = Z.of_nat (length prefix) ->
  packet st = write_bytes 0 prefix pk0 ->
  at_stage pk0 (set_state st nxt k 0) nxt k prefix.
Proof.
  intros Hs Hn Hp Hk. unfold at_stage. simpl. repeat split; assumption.
Qed.

Lemma turn_simple_stage pk0 st s nxt k bs prefix rest :
  at_stage pk0 st s (Z.of_nat (length bs)) prefix ->
  use_specials_in s = true ->
  (length prefix + length bs <= 300)%nat ->
  (forall x, state x = s -> stage_complete x = (set_state x nxt k 0, [])) ->
  exists st1,
    received_buf_turn st (stuff bs ++ rest) = (st1, rest, [])
    /\ at_stage pk0 st1 nxt k (prefix ++ bs).
Proof.
  intros Ha Hu Hlen Hsc.
  pose proof (at_stage_fill _ _ _ _ _ Ha) as (F1 & F2 & F3 & F4 & F5).
  rewrite (turn_stage _ _ _ _ _ rest Ha Hu Hlen), (Hsc _ F1).
  eexists. split; [reflexivity|].
  eapply at_stage_set_state; eauto.
Qed.

Lemma turn_length_stage pk0 st l prefix rest :
  at_stage pk0 st SEEKING_PAYLOAD_LENGTH 1 prefix ->
  is_byte l ->
  (length prefix + 1 <= 300)%nat -> length pk0 = 300%nat ->
  exists st1,
    received_buf_turn st (stuff [l] ++ rest) = (st1, rest, [])
    /\ at_stage pk0 st1 SEEKING_PAYLOAD l (prefix ++ [l]).
Proof.
  intros Ha Hl Hlen Hpk.
  pose proof (at_stage_fill pk0 st _ prefix [l] Ha) as (F1 & F2 & F3 & F4 & F5).
  rewrite (turn_stage _ _ _ [l] _ rest Ha eq_refl Hlen).
  set (st' := fold_left store_byte [l] st) in *.
  unfold stage_complete. rewrite F1.
  assert (Hat : packet_at (packet st') (pos st' - 1) = l).
  { rewrite F5, F4, length_app. cbn [length].
    replace (Z.of_nat (length prefix + 1) - 1) with (Z.of_nat (length prefix))
      by lia.
    rewrite packet_at_written by (rewrite ?length_app; simpl; lia).
    rewrite lookup_total_app_r by lia.
    rewrite Nat.sub_diag. reflexivity. }
  rewrite Hat.
  assert (l mod 256 = l) as -> by (apply Z.mod_small; exact Hl).
  clearbody st'.
  eexists. split; [reflexivity|].
  unfold at_stage. simpl. repeat split; assumption.
Qed.

Lemma turn_literal st c rest :
  use_specials_in (state st) = false ->
  bytes_read st = 0 -> bytes_to_read st = 1 -> pos st <> MAX_PACKET_LEN ->
  received_buf_turn st (c :: rest)
  = ((stage_complete (store_byte st c)).1, rest,
     (stage_complete (store_byte st c)).2).
Proof.
  intros Hu Hr Ht Hp.
  rewrite turn_take by lia. rewrite Hu. unfold consume_byte.
  rewrite turn_done by (simpl; lia).
  unfold finish_turn, stage_status. simpl bytes_read. simpl bytes_to_read.
  rewrite Hr, Ht. reflexivity.
Qed.

Lemma turn_start_byte pk0 st rest :
  at_stage pk0 st SEEKING_START_BYTE 1 [] ->
  length pk0 = 300%nat ->
  exists st1,
    received_buf_turn st (0x7E :: rest) = (st1, rest, [])
    /\ at_stage pk0 st1 SEEKING_PACKET_TYPE 1 [0x7E].
Proof.
  intros Ha Hpk.
  pose proof (at_stage_fill pk0 st _ [] [126] Ha) as (F1 & F2 & F3 & F4 & F5).
  destruct Ha as (Hs & Hr & Ht & Hn & Hp & Hk).
  rewrite turn_literal; [|rewrite Hs; reflexivity | assumption | assumption
                          | rewrite Hp; discriminate].
  change (store_byte st 126) with (fold_left store_byte [126] st).
  set (st' := fold_left store_byte [126] st) in *.
  unfold stage_complete. rewrite F1.
  assert (Hat : packet_at (packet st') (pos st' - 1) = 126).
  { rewrite F5, F4. cbn [app length].
    change (Z.of_nat 1 - 1) with (Z.of_nat 0).
    rewrite packet_at_written by (simpl; lia). reflexivity. }
  rewrite Hat. simpl (126 =? 126). cbv iota.
  clearbody st'.
  eexists. split; [reflexivity|].
  unfold at_stage. simpl. repeat split; assumption.
Qed.

Lemma turn_end_byte pk0 st prefix rest :
  at_stage pk0 st SEEKING_END_BYTE 1 prefix ->
  (length prefix + 1 <= 300)%nat -> length pk0 = 300%nat ->
  exists st1,
    received_buf_turn st (0x7E :: rest)
    = (st1, rest, [write_bytes 0 (prefix ++ [0x7E]) pk0])
    /\ at_stage (write_bytes 0 (prefix ++ [0x7E]) pk0) st1
         SEEKING_START_BYTE 1 [].
Proof.
  intros Ha Hlen Hpk.
  pose proof (at_stage_fill pk0 st _ prefix [126] Ha) as (F1 & F2 & F3 & F4 & F5).
  destruct Ha as (Hs & Hr & Ht & Hn & Hp & Hk).
  rewrite turn_literal; [|rewrite Hs; reflexivity | assumption | assumption
                          | unfold MAX_PACKET_LEN; lia].
  change (store_byte st 126) with (fold_left store_byte [126] st).
  set (st' := fold_left store_byte [126] st) in *.
  unfold stage_complete. rewrite F1.
  assert (Hat : packet_at (packet st') (pos st' - 1) = 126).
  { rewrite F5, F4, length_app. cbn [length].
    replace (Z.of_nat (length prefix + 1) - 1) with (Z.of_nat (length prefix))
      by lia.
    rewrite packet_at_written by (rewrite ?length_app; simpl; lia).
    rewrite lookup_total_app_r by lia.
    rewrite Nat.sub_diag. reflexivity. }
  rewrite Hat. simpl (126 =? 126). cbv iota.
  clearbody st'.
  eexists. split; [rewrite F5; reflexivity|].
  unfold at_stage. simpl. repeat split; try reflexivity. exact F5.
Qed.

(** *** A whole frame *)

Lemma stuff_app a b : stuff (a ++ b) = stuff a ++ stuff b.
Proof. apply flat_map_app. Qed.

Lemma frame_wire_stages f :
  frame_wire f
  = 0x7E
    :: stuff [fr_type f]
    ++ stuff [fr_dest_lo f; fr_dest_hi f]
    ++ stuff [fr_am_type f]
    ++ stuff [fr_am_group f]
    ++ stuff [Z.of_nat (length (fr_payload f))]
    ++ stuff (fr_payload f)
    ++ stuff [fr_crc_lo f; fr_crc_hi f]
    ++ [0x7E].
Proof.
  unfold frame_wire, frame_body, frame_header. f_equal.
  change [fr_type f; fr_dest_lo f; fr_dest_hi f; fr_am_type f; fr_am_group f;
          Z.of_nat (length (fr_payload f))]
    with ([fr_type f] ++ [fr_dest_lo f; fr_dest_hi f] ++ [fr_am_type f]
          ++ [fr_am_group f] ++ [Z.of_nat (length (fr_payload f))]).
  rewrite !stuff_app, <- !app_assoc. reflexivity.
Qed.

Lemma loop_turn fuel st data st1 rest out st2 out' :
  data <> [] ->
  received_buf_turn st data = (st1, rest, out) ->
  received_buf_loop fuel st1 rest = Some (st2, out') ->
  received_buf_loop (S fuel) st data = Some (st2, out ++ out').
Proof.
  intros Hne Ht Hl. destruct data as [|c d]; [contradiction|].
  rewrite loop_cons, Ht, Hl. reflexivity.
Qed.

Lemma app_end_nonempty (a : list Z) x : a ++ [x] <> [].
Proof. destruct a; discriminate. Qed.

Lemma app_nonempty_r (a b : list Z) : b <> [] -> a ++ b <> [].
Proof. destruct a; [auto | discriminate]. Qed.

(** A well-formed frame, fed whole to a parser that waits for a start
    byte, is handed to the update path with its bytes unstuffed, and the
    parser waits for the next start byte. *)
Lemma received_buf_frame pk0 st f :
  Forall is_byte (frame_body f) ->
  (length (fr_payload f) < 256)%nat ->
  length pk0 = 300%nat ->
  at_stage pk0 st SEEKING_START_BYTE 1 [] ->
  exists st',
    lunix_protocol_received_buf st (frame_wire f)
    = Some (st', [write_bytes 0 (frame_raw f) pk0])
    /\ at_stage (write_bytes 0 (frame_raw f) pk0) st' SEEKING_START_BYTE 1 [].
Proof.
  intros Hbytes Hn Hpk A0.
  set (n := length (fr_payload f)) in *.
  assert (Hlenbyte : is_byte (Z.of_nat n)) by (unfold is_byte; lia).
  rewrite frame_wire_stages. fold n.
  (* the nine stages, one turn each *)
  destruct (turn_start_byte pk0 st
              (stuff [fr_type f] ++ stuff [fr_dest_lo f; fr_dest_hi f]
               ++ stuff [fr_am_type f] ++ stuff [fr_am_group f]
               ++ stuff [Z.of_nat n] ++ stuff (fr_payload f)
               ++ stuff [fr_crc_lo f; fr_crc_hi f] ++ [126]) A0 Hpk)
    as (s1 & T1 & A1).
  destruct (turn_simple_stage pk0 s1 SEEKING_PACKET_TYPE
              SEEKING_DESTINATION_ADDRESS 2 [fr_type f] [126]
              (stuff [fr_dest_lo f; fr_dest_hi f]
               ++ stuff [fr_am_type f] ++ stuff [fr_am_group f]
               ++ stuff [Z.of_nat n] ++ stuff (fr_payload f)
               ++ stuff [fr_crc_lo f; fr_crc_hi f] ++ [126])
              A1 eq_refl ltac:(simpl; lia))
    as (s2 & T2 & A2).
  { intros x Hx. unfold stage_complete. rewrite Hx. reflexivity. }
  destruct (turn_simple_stage pk0 s2 SEEKING_DESTINATION_ADDRESS
              SEEKING_AM_TYPE 1 [fr_dest_lo f; fr_dest_hi f] _
              (stuff [fr_am_type f] ++ stuff [fr_am_group f]
               ++ stuff [Z.of_nat n] ++ stuff (fr_payload f)
               ++ stuff [fr_crc_lo f; fr_crc_hi f] ++ [126])
              A2 eq_refl ltac:(simpl; lia))
    as (s3 & T3 & A3).
  { intros x Hx. unfold stage_complete. rewrite Hx. reflexivity. }
  destruct (turn_simple_stage pk0 s3 SEEKING_AM_TYPE
              SEEKING_AM_GROUP 1 [fr_am_type f] _
              (stuff [fr_am_group f]
               ++ stuff [Z.of_nat n] ++ stuff (fr_payload f)
               ++ stuff [fr_crc_lo f; fr_crc_hi f] ++ [126])
              A3 eq_refl ltac:(simpl; lia))
    as (s4 & T4 & A4).
  { intros x Hx. unfold stage_complete. rewrite Hx. reflexivity. }
  destruct (turn_simple_stage pk0 s4 SEEKING_AM_GROUP
              SEEKING_PAYLOAD_LENGTH 1 [fr_am_group f] _
              (stuff [Z.of_nat n] ++ stuff (fr_payload f)
               ++ stuff [fr_crc_lo f; fr_crc_hi f] ++ [126])
              A4 eq_refl ltac:(simpl; lia))
    as (s5 & T5 & A5).
  { intros x Hx. unfold stage_complete. rewrite Hx. reflexivity. }
  destruct (turn_length_stage pk0 s5 (Z.of_nat n) _
              (stuff (fr_payload f)
               ++ stuff [fr_crc_lo f; fr_crc_hi f] ++ [126])
              A5 Hlenbyte ltac:(simpl; lia) Hpk)
    as (s6 & T6 & A6).
  destruct (turn_simple_stage pk0 s6 SEEKING_PAYLOAD
              SEEKING_CRC 2 (fr_payload f) _
              (stuff [fr_crc_lo f; fr_crc_hi f] ++ [126])
              A6 eq_refl ltac:(simpl; fold n; lia))
    as (s7 & T7 & A7).
  { intros x Hx. unfold stage_complete. rewrite Hx. reflexivity. }
  destruct (turn_simple_stage pk0 s7 SEEKING_CRC
              SEEKING_END_BYTE 1 [fr_crc_lo f; fr_crc_hi f] _ [126]
              A7 eq_refl
              ltac:(rewrite !length_app; simpl; fold n; lia))
    as (s8 & T8 & A8).
  { intros x Hx. unfold stage_complete. rewrite Hx. reflexivity. }
  destruct (turn_end_byte pk0 s8 _ [] A8
              ltac:(rewrite !length_app; simpl; fold n; lia) Hpk)
    as (s9 & T9 & A9).
  assert (Hraw :
    ((((((([126] ++ [fr_type f]) ++ [fr_dest_lo f; fr_dest_hi f])
          ++ [fr_am_type f]) ++ [fr_am_group f]) ++ [Z.of_nat n])
       ++ fr_payload f) ++ [fr_crc_lo f; fr_crc_hi f]) ++ [126]
    = frame_raw f).
  { unfold frame_raw, frame_body, frame_header. fold n.
    rewrite <- !app_assoc. reflexivity. }
  rewrite Hraw in T9, A9.
  exists s9. split; [|exact A9].
  unfold lunix_protocol_received_buf.
  apply (loop_mono 9); [cbn [length]; rewrite !length_app; cbn [length]; lia|].
  change [write_bytes 0 (frame_raw f) pk0]
    with ([] ++ [] ++ [] ++ [] ++ [] ++ [] ++ [] ++ []
          ++ [write_bytes 0 (frame_raw f) pk0] ++ []).
  eapply loop_turn; [discriminate | exact T1 |].
  eapply loop_turn; [apply app_nonempty_r; repeat apply app_nonempty_r;
                     discriminate | exact T2 |].
  eapply loop_turn; [apply app_nonempty_r; repeat apply app_nonempty_r;
                     discriminate | exact T3 |].
  eapply loop_turn; [apply app_nonempty_r; repeat apply app_nonempty_r;
                     discriminate | exact T4 |].
  eapply loop_turn; [apply app_nonempty_r; repeat apply app_nonempty_r;
                     discriminate | exact T5 |].
  eapply loop_turn; [apply app_nonempty_r; repeat apply app_nonempty_r;
                     discriminate | exact T6 |].
  eapply loop_turn; [apply app_nonempty_r; repeat apply app_nonempty_r;
                     discriminate | exact T7 |].
  eapply loop_turn; [apply app_nonempty_r; discriminate | exact T8 |].
  eapply loop_turn; [discriminate | exact T9 |].
  apply loop_nil.
Qed.

(** *** What the update path gets *)

Lemma frame_raw_length f :
  length (frame_raw f) = (length (fr_payload f) + 10)%nat.
Proof.
  unfold frame_raw, frame_body, frame_header.
  cbn [length app]. rewrite !length_app. cbn [length]. lia.
Qed.

Lemma frame_raw_am_type f : frame_raw f !!! 4%nat = fr_am_type f.
Proof. reflexivity. Qed.

Lemma frame_raw_payload f j :
  (j < length (fr_payload f))%nat ->
  frame_raw f !!! (7 + j)%nat = fr_payload f !!! j.
Proof.
  intros Hj. unfold frame_raw, frame_body, frame_header.
  change (7 + j)%nat with (S (S (S (S (S (S (S j))))))).
  cbn [app]. simpl.
  rewrite !lookup_total_app_l by (rewrite ?length_app; simpl; lia).
  reflexivity.
Qed.

Lemma frame_packet_measurements pk0 f :
  well_formed_sensor_frame f -> length pk0 = 300%nat ->
  packet_measurements (write_bytes 0 (frame_raw f) pk0)
  = Some (frame_measurements f).
Proof.
  intros (Hb & Hn & Ham & Hlen) Hpk.
  pose proof (frame_raw_length f) as Hraw.
  assert (Hat : forall i, (i < length (frame_raw f))%nat ->
                packet_at (write_bytes 0 (frame_raw f) pk0) (Z.of_nat i)
                = frame_raw f !!! i).
  { intros i Hi. apply packet_at_written; lia. }
  unfold packet_measurements, uint16_from_packet, frame_measurements,
    payload_uint16, PACKET_SIGNATURE_OFFSET, NODE_OFFSET, VREF_OFFSET,
    TEMPERATURE_OFFSET, LIGHT_OFFSET.
  change 4 with (Z.of_nat 4). change 9 with (Z.of_nat (7 + 2)).
  change (Z.of_nat (7 + 2) + 1) with (Z.of_nat (7 + 3)).
  change 18 with (Z.of_nat (7 + 11)).
  change (Z.of_nat (7 + 11) + 1) with (Z.of_nat (7 + 12)).
  change 20 with (Z.of_nat (7 + 13)).
  change (Z.of_nat (7 + 13) + 1) with (Z.of_nat (7 + 14)).
  change 22 with (Z.of_nat (7 + 15)).
  change (Z.of_nat (7 + 15) + 1) with (Z.of_nat (7 + 16)).
  rewrite !Hat by lia.
  rewrite frame_raw_am_type, Ham. simpl (11 =? 11). cbv iota.
  rewrite !frame_raw_payload by lia. reflexivity.
Qed.

Lemma initial_at_stage :
  at_stage (packet initial_protocol_state) initial_protocol_state
    SEEKING_START_BYTE 1 [].
Proof. unfold at_stage. repeat split; reflexivity. Qed.

Lemma initial_count_ok : count_ok initial_protocol_state.
Proof. unfold count_ok. simpl. lia. Qed.

Lemma initial_pos_ok : pos_ok initial_protocol_state.
Proof. unfold pos_ok, MAX_PACKET_LEN. simpl. lia. Qed.

(** A well-formed sensor frame fed whole from the initial state: one
    packet, with the measurements of the frame. *)
Lemma frame_fed_whole f :
  well_formed_sensor_frame f ->
  extracted (lunix_protocol_received_buf initial_protocol_state
               (frame_wire f))
  = Some [Some (frame_measurements f)].
Proof.
  intros Hwf. pose proof Hwf as (Hb & Hn & Ham & Hlen).
  destruct (received_buf_frame (packet initial_protocol_state)
              initial_protocol_state f Hb Hn eq_refl initial_at_stage)
    as (st' & Hr & _).
  rewrite Hr. cbn [extracted map].
  rewrite frame_packet_measurements; [reflexivity | exact Hwf | reflexivity].
Qed.

Lemma concat_singletons (l : list Z) : concat (map (fun c => [c]) l) = l.
Proof. induction l as [|c l IH]; simpl; [reflexivity | f_equal; exact IH]. Qed.

(** One byte per call. *)
Lemma frame_fed_bytewise f :
  well_formed_sensor_frame f ->
  extracted (feed_chunks initial_protocol_state
               (map (fun c => [c]) (frame_wire f)))
  = Some [Some (frame_measurements f)].
Proof.
  intros Hwf.
  rewrite feed_chunks_concat by exact initial_count_ok.
  rewrite concat_singletons. apply frame_fed_whole. exact Hwf.
Qed.

(** ** Claims about the frame parser *)

(** C4.  For a well-formed sensor frame -- escaped [0x7E] and [0x7D] in any
    stuffed field included -- and any way of cutting its wire bytes into
    consecutive chunks, feeding the chunks one call at a time from the
    initial parser state gives the same result as feeding the whole frame
    in one call: the same parser state, and the one packet whose
    (nodeId, batt, temp, light) are those of the frame. *)
Theorem chunk_boundary_independence f chunks :
  well_formed_sensor_frame f ->
  concat chunks = frame_wire f ->
  feed_chunks initial_protocol_state chunks
  = lunix_protocol_received_buf initial_protocol_state (frame_wire f)
  /\ extracted (feed_chunks initial_protocol_state chunks)
     = Some [Some (frame_measurements f)]
  /\ extracted (lunix_protocol_received_buf initial_protocol_state
                  (frame_wire f))
     = Some [Some (frame_measurements f)].
Proof.
  intros Hwf Hcat.
  assert (Hchunks : feed_chunks initial_protocol_state chunks
                    = lunix_protocol_received_buf initial_protocol_state
                        (frame_wire f)).
  { rewrite feed_chunks_concat by exact initial_count_ok.
    rewrite Hcat. reflexivity. }
  pose proof (frame_fed_whole f Hwf) as Hwhole.
  split; [exact Hchunks|]. split; [|exact Hwhole].
  rewrite Hchunks. exact Hwhole.
Qed.

Lemma chunk_boundary_independence_witness :
  extracted (feed_chunks initial_protocol_state sample_chunks)
  = Some [Some (frame_measurements sample_frame)].
Proof.
  refine (proj1 (proj2 (chunk_boundary_independence sample_frame
                          sample_chunks _ _))).
  - unfold well_formed_sensor_frame.
    split; [repeat constructor; unfold is_byte; simpl; lia|].
    split; [simpl; lia|]. split; [reflexivity | simpl; lia].
  - vm_compute. reflexivity.
Defined.

(** Cut in two in the middle of an escape pair: same packet. *)
Example chunk_split_inside_escape :
  extracted (feed_chunks initial_protocol_state
               [take 3 (frame_wire sample_frame);
                drop 3 (frame_wire sample_frame)])
  = Some [Some (5, 512, 382, 893)].
Proof. vm_compute. reflexivity. Qed.

(** C8.  However the input is cut into calls, a parser started in its
    initial state returns from every call with its write position within
    the 300 bytes of the working buffer, whose size never changes; from
    any state with the position in range a call leaves it in range; and
    when the buffer is full while the stage still expects bytes, the turn
    stores nothing, hands no packet to the update path and leaves the
    parser as [lunix_protocol_init] does -- waiting for a start byte at
    position 0 --, so that the call goes on exactly as a call on a freshly
    initialised parser. *)
Theorem parser_buffer_bounded :
  (forall chunks,
     exists st' out,
       feed_chunks initial_protocol_state chunks = Some (st', out)
       /\ 0 <= pos st' <= MAX_PACKET_LEN
       /\ length (packet st') = Z.to_nat MAX_PACKET_LEN)
  /\ (forall st buf st' out,
        pos_ok st ->
        lunix_protocol_received_buf st buf = Some (st', out) ->
        pos_ok st' /\ length (packet st') = length (packet st))
  /\ (forall st c d,
        bytes_read st < bytes_to_read st -> pos st = MAX_PACKET_LEN ->
        received_buf_turn st (c :: d) = (lunix_protocol_init st, c :: d, [])
        /\ state (lunix_protocol_init st) = SEEKING_START_BYTE
        /\ pos (lunix_protocol_init st) = 0
        /\ bytes_read (lunix_protocol_init st) = 0
        /\ bytes_to_read (lunix_protocol_init st) = 1
        /\ next_is_special (lunix_protocol_init st) = false
        /\ packet (lunix_protocol_init st) = packet st
        /\ lunix_protocol_received_buf st (c :: d)
           = lunix_protocol_received_buf (lunix_protocol_init st) (c :: d)).
Proof.
  split; [|split].
  - intros chunks.
    rewrite feed_chunks_concat by exact initial_count_ok.
    destruct (received_buf_returns initial_protocol_state (concat chunks)
                initial_count_ok) as ([st' out] & Hr).
    exists st', out. split; [exact Hr|].
    destruct (received_buf_invariant _ _ _ _ Hr) as (_ & Hp & Hl).
    split; [exact (Hp initial_pos_ok)|].
    rewrite Hl. reflexivity.
  - intros st buf st' out Hp Hr.
    destruct (received_buf_invariant _ _ _ _ Hr) as (_ & Hp' & Hl). auto.
  - intros st c d Hb Hp.
    split; [apply turn_overflow; assumption|].
    repeat (split; [reflexivity|]).
    unfold lunix_protocol_received_buf.
    replace (4 * length (c :: d) + 4)%nat
      with (S (4 * length (c :: d) + 3)) by lia.
    rewrite loop_cons, turn_overflow by assumption.
    destruct (loop_terminates (4 * length (c :: d) + 3)
                (lunix_protocol_init st) (c :: d) (init_count st))
      as ([st2 out2] & Hl);
      [change (idle_turns (lunix_protocol_init st)) with 0%nat; lia|].
    rewrite Hl.
    rewrite (loop_mono (4 * length (c :: d) + 3)
               (S (4 * length (c :: d) + 3)) _ _ _ ltac:(lia) Hl).
    reflexivity.
Qed.

Lemma parser_buffer_bounded_witness :
  received_buf_turn sample_full_state [0x11; 0x22]
  = (lunix_protocol_init sample_full_state, [0x11; 0x22], []).
Proof.
  refine (proj1 (proj2 (proj2 parser_buffer_bounded) sample_full_state
                   0x11 [0x22] _ _)).
  - simpl. lia.
  - reflexivity.
Defined.

(** From the wire to a reader: the frame of node 5 arrives in two calls,
    and a reader of that node's battery device gets the converted text. *)
Example wire_to_reader :
  ('(st1, sensors1, _) ←
     lunix_ldisc_receive_buf 16 1700000000 initial_protocol_state
       sample_sensors_fresh (take 20 (frame_wire sample_frame));
  '(_, sensors2, _) ←
     lunix_ldisc_receive_buf 16 1700000001 st1 sensors1
       (drop 20 (frame_wire sample_frame));
  rr ← lunix_chrdev_read uint16_to_batt sample_temperature sample_light
         sample_bufsz 2 sensors2
         {| type := BATT; sensor := 4; buf_lim := 0;
            buf_data := replicate 20 "x"%char; lock := 1;
            buf_timestamp := 0 |}
         sample_usrbuf 64 0 [];
   Ret (sensors1 !! 4%nat, rd_ret rr, ubuf_data (rd_usrbuf rr)))
  = Ret (Some fresh_sensor, 6, text_2_443).
Proof. vm_compute. reflexivity. Qed.
(* ================================================================== *)
(** * More on the character device *)

(** ** The session lock around a read *)

Lemma up_down st : up (with_lock (lock st - 1) st) = st.
Proof.
  destruct st. unfold up, with_lock. simpl. f_equal. lia.
Qed.

Lemma down_up st : with_lock (lock (up st) - 1) (up st) = st.
Proof.
  destruct st. unfold up, with_lock. simpl. f_equal. lia.
Qed.

Section ChrdevMore.

Variable lookup_voltage lookup_temperature lookup_light : Z -> Z.
Variable LUNIX_CHRDEV_BUFSZ : Z.

Abbreviation state_update2 :=
  (lunix_chrdev_state_update lookup_voltage lookup_temperature lookup_light
     LUNIX_CHRDEV_BUFSZ).
Abbreviation refresh_loop2 :=
  (read_refresh_loop lookup_voltage lookup_temperature lookup_light
     LUNIX_CHRDEV_BUFSZ).
Abbreviation chrdev_read2 :=
  (lunix_chrdev_read lookup_voltage lookup_temperature lookup_light
     LUNIX_CHRDEV_BUFSZ).

(** A refresh touches neither the lock nor the identity of the session. *)
Lemma state_update_keeps sensors st r st' :
  state_update2 sensors st = Ret (r, st') ->
  lock st' = lock st /\ type st' = type st /\ sensor st' = sensor st.
Proof.
  intros H. apply state_update_ret in H.
  destruct H as [(_ & -> & _)|(m & c & _ & _ & _ & [(_ & _ & ->)|(v & _ & _ & H)])].
  - auto.
  - auto.
  - destruct (snprintf _ _ _) as [n b] eqn:E. subst st'. auto.
Qed.

(** The refresh loop: an early return hands back the session as it came
    in, with the lock released; the normal exit holds the lock. *)
Lemma read_refresh_loop_state fuel : forall sensors st evs early s' st' e',
  refresh_loop2 fuel sensors st evs = Ret (early, s', st', e') ->
  match early with
  | Some _ => st' = up st
  | None => lock st' = lock st /\ type st' = type st
            /\ sensor st' = sensor st
  end.
Proof.
  induction fuel as [|fuel IH]; intros sensors st evs early s' st' e';
    simpl; [discriminate|].
  res_unfold.
  destruct (state_update2 sensors st) as [[r0 st1]| | |] eqn:Hu;
    try discriminate.
  destruct (r0 =? - EAGAIN) eqn:Hr.
  - apply Z.eqb_eq in Hr. subst r0.
    apply state_update_ret in Hu.
    destruct Hu as [(_ & -> & _)|(m & c & _ & _ & _ & [(Hc & _)|(v & Hc & _)])];
      try (vm_compute in Hc; discriminate).
    destruct (wait_event_interruptible sensors (up st) evs)
      as [[[wr s1] e1]| | |]; try discriminate.
    destruct (negb (wr =? 0)); [intros H; invert H; reflexivity|].
    destruct (down_interruptible s1 (up st) e1)
      as [[[[dr s2] st3] e2]| | |] eqn:Hd; try discriminate.
    apply down_interruptible_ret in Hd.
    destruct (negb (dr =? 0)) eqn:Hdr.
    + intros H; invert H.
      destruct Hd as [(-> & _)|(_ & -> & _)];
        [vm_compute in Hdr; discriminate | reflexivity].
    + destruct Hd as [(_ & _ & -> & _ & _)|(-> & _)];
        [|vm_compute in Hdr; discriminate].
      rewrite down_up. apply IH.
  - intros H; invert H. eapply state_update_keeps; eassumption.
Qed.

End ChrdevMore.
(** ** What a read leaves behind *)

Section ChrdevReadFacts.

Variable lookup_voltage lookup_temperature lookup_light : Z -> Z.
Variable LUNIX_CHRDEV_BUFSZ : Z.

Abbreviation refresh_loop3 :=
  (read_refresh_loop lookup_voltage lookup_temperature lookup_light
     LUNIX_CHRDEV_BUFSZ).
Abbreviation chrdev_read3 :=
  (lunix_chrdev_read lookup_voltage lookup_temperature lookup_light
     LUNIX_CHRDEV_BUFSZ).

(** The part of a read after the refresh loop, when bytes are there and
    the caller can take them. *)
Lemma lunix_chrdev_read_copy fuel sensors st usrbuf cnt f_pos evs
    s0 st0 e0 s1 st1 e1 n :
  down_interruptible sensors st evs = Ret (0, s0, st0, e0) ->
  (if f_pos =? 0 then refresh_loop3 fuel s0 st0 e0
   else Ret (None, s0, st0, e0)) = Ret (None, s1, st1, e1) ->
  0 <= f_pos -> 0 < n -> n = Z.min cnt (buf_lim st1 - f_pos) ->
  f_pos + n <= Z.of_nat (length (buf_data st1)) ->
  n <= ubuf_writable usrbuf ->
  chrdev_read3 fuel sensors st usrbuf cnt f_pos evs
  = Ret {| rd_ret := n; rd_sensors := s1; rd_state := up st1;
           rd_usrbuf :=
             {| ubuf_writable := ubuf_writable usrbuf;
                ubuf_data :=
                  take (Z.to_nat n) (drop (Z.to_nat f_pos) (buf_data st1))
                  ++ drop (Z.to_nat n) (ubuf_data usrbuf) |};
           rd_f_pos := if f_pos + n >=? buf_lim st1 then 0 else f_pos + n;
           rd_pending := e1 |}.
Proof.
  intros Hd Hloop Hpos Hn Hmin Hlen Hw.
  unfold lunix_chrdev_read. res_unfold.
  rewrite Hd. cbn [negb Z.eqb]. rewrite Hloop.
  destruct (buf_lim st1 - f_pos <? 0) eqn:E1; [lia|].
  replace (if cnt >? buf_lim st1 - f_pos then buf_lim st1 - f_pos else cnt)
    with n by (destruct (cnt >? _) eqn:E; lia).
  destruct (n =? 0) eqn:E2; [lia|].
  replace (f_pos <? 0) with false by lia.
  replace (Z.of_nat (length (buf_data st1)) <? f_pos + n) with false by lia.
  cbn [orb]. unfold copy_to_user.
  replace (Z.min n (Z.max 0 (ubuf_writable usrbuf))) with n by lia.
  replace (n - n) with 0 by lia. cbn [negb Z.eqb].
  rewrite take_take, Nat.min_id. reflexivity.
Qed.

(** The two ways past the first [down_interruptible]. *)
Lemma read_entry fuel sensors st usrbuf cnt f_pos evs rr :
  0 <= cnt ->
  chrdev_read3 fuel sensors st usrbuf cnt f_pos evs = Ret rr ->
  (rd_ret rr = - ERESTARTSYS /\ rd_state rr = st /\ rd_usrbuf rr = usrbuf
   /\ rd_f_pos rr = f_pos)
  \/ (0 < lock st
      /\ exists s1 st1 e1,
           (if f_pos =? 0
            then refresh_loop3 fuel sensors (with_lock (lock st - 1) st) evs
            else Ret (None, sensors, with_lock (lock st - 1) st, evs))
           = Ret (None, s1, st1, e1)
           /\ lock st1 = lock st - 1 /\ type st1 = type st
           /\ sensor st1 = sensor st
           /\ rd_state rr = up st1 /\ rd_sensors rr = s1
           /\ rd_pending rr = e1
           /\ let avail := Z.max 0 (buf_lim st1 - f_pos) in
              let n := if cnt >? avail then avail else cnt in
              (n = 0 /\ rd_ret rr = 0 /\ rd_usrbuf rr = usrbuf
               /\ rd_f_pos rr = f_pos)
              \/ (n <> 0 /\ 0 <= f_pos
                  /\ f_pos + n <= Z.of_nat (length (buf_data st1))
                  /\ ((rd_ret rr = - EFAULT /\ rd_f_pos rr = f_pos
                       /\ ubuf_writable usrbuf < n)
                      \/ (rd_ret rr = n /\ n <= ubuf_writable usrbuf
                          /\ rd_f_pos rr
                             = (if f_pos + n >=? buf_lim st1 then 0
                                else f_pos + n)
                          /\ ubuf_data (rd_usrbuf rr)
                             = take (Z.to_nat n)
                                 (drop (Z.to_nat f_pos) (buf_data st1))
                               ++ drop (Z.to_nat n) (ubuf_data usrbuf))))).
Proof.
  intros Hcnt.
  unfold lunix_chrdev_read. res_unfold.
  destruct (down_interruptible sensors st evs)
    as [[[[dr s0] st0] e0]| | |] eqn:Hd; try discriminate.
  apply down_interruptible_ret in Hd.
  destruct (negb (dr =? 0)) eqn:Hdr.
  { intros H; invert H. left. simpl.
    destruct Hd as [(-> & _)|(_ & -> & _)];
      [vm_compute in Hdr; discriminate | auto]. }
  destruct Hd as [(_ & Hl & -> & -> & ->)|(-> & _)];
    [|vm_compute in Hdr; discriminate].
  destruct (if f_pos =? 0
            then refresh_loop3 fuel sensors (with_lock (lock st - 1) st) evs
            else Ret (None, sensors, with_lock (lock st - 1) st, evs))
    as [[[[early s1] st1] e1]| | |] eqn:Hloop; try discriminate.
  assert (Hst : match early with
                | Some _ => st1 = up (with_lock (lock st - 1) st)
                | None => lock st1 = lock st - 1 /\ type st1 = type st
                          /\ sensor st1 = sensor st
                end).
  { destruct (f_pos =? 0).
    - apply read_refresh_loop_state in Hloop. exact Hloop.
    - invert Hloop. auto. }
  destruct early as [r|].
  { intros H; invert H. left. simpl. rewrite up_down.
    destruct (f_pos =? 0); [|discriminate].
    apply read_refresh_loop_early in Hloop. auto. }
  destruct Hst as (Hk1 & Hk2 & Hk3).
  intros H. right. split; [exact Hl|].
  exists s1, st1, e1. split; [reflexivity|].
  replace (Z.max 0 (buf_lim st1 - f_pos))
    with (if buf_lim st1 - f_pos <? 0 then 0 else buf_lim st1 - f_pos)
    by (destruct (_ <? 0) eqn:E; lia).
  set (avail := if buf_lim st1 - f_pos <? 0 then 0 else buf_lim st1 - f_pos)
    in *.
  set (n := if cnt >? avail then avail else cnt) in *.
  cbv zeta.
  assert (Hn : 0 <= n).
  { subst n avail. destruct (_ <? 0) eqn:E1; destruct (cnt >? _) eqn:E2; lia. }
  destruct (n =? 0) eqn:Hn0.
  { apply Z.eqb_eq in Hn0.
    invert H. simpl. repeat (split; [assumption || reflexivity|]).
    left. repeat split. lia. }
  apply Z.eqb_neq in Hn0.
  destruct ((f_pos <? 0) || (Z.of_nat (length (buf_data st1)) <? f_pos + n))
    eqn:Hb; [discriminate|].
  apply orb_false_iff in Hb. destruct Hb as [Hb1 Hb2].
  apply Z.ltb_ge in Hb1, Hb2.
  unfold copy_to_user in H.
  destruct (negb (n - Z.min n (Z.max 0 (ubuf_writable usrbuf)) =? 0)) eqn:Hc.
  - invert H. simpl. repeat (split; [assumption || reflexivity|]).
    right. apply negb_true_iff, Z.eqb_neq in Hc.
    repeat (split; [lia|]). left. repeat split. lia.
  - invert H. simpl. repeat (split; [assumption || reflexivity|]).
    right. apply negb_false_iff, Z.eqb_eq in Hc.
    repeat (split; [lia|]). right.
    replace (Z.min n (Z.max 0 (ubuf_writable usrbuf))) with n by lia.
    rewrite take_take, Nat.min_id. repeat split. lia.
Qed.

(** X2.  Every call of [lunix_chrdev_read] that returns leaves the count
    of the session semaphore as it found it, on each of its return paths,
    and never changes which sensor and which measurement the session is
    bound to. *)
Theorem read_restores_lock fuel sensors st usrbuf cnt f_pos evs rr :
  0 <= cnt ->
  (lunix_chrdev_read lookup_voltage lookup_temperature lookup_light
    LUNIX_CHRDEV_BUFSZ fuel sensors st usrbuf cnt f_pos evs) = Ret rr ->
  lock (rd_state rr) = lock st
  /\ type (rd_state rr) = type st
  /\ sensor (rd_state rr) = sensor st.
Proof.
  intros Hcnt H. apply read_entry in H; [|exact Hcnt].
  destruct H as [(_ & -> & _)|(_ & s1 & st1 & e1 & _ & H1 & H2 & H3 & -> & _)].
  - auto.
  - unfold up. simpl. repeat split; try assumption. lia.
Qed.

(** X3.  A read that returns [-ERESTARTSYS] has had no effect on the
    session: the cached text, its length and timestamp, the lock count,
    the file offset and the caller's buffer are as before the call. *)
Theorem read_interrupted_no_effect fuel sensors st usrbuf cnt f_pos evs rr :
  0 <= cnt ->
  (lunix_chrdev_read lookup_voltage lookup_temperature lookup_light
    LUNIX_CHRDEV_BUFSZ fuel sensors st usrbuf cnt f_pos evs) = Ret rr ->
  rd_ret rr = - ERESTARTSYS ->
  rd_state rr = st /\ rd_usrbuf rr = usrbuf /\ rd_f_pos rr = f_pos.
Proof.
  intros Hcnt H Hr. apply read_entry in H; [|exact Hcnt].
  destruct H as [(_ & -> & -> & ->)|
                 (_ & s1 & st1 & e1 & _ & _ & _ & _ & _ & _ & _ & H)];
    [auto|].
  cbv zeta in H. exfalso.
  destruct H as [(_ & H0 & _)|(Hn & _ & _ & [(H0 & _)|(H0 & _)])].
  - rewrite Hr in H0. discriminate.
  - rewrite Hr in H0. discriminate.
  - rewrite Hr in H0. unfold ERESTARTSYS in H0.
    destruct (cnt >? Z.max 0 (buf_lim st1 - f_pos)) eqn:E; lia.
Qed.

(** X4.  The file offset moves cyclically through the cached text: a read
    that delivers bytes advances it by their number and wraps it to 0 at
    the end of the text, so that it stays inside [0, buf_lim); any other
    outcome leaves it where it was. *)
Theorem read_offset_cyclic fuel sensors st usrbuf cnt f_pos evs rr :
  0 <= cnt ->
  (lunix_chrdev_read lookup_voltage lookup_temperature lookup_light
    LUNIX_CHRDEV_BUFSZ fuel sensors st usrbuf cnt f_pos evs) = Ret rr ->
  (rd_ret rr <= 0 -> rd_f_pos rr = f_pos)
  /\ (0 < rd_ret rr ->
      0 <= f_pos < buf_lim (rd_state rr)
      /\ rd_f_pos rr = (f_pos + rd_ret rr) mod buf_lim (rd_state rr)
      /\ 0 <= rd_f_pos rr < buf_lim (rd_state rr)).
Proof.
  intros Hcnt H. apply read_entry in H; [|exact Hcnt].
  destruct H as [(Hr & _ & _ & ->)|
                 (_ & s1 & st1 & e1 & _ & _ & _ & _ & -> & _ & _ & H)].
  { split; [reflexivity|]. rewrite Hr. unfold ERESTARTSYS. lia. }
  cbv zeta in H.
  set (n := if cnt >? Z.max 0 (buf_lim st1 - f_pos)
            then Z.max 0 (buf_lim st1 - f_pos) else cnt) in *.
  assert (Hn : 0 <= n /\ (n = 0 \/ n <= buf_lim st1 - f_pos)).
  { subst n. destruct (cnt >? _) eqn:E; lia. }
  change (buf_lim (up st1)) with (buf_lim st1).
  destruct H as [(_ & -> & _ & ->)|
                 (Hn0 & Hp & _ & [(-> & -> & _)|(-> & _ & -> & _)])].
  - split; [reflexivity|lia].
  - split; [reflexivity|]. unfold EFAULT. lia.
  - split; [lia|]. intros _.
    destruct (f_pos + n >=? buf_lim st1) eqn:E.
    + assert (f_pos + n = buf_lim st1) as -> by lia.
      rewrite Z.mod_same by lia. lia.
    + rewrite Z.mod_small by lia. lia.
Qed.

(** X5.  When the cached text lies inside the cache ([buf_lim] is no more
    than the size of the cache, as after a refresh whose text fits), the
    bytes a read delivers are the bytes of the cached text from the file
    offset on, ending at or before [buf_lim]; the caller's buffer beyond
    the delivered bytes is left alone. *)
Theorem read_copies_cache fuel sensors st usrbuf cnt f_pos evs rr :
  0 <= cnt -> 0 <= f_pos ->
  (lunix_chrdev_read lookup_voltage lookup_temperature lookup_light
    LUNIX_CHRDEV_BUFSZ fuel sensors st usrbuf cnt f_pos evs) = Ret rr ->
  0 < rd_ret rr ->
  buf_lim (rd_state rr) <= Z.of_nat (length (buf_data (rd_state rr))) ->
  let n := Z.to_nat (rd_ret rr) in
  let cache := buf_data (rd_state rr) in
  f_pos + rd_ret rr <= buf_lim (rd_state rr)
  /\ take n (ubuf_data (rd_usrbuf rr)) = take n (drop (Z.to_nat f_pos) cache)
  /\ length (take n (drop (Z.to_nat f_pos) cache)) = n
  /\ drop n (ubuf_data (rd_usrbuf rr)) = drop n (ubuf_data usrbuf).
Proof.
  intros Hcnt Hpos H Hr Hin. apply read_entry in H; [|exact Hcnt].
  destruct H as [(Hr' & _)|
                 (_ & s1 & st1 & e1 & _ & _ & _ & _ & E & _ & _ & H)].
  { rewrite Hr' in Hr. unfold ERESTARTSYS in Hr. lia. }
  rewrite E in *. clear E.
  cbv zeta in H.
  set (k := if cnt >? Z.max 0 (buf_lim st1 - f_pos)
            then Z.max 0 (buf_lim st1 - f_pos) else cnt) in *.
  assert (Hk : 0 <= k /\ (k = 0 \/ k <= buf_lim st1 - f_pos)).
  { subst k. destruct (cnt >? _) eqn:E; lia. }
  change (buf_data (up st1)) with (buf_data st1) in *.
  change (buf_lim (up st1)) with (buf_lim st1) in *.
  destruct H as [(_ & H0 & _)|
                 (Hn0 & _ & _ & [(H0 & _)|(H0 & _ & _ & Hdata)])].
  - lia.
  - rewrite H0 in Hr. unfold EFAULT in Hr. lia.
  - rewrite H0 in *. cbv zeta. rewrite Hdata.
    assert (Hl : length (take (Z.to_nat k)
                           (drop (Z.to_nat f_pos) (buf_data st1)))
                 = Z.to_nat k).
    { rewrite length_take, length_drop. lia. }
    split; [lia|].
    split; [|split; [exact Hl|]].
    + rewrite take_app_length'; [reflexivity|symmetry; exact Hl].
    + rewrite drop_app_length'; [reflexivity|symmetry; exact Hl].
Qed.

(** X6.  A read at an offset other than 0 never refreshes and never
    sleeps: with the lock free it returns at once, consumes nothing of
    what happens around it, and leaves the sensors and the whole session
    state, cached text and timestamp included, as they were. *)
Theorem read_mid_text_no_refresh fuel sensors st usrbuf cnt f_pos evs :
  0 < lock st -> f_pos <> 0 ->
  (lunix_chrdev_read lookup_voltage lookup_temperature lookup_light
    LUNIX_CHRDEV_BUFSZ fuel sensors st usrbuf cnt f_pos evs) <> Block
  /\ (lunix_chrdev_read lookup_voltage lookup_temperature lookup_light
    LUNIX_CHRDEV_BUFSZ fuel sensors st usrbuf cnt f_pos evs) <> Spin
  /\ forall rr,
       (lunix_chrdev_read lookup_voltage lookup_temperature lookup_light
    LUNIX_CHRDEV_BUFSZ fuel sensors st usrbuf cnt f_pos evs) = Ret rr ->
       rd_state rr = st /\ rd_sensors rr = sensors /\ rd_pending rr = evs.
Proof.
  intros Hl Hp.
  assert (Hz : (f_pos =? 0) = false) by (apply Z.eqb_neq; exact Hp).
  split; [|split].
  - unfold lunix_chrdev_read. res_unfold.
    rewrite (down_interruptible_free _ _ _ Hl). cbn [negb Z.eqb].
    rewrite Hz.
    repeat match goal with
           | |- context [if ?b then _ else _] => destruct b
           | |- context [let '(_, _) := ?p in _] => destruct p
           end; discriminate.
  - unfold lunix_chrdev_read. res_unfold.
    rewrite (down_interruptible_free _ _ _ Hl). cbn [negb Z.eqb].
    rewrite Hz.
    repeat match goal with
           | |- context [if ?b then _ else _] => destruct b
           | |- context [let '(_, _) := ?p in _] => destruct p
           end; discriminate.
  - intros rr. unfold lunix_chrdev_read. res_unfold.
    rewrite (down_interruptible_free _ _ _ Hl). cbn [negb Z.eqb].
    rewrite Hz.
    repeat match goal with
           | |- context [if ?b then _ else _] => destruct b
           | |- context [let '(_, _) := ?p in _] => destruct p
           end; try discriminate;
      intros H; invert H; simpl; rewrite up_down; auto.
Qed.

End ChrdevReadFacts.
(** ** Sleeping and waking *)

Lemma session_msr_with_lock sensors st l :
  session_msr sensors (with_lock l st) = session_msr sensors st.
Proof. reflexivity. Qed.

(** Updates that go unnoticed keep the cache current. *)
Lemma unnoticed_keeps sensors st m i b t l now :
  session_msr sensors st = Ret m ->
  buf_timestamp st = last_update m ->
  unnoticed st (SensorUpdate i b t l now) ->
  exists m',
    session_msr (sensors_update i b t l now sensors) st = Ret m'
    /\ buf_timestamp st = last_update m'.
Proof.
  intros Hm Hts Hu.
  destruct (session_msr_sensors_update sensors st i b t l now m Hm)
    as (m' & Hm' & [(Hi & Hl)| -> ]).
  - exists m'. split; [exact Hm'|].
    destruct Hu as [Hu|Hu]; [contradiction|congruence].
  - exists m. auto.
Qed.

(** A reader whose cache is current sleeps through them. *)
Lemma wait_unnoticed evs : forall sensors st m,
  session_msr sensors st = Ret m ->
  buf_timestamp st = last_update m ->
  Forall (unnoticed st) evs ->
  wait_event_interruptible sensors st evs = Block
  /\ forall evs', exists sensors',
       wait_event_interruptible sensors st (evs ++ SignalPending :: evs')
       = Ret (- ERESTARTSYS, sensors', evs').
Proof.
  induction evs as [|e evs IH]; intros sensors st m Hm Hts Hall.
  - cbn [wait_event_interruptible app]. res_unfold.
    rewrite (needs_refresh_ret _ _ _ Hm).
    replace (buf_timestamp st =? last_update m) with true
      by (symmetry; apply Z.eqb_eq; exact Hts).
    cbn. split; [reflexivity|]. intros evs'. eexists. reflexivity.
  - invert Hall.
    destruct e as [|i b t l now]; [contradiction|].
    match goal with H : unnoticed _ _ |- _ =>
      destruct (unnoticed_keeps _ _ _ _ _ _ _ _ Hm Hts H) as (m' & Hm' & Hts')
    end.
    cbn [wait_event_interruptible app]. res_unfold.
    rewrite (needs_refresh_ret _ _ _ Hm).
    replace (buf_timestamp st =? last_update m) with true
      by (symmetry; apply Z.eqb_eq; exact Hts).
    cbn [negb Z.eqb].
    eapply IH; eassumption.
Qed.

Section ChrdevSleep.

Variable lookup_voltage lookup_temperature lookup_light : Z -> Z.
Variable LUNIX_CHRDEV_BUFSZ : Z.

Abbreviation state_update4 :=
  (lunix_chrdev_state_update lookup_voltage lookup_temperature lookup_light
     LUNIX_CHRDEV_BUFSZ).
Abbreviation refresh_loop4 :=
  (read_refresh_loop lookup_voltage lookup_temperature lookup_light
     LUNIX_CHRDEV_BUFSZ).
Abbreviation chrdev_read4 :=
  (lunix_chrdev_read lookup_voltage lookup_temperature lookup_light
     LUNIX_CHRDEV_BUFSZ).

(** With the cache current, a refresh reports [-EAGAIN] and changes
    nothing. *)
Lemma state_update_current sensors st m :
  session_msr sensors st = Ret m ->
  buf_timestamp st = last_update m ->
  state_update4 sensors st = Ret (- EAGAIN, st).
Proof.
  intros Hm Hts. unfold lunix_chrdev_state_update. res_unfold.
  rewrite (needs_refresh_ret _ _ _ Hm).
  replace (buf_timestamp st =? last_update m) with true
    by (symmetry; apply Z.eqb_eq; exact Hts).
  reflexivity.
Qed.

(** A read at offset 0 over a current cache sleeps through unnoticed
    events and is ended only by a signal. *)
Lemma lunix_chrdev_read_sleeps fuel sensors st usrbuf cnt evs m :
  (1 <= fuel)%nat -> 0 < lock st ->
  session_msr sensors st = Ret m ->
  buf_timestamp st = last_update m ->
  Forall (unnoticed st) evs ->
  chrdev_read4 fuel sensors st usrbuf cnt 0 evs = Block
  /\ forall evs', exists sensors',
       chrdev_read4 fuel sensors st usrbuf cnt 0
         (evs ++ SignalPending :: evs')
       = Ret (mk_read (- ERESTARTSYS) sensors' st usrbuf 0 evs').
Proof.
  intros Hf Hl Hm Hts Hall.
  destruct fuel as [|fuel]; [lia|].
  pose proof (wait_unnoticed evs sensors st m Hm Hts Hall) as [Hw1 Hw2].
  assert (Hu : state_update4 sensors (with_lock (lock st - 1) st)
               = Ret (- EAGAIN, with_lock (lock st - 1) st)).
  { apply (state_update_current _ _ m); [|exact Hts].
    rewrite session_msr_with_lock. exact Hm. }
  split.
  - unfold lunix_chrdev_read. res_unfold.
    rewrite (down_interruptible_free _ _ _ Hl).
    cbn [negb Z.eqb read_refresh_loop]. res_unfold.
    rewrite Hu. rewrite Z.eqb_refl. rewrite up_down, Hw1. reflexivity.
  - intros evs'. destruct (Hw2 evs') as (sensors' & Hw).
    exists sensors'.
    unfold lunix_chrdev_read. res_unfold.
    rewrite (down_interruptible_free _ _ _ Hl).
    cbn [negb Z.eqb read_refresh_loop]. res_unfold.
    rewrite Hu. rewrite Z.eqb_refl. rewrite up_down, Hw. reflexivity.
Qed.

(** X7.  A reader whose cached text is current stays asleep through every
    update of another sensor and through every update of its own sensor
    that carries the cached timestamp, whatever values these bring; only
    a signal ends the call, with [-ERESTARTSYS] and the session
    untouched. *)
Theorem read_sleeps_through_unnoticed fuel sensors st usrbuf cnt evs m :
  (1 <= fuel)%nat -> 0 < lock st ->
  session_msr sensors st = Ret m ->
  buf_timestamp st = last_update m ->
  Forall (unnoticed st) evs ->
  chrdev_read4 fuel sensors st usrbuf cnt 0 evs = Block
  /\ forall evs', exists rr,
       chrdev_read4 fuel sensors st usrbuf cnt 0
         (evs ++ SignalPending :: evs') = Ret rr
       /\ rd_ret rr = - ERESTARTSYS
       /\ rd_state rr = st
       /\ rd_pending rr = evs'.
Proof.
  intros Hf Hl Hm Hts Hall.
  destruct (lunix_chrdev_read_sleeps fuel sensors st usrbuf cnt evs m
              Hf Hl Hm Hts Hall) as [H1 H2].
  split; [exact H1|].
  intros evs'. destruct (H2 evs') as (sensors' & H).
  eexists. split; [exact H|]. auto.
Qed.

End ChrdevSleep.
(** ** Reading a text in parts *)

Lemma render_measurement_nonempty a b :
  (0 < length (render_measurement a b))%nat.
Proof.
  unfold render_measurement. rewrite !length_app. simpl. lia.
Qed.

Lemma cache_text_with_lock text t l st :
  cache_text text t (with_lock l st) = with_lock l (cache_text text t st).
Proof. reflexivity. Qed.

Lemma take_drop_prefix {A} (text rest : list A) (p n : nat) :
  (p + n <= length text)%nat ->
  take n (drop p (text ++ rest)) = take n (drop p text).
Proof.
  intros H. rewrite drop_app_le by lia.
  rewrite take_app_le; [reflexivity|]. rewrite length_drop. lia.
Qed.

Section ChrdevParts.

Variable lookup_voltage lookup_temperature lookup_light : Z -> Z.
Variable LUNIX_CHRDEV_BUFSZ : Z.

Abbreviation state_update5 :=
  (lunix_chrdev_state_update lookup_voltage lookup_temperature lookup_light
     LUNIX_CHRDEV_BUFSZ).
Abbreviation refresh_loop5 :=
  (read_refresh_loop lookup_voltage lookup_temperature lookup_light
     LUNIX_CHRDEV_BUFSZ).
Abbreviation chrdev_read5 :=
  (lunix_chrdev_read lookup_voltage lookup_temperature lookup_light
     LUNIX_CHRDEV_BUFSZ).

(** A read at offset 0 over a stale cache refreshes and delivers the
    first [min cnt (length text)] bytes of the new text. *)
Lemma lunix_chrdev_read_stale_part fuel sensors st usrbuf cnt evs m v :
  (1 <= fuel)%nat -> 0 < lock st ->
  session_msr sensors st = Ret m ->
  buf_timestamp st <> last_update m ->
  lookup_by_type lookup_voltage lookup_temperature lookup_light
    (type st) (values0 m) = Some v ->
  let text := render_measurement (Z.quot v 1000) (Z.abs (Z.rem v 1000)) in
  let n := Z.min cnt (Z.of_nat (length text)) in
  Z.of_nat (length text) < LUNIX_CHRDEV_BUFSZ ->
  0 < cnt -> n <= ubuf_writable usrbuf ->
  chrdev_read5 fuel sensors st usrbuf cnt 0 evs
  = Ret {| rd_ret := n; rd_sensors := sensors;
           rd_state := cache_text text (last_update m) st;
           rd_usrbuf :=
             {| ubuf_writable := ubuf_writable usrbuf;
                ubuf_data := take (Z.to_nat n) text
                             ++ drop (Z.to_nat n) (ubuf_data usrbuf) |};
           rd_f_pos := if n >=? Z.of_nat (length text) then 0 else n;
           rd_pending := evs |}.
Proof.
  intros Hf Hl Hm Hne Hv text n Hfit Hcnt Hw.
  destruct fuel as [|fuel]; [lia|].
  pose proof (render_measurement_nonempty (Z.quot v 1000)
                (Z.abs (Z.rem v 1000))) as Hlen. fold text in Hlen.
  set (st1 := cache_text text (last_update m) (with_lock (lock st - 1) st)).
  rewrite (lunix_chrdev_read_copy _ _ _ _ (S fuel) sensors st usrbuf cnt 0 evs
             sensors (with_lock (lock st - 1) st) evs sensors st1 evs n).
  - f_equal. f_equal.
    + subst st1. exact (up_down (cache_text text (last_update m) st)).
    + f_equal. f_equal. subst st1. cbn [buf_data cache_text with_buf].
      change (Z.to_nat 0) with 0%nat. rewrite drop_0.
      rewrite take_app_le; [reflexivity|]. lia.
  - apply down_interruptible_free. exact Hl.
  - cbn [Z.eqb read_refresh_loop]. res_unfold.
    rewrite (state_update_stale _ _ _ _ sensors (with_lock (lock st - 1) st)
               m v Hm Hne Hv Hfit).
    reflexivity.
  - lia.
  - lia.
  - subst st1. cbn [buf_lim cache_text with_buf]. lia.
  - subst st1. cbn [buf_data cache_text with_buf].
    rewrite length_app. simpl. lia.
  - exact Hw.
Qed.

(** A read at an offset inside a cached text delivers from there. *)
Lemma lunix_chrdev_read_cached fuel sensors st usrbuf cnt f_pos evs text rest :
  0 < lock st -> 0 < f_pos < Z.of_nat (length text) ->
  buf_lim st = Z.of_nat (length text) ->
  buf_data st = text ++ rest ->
  let n := Z.min cnt (Z.of_nat (length text) - f_pos) in
  0 < cnt -> n <= ubuf_writable usrbuf ->
  chrdev_read5 fuel sensors st usrbuf cnt f_pos evs
  = Ret {| rd_ret := n; rd_sensors := sensors; rd_state := st;
           rd_usrbuf :=
             {| ubuf_writable := ubuf_writable usrbuf;
                ubuf_data := take (Z.to_nat n) (drop (Z.to_nat f_pos) text)
                             ++ drop (Z.to_nat n) (ubuf_data usrbuf) |};
           rd_f_pos := if f_pos + n >=? Z.of_nat (length text) then 0
                       else f_pos + n;
           rd_pending := evs |}.
Proof.
  intros Hl Hp Hlim Hdata n Hcnt Hw.
  rewrite (lunix_chrdev_read_copy _ _ _ _ fuel sensors st usrbuf cnt f_pos evs
             sensors (with_lock (lock st - 1) st) evs
             sensors (with_lock (lock st - 1) st) evs n).
  - rewrite up_down. cbn [buf_lim buf_data with_lock]. rewrite Hlim, Hdata.
    rewrite take_drop_prefix by lia. reflexivity.
  - apply down_interruptible_free. exact Hl.
  - replace (f_pos =? 0) with false by lia. reflexivity.
  - lia.
  - lia.
  - cbn [buf_lim with_lock]. rewrite Hlim. reflexivity.
  - cbn [buf_data with_lock]. rewrite Hdata, length_app. lia.
  - exact Hw.
Qed.

(** X8.  A text may be read in two parts: the first read at offset 0
    refreshes the cache and delivers the first [k] bytes, the second
    delivers the rest of that same text and rewinds the offset to 0,
    whatever has happened to the sensors in between. *)
Theorem read_in_two_parts fuel fuel2 sensors sensors2 st usrbuf usrbuf2
    k cnt2 evs evs2 m v :
  (1 <= fuel)%nat -> 0 < lock st ->
  session_msr sensors st = Ret m ->
  buf_timestamp st <> last_update m ->
  lookup_by_type lookup_voltage lookup_temperature lookup_light
    (type st) (values0 m) = Some v ->
  let text := render_measurement (Z.quot v 1000) (Z.abs (Z.rem v 1000)) in
  let len := Z.of_nat (length text) in
  len < LUNIX_CHRDEV_BUFSZ ->
  0 < k < len -> k <= ubuf_writable usrbuf ->
  len - k <= cnt2 -> len - k <= ubuf_writable usrbuf2 ->
  exists rr1 rr2,
    chrdev_read5 fuel sensors st usrbuf k 0 evs = Ret rr1
    /\ rd_ret rr1 = k /\ rd_f_pos rr1 = k
    /\ chrdev_read5 fuel2 sensors2 (rd_state rr1) usrbuf2 cnt2 (rd_f_pos rr1)
         evs2 = Ret rr2
    /\ rd_ret rr2 = len - k /\ rd_f_pos rr2 = 0
    /\ take (Z.to_nat (rd_ret rr1)) (ubuf_data (rd_usrbuf rr1))
       ++ take (Z.to_nat (rd_ret rr2)) (ubuf_data (rd_usrbuf rr2))
       = text
    /\ rd_sensors rr2 = sensors2 /\ rd_pending rr2 = evs2
    /\ rd_state rr2 = rd_state rr1.
Proof.
  intros Hf Hl Hm Hne Hv text len Hfit Hk Hw Hcnt2 Hw2.
  pose proof (lunix_chrdev_read_stale_part fuel sensors st usrbuf k evs m v
                Hf Hl Hm Hne Hv Hfit) as H1.
  cbv zeta in H1. fold text in H1. fold len in H1.
  replace (Z.min k len) with k in H1 by lia.
  specialize (H1 ltac:(lia) Hw).
  replace (k >=? len) with false in H1 by lia.
  eexists. eexists. split; [exact H1|].
  cbn [rd_ret rd_f_pos rd_state rd_usrbuf ubuf_data].
  split; [reflexivity|]. split; [reflexivity|].
  pose proof (lunix_chrdev_read_cached fuel2 sensors2
                (cache_text text (last_update m) st) usrbuf2 cnt2 k evs2
                text (["000"%char] ++ drop (S (length text)) (buf_data st)))
    as H2.
  cbv zeta in H2. fold len in H2.
  replace (Z.min cnt2 (len - k)) with (len - k) in H2 by lia.
  specialize (H2 Hl ltac:(lia) eq_refl eq_refl ltac:(lia) Hw2).
  replace (k + (len - k) >=? len) with true in H2 by lia.
  split; [exact H2|].
  cbn [rd_ret rd_f_pos rd_state rd_usrbuf ubuf_data rd_sensors rd_pending].
  split; [reflexivity|]. split; [reflexivity|].
  split; [|auto].
  assert (Hk1 : length (take (Z.to_nat k) text) = Z.to_nat k).
  { rewrite length_take. lia. }
  assert (Hk2 : length (take (Z.to_nat (len - k)) (drop (Z.to_nat k) text))
                = Z.to_nat (len - k)).
  { rewrite length_take, length_drop. lia. }
  rewrite (take_app_length' _ _ _ (eq_sym Hk1)).
  rewrite (take_app_length' _ _ _ (eq_sym Hk2)).
  rewrite (take_ge (drop _ _)) by (rewrite length_drop; lia).
  apply take_drop.
Qed.

(** X9.  Each value is delivered once: after a read at offset 0 has
    delivered the whole text of a new measurement, the next read sleeps
    until the sensor is updated again; with nothing happening it blocks,
    and a signal ends it with [-ERESTARTSYS]. *)
Theorem read_value_once fuel fuel2 sensors st usrbuf usrbuf2 cnt cnt2 evs m v :
  (1 <= fuel)%nat -> (1 <= fuel2)%nat -> 0 < lock st ->
  session_msr sensors st = Ret m ->
  buf_timestamp st <> last_update m ->
  lookup_by_type lookup_voltage lookup_temperature lookup_light
    (type st) (values0 m) = Some v ->
  let text := render_measurement (Z.quot v 1000) (Z.abs (Z.rem v 1000)) in
  let len := Z.of_nat (length text) in
  len < LUNIX_CHRDEV_BUFSZ ->
  len <= cnt -> len <= ubuf_writable usrbuf ->
  exists rr,
    chrdev_read5 fuel sensors st usrbuf cnt 0 evs = Ret rr
    /\ rd_ret rr = len /\ rd_f_pos rr = 0
    /\ chrdev_read5 fuel2 (rd_sensors rr) (rd_state rr) usrbuf2 cnt2
         (rd_f_pos rr) [] = Block
    /\ exists rr2,
         chrdev_read5 fuel2 (rd_sensors rr) (rd_state rr) usrbuf2 cnt2
           (rd_f_pos rr) [SignalPending] = Ret rr2
         /\ rd_ret rr2 = - ERESTARTSYS.
Proof.
  intros Hf Hf2 Hl Hm Hne Hv text len Hfit Hcnt Hw.
  pose proof (render_measurement_nonempty (Z.quot v 1000)
                (Z.abs (Z.rem v 1000))) as Hlen. fold text in Hlen.
  pose proof (lunix_chrdev_read_stale_part fuel sensors st usrbuf cnt evs m v
                Hf Hl Hm Hne Hv Hfit) as H1.
  cbv zeta in H1. fold text in H1. fold len in H1.
  replace (Z.min cnt len) with len in H1 by lia.
  specialize (H1 ltac:(lia) Hw).
  replace (len >=? len) with true in H1 by lia.
  eexists. split; [exact H1|].
  cbn [rd_ret rd_f_pos rd_state rd_sensors].
  split; [reflexivity|]. split; [reflexivity|].
  destruct (lunix_chrdev_read_sleeps lookup_voltage lookup_temperature
              lookup_light LUNIX_CHRDEV_BUFSZ fuel2 sensors
              (cache_text text (last_update m) st) usrbuf2 cnt2 [] m
              Hf2 Hl Hm eq_refl (Forall_nil_2 _)) as [Hb Hs].
  split; [exact Hb|].
  destruct (Hs []) as (sensors' & Hs').
  eexists. split; [exact Hs'|]. reflexivity.
Qed.

End ChrdevParts.
(** ** Waking up on an update *)


Lemma lookup_by_type_kind lv lt ll ty raw v :
  lookup_by_type lv lt ll ty raw = Some v -> 0 <= ty < N_LUNIX_MSR.
Proof.
  unfold lookup_by_type, BATT, TEMP, LIGHT, N_LUNIX_MSR.
  destruct (ty =? 0) eqn:E0; [lia|].
  destruct (ty =? 1) eqn:E1; [lia|].
  destruct (ty =? 2) eqn:E2; [lia|discriminate].
Qed.




Section ChrdevWake.

Variable lookup_voltage lookup_temperature lookup_light : Z -> Z.
Variable LUNIX_CHRDEV_BUFSZ : Z.

Abbreviation refresh_loop6 :=
  (read_refresh_loop lookup_voltage lookup_temperature lookup_light
     LUNIX_CHRDEV_BUFSZ).
Abbreviation chrdev_read6 :=
  (lunix_chrdev_read lookup_voltage lookup_temperature lookup_light
     LUNIX_CHRDEV_BUFSZ).


End ChrdevWake.
(** ** The cache under a refresh *)

Lemma snprintf_within buf size text :
  0 < size <= Z.of_nat (length buf) ->
  let k := Nat.min (length text) (Z.to_nat (size - 1)) in
  let buf' := snd (snprintf buf size text) in
  fst (snprintf buf size text) = Z.of_nat (length text)
  /\ length buf' = length buf
  /\ drop (Z.to_nat size) buf' = drop (Z.to_nat size) buf
  /\ take k buf' = take k text
  /\ buf' !! k = Some "000"%char.
Proof.
  intros Hsz k buf'. subst buf'. unfold snprintf.
  replace (size <=? 0) with false by lia. cbn [fst snd]. fold k.
  assert (Hk : length (take k text) = k).
  { rewrite length_take. subst k. lia. }
  assert (Hk' : (k < Z.to_nat size)%nat) by (subst k; lia).
  split; [reflexivity|]. split; [|split; [|split]].
  - rewrite !length_app, Hk, length_drop. simpl. lia.
  - rewrite drop_app_ge by lia. rewrite Hk.
    rewrite drop_app_ge by (simpl; lia). simpl.
    rewrite drop_drop. f_equal. lia.
  - rewrite take_app_length' by (symmetry; exact Hk). reflexivity.
  - rewrite lookup_app_r by lia. rewrite Hk, Nat.sub_diag. reflexivity.
Qed.

Section ChrdevCache.

Variable lookup_voltage lookup_temperature lookup_light : Z -> Z.
Variable LUNIX_CHRDEV_BUFSZ : Z.

Abbreviation state_update7 :=
  (lunix_chrdev_state_update lookup_voltage lookup_temperature lookup_light
     LUNIX_CHRDEV_BUFSZ).

(** X11.  A refresh writes only within the first [LUNIX_CHRDEV_BUFSZ]
    bytes of the cache: the cache keeps its size and its bytes from
    [LUNIX_CHRDEV_BUFSZ] on.  On success it holds the rendered text, cut
    to [LUNIX_CHRDEV_BUFSZ - 1] characters if need be, followed by a NUL,
    while [buf_lim] is the length of the whole text, cut or not; with
    [-EAGAIN] the session is unchanged. *)
Theorem refresh_stays_in_cache sensors st r st' :
  0 < LUNIX_CHRDEV_BUFSZ <= Z.of_nat (length (buf_data st)) ->
  state_update7 sensors st = Ret (r, st') ->
  length (buf_data st') = length (buf_data st)
  /\ drop (Z.to_nat LUNIX_CHRDEV_BUFSZ) (buf_data st')
     = drop (Z.to_nat LUNIX_CHRDEV_BUFSZ) (buf_data st)
  /\ (r = - EAGAIN -> st' = st)
  /\ (r = 0 ->
      exists m v,
        session_msr sensors st = Ret m
        /\ lookup_by_type lookup_voltage lookup_temperature lookup_light
             (type st) (values0 m) = Some v
        /\ let text :=
             render_measurement (Z.quot v 1000) (Z.abs (Z.rem v 1000)) in
           let k := Nat.min (length text)
                      (Z.to_nat (LUNIX_CHRDEV_BUFSZ - 1)) in
           buf_lim st' = Z.of_nat (length text)
           /\ take k (buf_data st') = take k text
           /\ buf_data st' !! k = Some "000"%char
           /\ buf_timestamp st' = last_update m).
Proof.
  intros Hsz H. apply state_update_ret in H.
  destruct H as [(-> & -> & _)|(m & c & Hm & _ & _ & [(-> & _ & ->)|(v & -> & Hv & ->)])].
  - repeat split; try reflexivity. intros E. vm_compute in E. discriminate.
  - cbn [buf_data with_buf_timestamp].
    repeat split; try reflexivity;
      intros E; vm_compute in E; discriminate.
  - pose proof (snprintf_within (buf_data st) LUNIX_CHRDEV_BUFSZ
                  (render_measurement (Z.quot v 1000) (Z.abs (Z.rem v 1000)))
                  Hsz) as Hs.
    cbv zeta in Hs.
    destruct (snprintf (buf_data st) LUNIX_CHRDEV_BUFSZ
                (render_measurement (Z.quot v 1000) (Z.abs (Z.rem v 1000))))
      as [n buf'].
    cbn [fst snd] in Hs. destruct Hs as (Hn & Hlen & Hdrop & Htake & Hnul).
    cbn [buf_data buf_lim buf_timestamp with_buf with_buf_timestamp].
    split; [exact Hlen|]. split; [exact Hdrop|].
    split; [intros E; vm_compute in E; discriminate|].
    intros _. exists m, v. cbv zeta.
    repeat split; assumption || reflexivity.
Qed.

End ChrdevCache.

(** ** Opening a device node *)

(** X1.  The minor number [8 * s + t] of a device node opens a session on
    sensor [s] for measurement [t], with an empty cache, a zero timestamp
    and the lock free; when [kmalloc] fails the call returns [-ENOMEM] and
    creates no session; and two sessions bound to the same sensor and
    measurement come from the same minor number. *)
Theorem open_minor_round_trip s t mem :
  0 <= s -> 0 <= t < N_LUNIX_MSR ->
  lunix_chrdev_open 0 (8 * s + t) (Some mem)
  = (0, Some {| type := t; sensor := s; buf_lim := 0;
                buf_data := buf_data mem; lock := 1; buf_timestamp := 0 |})
  /\ lunix_chrdev_open 0 (8 * s + t) None = (- ENOMEM, None)
  /\ (forall r1 r2 m1 m2 k1 k2 st1 st2,
        lunix_chrdev_open r1 m1 k1 = (0, Some st1) ->
        lunix_chrdev_open r2 m2 k2 = (0, Some st2) ->
        sensor st1 = sensor st2 -> type st1 = type st2 ->
        m1 = m2).
Proof.
  intros Hs Ht. unfold N_LUNIX_MSR in Ht.
  assert (Hm : (8 * s + t) mod 8 = t).
  { rewrite Z.add_comm, Z.mul_comm, Z.mod_add by lia.
    apply Z.mod_small. lia. }
  assert (Hd : (8 * s + t) / 8 = s).
  { rewrite Z.add_comm, Z.mul_comm, Z.div_add by lia.
    rewrite Z.div_small by lia. lia. }
  split; [|split].
  - unfold lunix_chrdev_open. cbn [Z.ltb Z.compare]. rewrite Hm, Hd.
    unfold N_LUNIX_MSR. replace (t >=? 3) with false by lia. reflexivity.
  - unfold lunix_chrdev_open. cbn [Z.ltb Z.compare]. rewrite Hm.
    unfold N_LUNIX_MSR. replace (t >=? 3) with false by lia. reflexivity.
  - intros r1 r2 m1 m2 k1 k2 st1 st2 H1 H2 Hse Hty.
    assert (Hopen : forall r m k st,
              lunix_chrdev_open r m k = (0, Some st) ->
              type st = m mod 8 /\ sensor st = m / 8).
    { clear. intros r m k st. unfold lunix_chrdev_open.
      destruct (r <? 0); [discriminate|].
      destruct (m mod 8 >=? N_LUNIX_MSR); [discriminate|].
      destruct k; [|discriminate].
      intros H. invert H. auto. }
    apply Hopen in H1, H2. destruct H1 as [T1 S1], H2 as [T2 S2].
    rewrite (Z.div_mod m1 8), (Z.div_mod m2 8) by lia. congruence.
Qed.

(** ** Registering the device *)

Lemma remove_region_head r l : remove_region r (r :: l) = l.
Proof.
  cbn [remove_region]. unfold region_eqb. rewrite !Z.eqb_refl. reflexivity.
Qed.

(** X12.  [lunix_chrdev_init] either succeeds, with the region of
    [lunix_sensor_cnt << 3] minors reserved and the cdev live for the same
    range, or fails with the error of the kernel call that failed and
    leaves nothing registered: a region reserved before a failing
    [cdev_add] is given back.  [lunix_chrdev_destroy] undoes a successful
    init. *)
Theorem chrdev_init_unwinds major cnt reg_outcome add_outcome k :
  (forall e, reg_outcome = Some e -> e < 0) ->
  (forall e, add_outcome = Some e -> e < 0) ->
  let dev_no := MKDEV major 0 in
  let minors := to_uint32 (Z.shiftl cnt 3) in
  let ret := fst (lunix_chrdev_init major cnt reg_outcome add_outcome k) in
  let k' := snd (lunix_chrdev_init major cnt reg_outcome add_outcome k) in
  (ret = 0 /\ reg_outcome = None /\ add_outcome = None
   /\ regions k' = (dev_no, minors) :: regions k
   /\ cdev_live k' = Some (dev_no, minors)
   /\ (cdev_live k = None -> lunix_chrdev_destroy major cnt k' = k))
  \/ (ret < 0 /\ k' = k
      /\ (reg_outcome = Some ret
          \/ (reg_outcome = None /\ add_outcome = Some ret))).
Proof.
  intros Hreg Hadd dev_no minors ret k'. subst ret k'.
  unfold lunix_chrdev_init. fold dev_no. fold minors.
  destruct reg_outcome as [e|].
  - right. cbn [register_chrdev_region].
    pose proof (Hreg e eq_refl) as He.
    replace (e <? 0) with true by lia. cbn [fst snd]. auto.
  - cbn [register_chrdev_region Z.ltb Z.compare].
    destruct add_outcome as [e|].
    + right. cbn [cdev_add].
      pose proof (Hadd e eq_refl) as He.
      replace (e <? 0) with true by lia. cbn [fst snd].
      split; [exact He|]. split; [|auto].
      unfold unregister_chrdev_region. cbn [regions cdev_live].
      rewrite remove_region_head. destruct k. reflexivity.
    + left. cbn [cdev_add Z.ltb Z.compare fst snd regions cdev_live].
      repeat (split; [reflexivity|]).
      intros Hk. unfold lunix_chrdev_destroy, unregister_chrdev_region,
        cdev_del.
      fold dev_no. fold minors. cbn [regions cdev_live].
      rewrite remove_region_head. destruct k. cbn in Hk. subst. reflexivity.
Qed.

(** ** Attaching the line discipline *)

Lemma ldisc_serve_invariant reqs : forall avail attached,
  (attached <= 1)%nat -> avail = 1 - Z.of_nat attached ->
  let a := fst (fst (ldisc_serve reqs avail attached)) in
  let n := snd (fst (ldisc_serve reqs avail attached)) in
  (n <= 1)%nat /\ a = 1 - Z.of_nat n.
Proof.
  induction reqs as [|[c|] reqs IH]; intros avail attached Hn Ha.
  - cbn. auto.
  - cbn [ldisc_serve]. unfold lunix_ldisc_open, atomic_add_unless.
    destruct c; cbn [negb].
    + destruct (avail =? 0) eqn:E; cbn [negb].
      * specialize (IH avail attached Hn Ha).
        change (- EBUSY =? 0) with false. cbv iota.
        destruct (ldisc_serve reqs avail attached) as [[a n] rets].
        exact IH.
      * cbn [Z.eqb].
        assert (attached = 0%nat) by lia. subst attached.
        specialize (IH (avail + -1) 1%nat ltac:(lia) ltac:(lia)).
        destruct (ldisc_serve reqs (avail + -1) 1) as [[a n] rets].
        exact IH.
    + specialize (IH avail attached Hn Ha).
      change (- EPERM =? 0) with false. cbv iota.
      destruct (ldisc_serve reqs avail attached) as [[a n] rets].
      exact IH.
  - cbn [ldisc_serve]. destruct attached as [|n0].
    + apply IH; assumption.
    + apply IH; unfold lunix_ldisc_close; lia.
Qed.

(** X13.  The line discipline is attached to at most one tty at a time:
    after any sequence of attach and detach requests since
    [lunix_ldisc_init], the counter is 1 minus the number of ttys
    attached, and the next [lunix_ldisc_open] returns [-EPERM] without
    [CAP_SYS_ADMIN], [-EBUSY] while a tty is attached, and 0 otherwise. *)
Theorem ldisc_attached_once reqs capable_sys_admin tty :
  let a := fst (fst (ldisc_serve reqs lunix_ldisc_init_available 0)) in
  let n := snd (fst (ldisc_serve reqs lunix_ldisc_init_available 0)) in
  (n <= 1)%nat
  /\ a = 1 - Z.of_nat n
  /\ fst (fst (lunix_ldisc_open capable_sys_admin a tty))
     = (if negb capable_sys_admin then - EPERM
        else if Nat.eqb n 1 then - EBUSY else 0)
  /\ snd (fst (lunix_ldisc_open capable_sys_admin a tty))
     = (if capable_sys_admin && Nat.eqb n 0 then 0 else a).
Proof.
  pose proof (ldisc_serve_invariant reqs lunix_ldisc_init_available 0
                ltac:(lia) eq_refl) as H.
  cbv zeta in *.
  destruct (ldisc_serve reqs lunix_ldisc_init_available 0) as [[a n] rets].
  cbn [fst snd] in *. destruct H as [Hn Ha].
  split; [exact Hn|]. split; [exact Ha|].
  unfold lunix_ldisc_open, atomic_add_unless.
  destruct capable_sys_admin; cbn [negb andb fst snd]; [|auto].
  assert (n = 0%nat \/ n = 1%nat) as [-> | ->] by lia; subst a; cbn; auto.
Qed.
(* ================================================================== *)
(** * More on the line: streams of frames *)

Lemma at_stage_count_ok pk0 st s prefix :
  at_stage pk0 st s 1 prefix -> count_ok st.
Proof.
  intros (_ & Hr & Ht & _). unfold count_ok. rewrite Hr, Ht. lia.
Qed.

Lemma received_buf_nil st : lunix_protocol_received_buf st [] = Some (st, []).
Proof. apply loop_nil. Qed.

(** Frame after frame, the parser hands over one packet per frame and is
    back at its start. *)
Lemma received_buf_stream fs : forall pk0 st,
  Forall (fun f => Forall is_byte (frame_body f)
                   /\ (length (fr_payload f) < 256)%nat) fs ->
  length pk0 = 300%nat ->
  at_stage pk0 st SEEKING_START_BYTE 1 [] ->
  exists st' pk',
    lunix_protocol_received_buf st (concat (map frame_wire fs))
    = Some (st', stream_packets pk0 fs)
    /\ length pk' = 300%nat
    /\ at_stage pk' st' SEEKING_START_BYTE 1 [].
Proof.
  induction fs as [|f fs IH]; intros pk0 st Hall Hpk A0.
  - exists st, pk0. cbn [map concat stream_packets].
    rewrite received_buf_nil. auto.
  - invert Hall. match goal with H : _ /\ _ |- _ => destruct H as [Hb Hn] end.
    destruct (received_buf_frame pk0 st f Hb Hn Hpk A0) as (st1 & R1 & A1).
    destruct (IH (write_bytes 0 (frame_raw f) pk0) st1) as (st2 & pk2 & R2 & L2 & A2).
    + assumption.
    + rewrite write_bytes_length. exact Hpk.
    + exact A1.
    + exists st2, pk2. cbn [map concat stream_packets].
      rewrite received_buf_app by (eapply at_stage_count_ok; exact A0).
      rewrite R1, R2. auto.
Qed.

(** A frame of another kind is handed over all the same, and the update
    path finds no sensor data in it. *)
Lemma frame_packet_other pk0 f :
  fr_am_type f <> 0x0B -> length pk0 = 300%nat ->
  (length (fr_payload f) < 256)%nat ->
  packet_measurements (write_bytes 0 (frame_raw f) pk0) = None.
Proof.
  intros Ham Hpk Hn.
  pose proof (frame_raw_length f) as Hraw.
  unfold packet_measurements, PACKET_SIGNATURE_OFFSET.
  change 4 with (Z.of_nat 4).
  rewrite packet_at_written by lia.
  rewrite frame_raw_am_type.
  replace (fr_am_type f =? 11) with false by lia. reflexivity.
Qed.

Lemma stream_measurements fs : forall pk0,
  Forall accepted_frame fs -> length pk0 = 300%nat ->
  map packet_measurements (stream_packets pk0 fs) = map frame_extract fs.
Proof.
  induction fs as [|f fs IH]; intros pk0 Hall Hpk; [reflexivity|].
  invert Hall.
  match goal with H : accepted_frame _ |- _ => destruct H as (Hb & Hn & Hs) end.
  cbn [stream_packets map]. f_equal.
  - unfold frame_extract. destruct (fr_am_type f =? 11) eqn:E.
    + apply Z.eqb_eq in E. apply frame_packet_measurements; [|exact Hpk].
      repeat split; auto.
    + apply Z.eqb_neq in E. apply frame_packet_other; assumption.
  - apply IH; [assumption|]. rewrite write_bytes_length. exact Hpk.
Qed.

(** X14.  A stream of frames is decoded frame by frame, however the line
    cuts it into chunks: every sensor-data frame yields the node id and
    the three raw values the sender put into it, every frame of another
    kind yields nothing, in the order of arrival. *)
Theorem frame_stream_decoded fs chunks :
  Forall accepted_frame fs ->
  concat chunks = concat (map frame_wire fs) ->
  extracted (feed_chunks initial_protocol_state chunks)
  = Some (map frame_extract fs).
Proof.
  intros Hall Hcat.
  rewrite feed_chunks_concat by apply initial_count_ok.
  rewrite Hcat.
  destruct (received_buf_stream fs (packet initial_protocol_state)
              initial_protocol_state) as (st' & pk' & R & _ & _).
  - eapply Forall_impl; [exact Hall|].
    intros f (Hb & Hn & _). auto.
  - reflexivity.
  - apply initial_at_stage.
  - rewrite R. cbn [extracted]. f_equal.
    apply stream_measurements; [exact Hall|reflexivity].
Qed.

(** ** From the wire to a reader *)

Section WireToReader.

Variable lookup_voltage lookup_temperature lookup_light : Z -> Z.
Variable LUNIX_CHRDEV_BUFSZ : Z.

(** X15.  A sensor-data frame of node [n] arriving on the line updates
    sensor [n - 1] and no other, and leaves the parser ready for the next
    frame; a session on that sensor whose cache holds another timestamp
    then reads, without sleeping, the text of the value the frame carried
    for its measurement. *)
Theorem wire_frame_reaches_reader lunix_sensor_cnt now f sensors s
    fuel st usrbuf cnt evs v :
  well_formed_sensor_frame f ->
  let node := payload_uint16 f 2 in
  let batt := payload_uint16 f 11 in
  let temp := payload_uint16 f 13 in
  let light := payload_uint16 f 15 in
  1 <= node <= lunix_sensor_cnt ->
  sensors !! Z.to_nat (node - 1) = Some s ->
  sensor_initialised s ->
  sensor st = node - 1 -> 0 < lock st -> (1 <= fuel)%nat ->
  buf_timestamp st <> to_uint32 now ->
  lookup_by_type lookup_voltage lookup_temperature lookup_light
    (type st) (raw_of_kind (type st) batt temp light) = Some v ->
  let text := render_measurement (Z.quot v 1000) (Z.abs (Z.rem v 1000)) in
  let len := Z.of_nat (length text) in
  len < LUNIX_CHRDEV_BUFSZ -> len <= cnt -> len <= ubuf_writable usrbuf ->
  exists st' sensors' log rr,
    lunix_ldisc_receive_buf lunix_sensor_cnt now initial_protocol_state
      sensors (frame_wire f) = Ret (st', sensors', log)
    /\ sensors'
       = <[Z.to_nat (node - 1) :=
             fst (lunix_sensor_update s batt temp light now)]> sensors
    /\ state st' = SEEKING_START_BYTE /\ pos st' = 0
    /\ lunix_chrdev_read lookup_voltage lookup_temperature lookup_light
         LUNIX_CHRDEV_BUFSZ fuel sensors' st usrbuf cnt 0 evs = Ret rr
    /\ rd_ret rr = len
    /\ ubuf_data (rd_usrbuf rr)
       = text ++ drop (length text) (ubuf_data usrbuf)
    /\ buf_timestamp (rd_state rr) = to_uint32 now.
Proof.
  intros Hwf node batt temp light Hnode Hs Hi Hsen Hl Hf Hts Hv text len
    Hfit Hcnt Hw.
  pose proof Hwf as (Hb & Hn & Ham & Hlen).
  destruct (received_buf_frame (packet initial_protocol_state)
              initial_protocol_state f Hb Hn eq_refl initial_at_stage)
    as (st' & R & A).
  pose proof (frame_packet_measurements (packet initial_protocol_state) f
                Hwf eq_refl) as Hpm.
  set (pk := write_bytes 0 (frame_raw f) (packet initial_protocol_state)) in *.
  set (s' := fst (lunix_sensor_update s batt temp light now)).
  set (sensors' := <[Z.to_nat (node - 1) := s']> sensors).
  assert (Hrecv :
    lunix_ldisc_receive_buf lunix_sensor_cnt now initial_protocol_state
      sensors (frame_wire f)
    = Ret (st', sensors',
           [Received node batt temp light;
            Updated (node - 1)
              (snd (lunix_sensor_update s batt temp light now))] ++ [])).
  { unfold lunix_ldisc_receive_buf. rewrite R.
    cbn [apply_packets]. res_unfold.
    unfold lunix_protocol_update_sensors. rewrite Hpm.
    unfold frame_measurements. fold node batt temp light.
    replace ((0 <? node) && (node <=? lunix_sensor_cnt)) with true
      by (symmetry; apply andb_true_iff; split; lia).
    res_unfold. rewrite Hs. cbn [deref].
    destruct (lunix_sensor_update s batt temp light now) as [s1 tr] eqn:E.
    subst sensors' s'. reflexivity. }
  pose proof (lookup_by_type_kind _ _ _ _ _ _ Hv) as Hty.
  assert (Hlt : (Z.to_nat (node - 1) < length sensors)%nat).
  { apply lookup_lt_is_Some. eauto. }
  assert (Hm' : session_msr sensors' st
                = Ret (mk_msr LUNIX_MSR_MAGIC (to_uint32 now)
                         (raw_of_kind (type st) batt temp light))).
  { apply session_msr_ret. exists s'. split.
    - rewrite Hsen. subst sensors'. apply list_lookup_insert_eq. exact Hlt.
    - destruct (sensor_initialised_pages s Hi) as (p0 & p1 & p2 & Hp).
      subst s'.
      rewrite (lunix_sensor_update_pages s batt temp light now p0 p1 p2 Hp).
      unfold N_LUNIX_MSR in Hty. unfold raw_of_kind, BATT, TEMP.
      assert (type st = 0 \/ type st = 1 \/ type st = 2) as [E|[E|E]] by lia;
        rewrite E; reflexivity. }
  pose proof (render_measurement_nonempty (Z.quot v 1000)
                (Z.abs (Z.rem v 1000))) as Hne. fold text in Hne.
  destruct (lunix_chrdev_read_stale lookup_voltage lookup_temperature
              lookup_light LUNIX_CHRDEV_BUFSZ fuel sensors' st usrbuf cnt evs
              _ v Hf Hl Hm' Hts Hv Hfit ltac:(fold text; lia) Hw)
    as (rr & Hr & Hret & Hdata & _ & _ & _ & Hstamp).
  destruct A as (Hst & _ & _ & _ & Hpos & _).
  eexists st', sensors', _, rr.
  split; [exact Hrecv|]. split; [reflexivity|].
  split; [exact Hst|]. split; [exact Hpos|].
  split; [exact Hr|]. split; [exact Hret|]. split; [exact Hdata|].
  exact Hstamp.
Qed.

End WireToReader.
(* ================================================================== *)
(** * The generated tables and the sensor buffers *)

Lemma table_lines_length convert n : forall start,
  length (flat_map (fun k => table_line convert (4 * Z.of_nat k))
            (seq start n)) = (4 * n)%nat.
Proof.
  induction n as [|n IH]; intros start; [reflexivity|].
  cbn [seq flat_map]. rewrite length_app, IH. cbn [table_line length]. lia.
Qed.

Lemma table_lines_lookup convert n : forall start i,
  (i < 4 * n)%nat ->
  flat_map (fun k => table_line convert (4 * Z.of_nat k)) (seq start n) !! i
  = Some (convert (4 * Z.of_nat start + Z.of_nat i)).
Proof.
  induction n as [|n IH]; intros start i Hi; [lia|].
  cbn [seq flat_map].
  destruct (decide (i < 4)%nat) as [Hlt|Hge].
  - rewrite lookup_app_l by (cbn [table_line length]; lia).
    unfold table_line.
    destruct i as [|[|[|[|i]]]]; try lia; cbn [lookup list_lookup];
      f_equal; f_equal; lia.
  - rewrite lookup_app_r by (cbn [table_line length]; lia).
    cbn [table_line length].
    rewrite IH by lia. f_equal. f_equal. lia.
Qed.

(** X16.  The table the generator writes out has 65536 entries, and its
    entry at index [raw] is the conversion of [raw], for every 16-bit
    [raw]: the loop in steps of four leaves no index out and repeats
    none. *)
Theorem generated_table_complete convert :
  length (generate_table convert) = Z.to_nat 65536
  /\ forall raw, 0 <= raw < 65536 ->
       generate_table convert !! Z.to_nat raw = Some (convert raw).
Proof.
  unfold generate_table. split.
  - rewrite table_lines_length. lia.
  - intros raw Hraw. rewrite table_lines_lookup by lia.
    f_equal. f_equal. lia.
Qed.

(** X17.  [lunix_sensor_init] succeeds exactly when the three pages can be
    had, and then leaves three zeroed pages that carry the magic number;
    otherwise it returns [-ENOMEM] at the first page that cannot be had,
    asks for no further page, and leaves the slots after it NULL.  In
    both cases [lunix_sensor_destroy] frees as many pages as were
    obtained. *)
Theorem sensor_init_pages page_ok :
  let ret := fst (fst (lunix_sensor_init page_ok)) in
  let slots := snd (fst (lunix_sensor_init page_ok)) in
  let got := snd (lunix_sensor_init page_ok) in
  lunix_sensor_destroy slots = got
  /\ length slots = Z.to_nat N_LUNIX_MSR
  /\ ((ret = 0 /\ got = 3%nat
       /\ slots = map Some (msr_data fresh_sensor)
       /\ forall i, (i < 3)%nat -> page_ok i = true)
      \/ (ret = - ENOMEM /\ (got < 3)%nat
          /\ page_ok got = false
          /\ (forall i, (i < got)%nat -> page_ok i = true)
          /\ slots = replicate got (Some fresh_msr)
                     ++ replicate (3 - got) None)).
Proof.
  unfold lunix_sensor_init. change (Z.to_nat N_LUNIX_MSR) with 3%nat.
  cbn [sensor_init_loop replicate].
  destruct (page_ok 0%nat) eqn:E0; cbn [fst snd].
  2:{ split; [reflexivity|]. split; [reflexivity|]. right.
      repeat split; try reflexivity; try lia; try assumption. }
  destruct (page_ok 1%nat) eqn:E1; cbn [fst snd].
  2:{ split; [reflexivity|]. split; [reflexivity|]. right.
      repeat split; try reflexivity; try lia; try assumption.
      intros i Hi. assert (i = 0%nat) by lia. subst. assumption. }
  destruct (page_ok 2%nat) eqn:E2; cbn [fst snd].
  2:{ split; [reflexivity|]. split; [reflexivity|]. right.
      repeat split; try reflexivity; try lia; try assumption.
      intros i Hi.
      assert (i = 0%nat \/ i = 1%nat) as [-> | ->] by lia; assumption. }
  split; [reflexivity|]. split; [reflexivity|]. left.
  repeat split; try reflexivity.
  intros i Hi.
  assert (i = 0%nat \/ i = 1%nat \/ i = 2%nat) as [-> |[-> | ->]] by lia;
    assumption.
Qed.
(** ** A refresh without a delivery *)

Section ChrdevSkip.

Variable lookup_voltage lookup_temperature lookup_light : Z -> Z.
Variable LUNIX_CHRDEV_BUFSZ : Z.

Abbreviation refresh_loop8 :=
  (read_refresh_loop lookup_voltage lookup_temperature lookup_light
     LUNIX_CHRDEV_BUFSZ).
Abbreviation chrdev_read8 :=
  (lunix_chrdev_read lookup_voltage lookup_temperature lookup_light
     LUNIX_CHRDEV_BUFSZ).

(** The part of a read after the refresh loop, when nothing is asked for
    or the caller's buffer cannot take what is there. *)
Lemma lunix_chrdev_read_nothing fuel sensors st usrbuf cnt f_pos evs
    s0 st0 e0 s1 st1 e1 :
  down_interruptible sensors st evs = Ret (0, s0, st0, e0) ->
  (if f_pos =? 0 then refresh_loop8 fuel s0 st0 e0
   else Ret (None, s0, st0, e0)) = Ret (None, s1, st1, e1) ->
  0 <= f_pos -> 0 <= cnt ->
  let n := Z.min cnt (Z.max 0 (buf_lim st1 - f_pos)) in
  n = 0
  \/ (f_pos + n <= Z.of_nat (length (buf_data st1))
      /\ ubuf_writable usrbuf < n) ->
  exists ub,
    chrdev_read8 fuel sensors st usrbuf cnt f_pos evs
    = Ret {| rd_ret := if n =? 0 then 0 else - EFAULT;
             rd_sensors := s1; rd_state := up st1; rd_usrbuf := ub;
             rd_f_pos := f_pos; rd_pending := e1 |}.
Proof.
  intros Hd Hloop Hpos Hcnt n Hn.
  unfold lunix_chrdev_read. res_unfold.
  rewrite Hd. cbn [negb Z.eqb]. rewrite Hloop.
  replace (if buf_lim st1 - f_pos <? 0 then 0 else buf_lim st1 - f_pos)
    with (Z.max 0 (buf_lim st1 - f_pos))
    by (destruct (_ <? 0) eqn:E; lia).
  replace (if cnt >? Z.max 0 (buf_lim st1 - f_pos)
           then Z.max 0 (buf_lim st1 - f_pos) else cnt)
    with n by (subst n; destruct (cnt >? _) eqn:E; lia).
  destruct (n =? 0) eqn:E0.
  - eexists. reflexivity.
  - destruct Hn as [Hn|[Hlen Hw]]; [lia|].
    replace (f_pos <? 0) with false by lia.
    replace (Z.of_nat (length (buf_data st1)) <? f_pos + n) with false by lia.
    cbn [orb]. unfold copy_to_user.
    destruct (negb (n - Z.min n (Z.max 0 (ubuf_writable usrbuf)) =? 0))
      eqn:Ec.
    + eexists. reflexivity.
    + apply negb_false_iff, Z.eqb_eq in Ec. lia.
Qed.

(** X18.  A read at offset 0 refreshes the cache before it looks at the
    request: when it then delivers nothing, because no byte was asked
    for (result 0) or because the caller's buffer cannot take the bytes
    (result [-EFAULT]), the new value counts as seen all the same, and
    the next read at offset 0 sleeps until the sensor is updated
    again. *)
Theorem read_undelivered_value_is_skipped fuel fuel2 sensors st
    usrbuf usrbuf2 cnt cnt2 evs m v :
  (1 <= fuel)%nat -> (1 <= fuel2)%nat -> 0 < lock st ->
  session_msr sensors st = Ret m ->
  buf_timestamp st <> last_update m ->
  lookup_by_type lookup_voltage lookup_temperature lookup_light
    (type st) (values0 m) = Some v ->
  let text := render_measurement (Z.quot v 1000) (Z.abs (Z.rem v 1000)) in
  let len := Z.of_nat (length text) in
  len < LUNIX_CHRDEV_BUFSZ ->
  0 <= cnt ->
  cnt = 0 \/ ubuf_writable usrbuf < Z.min cnt len ->
  exists rr,
    chrdev_read8 fuel sensors st usrbuf cnt 0 evs = Ret rr
    /\ rd_ret rr = (if cnt =? 0 then 0 else - EFAULT)
    /\ rd_f_pos rr = 0
    /\ rd_state rr = cache_text text (last_update m) st
    /\ chrdev_read8 fuel2 (rd_sensors rr) (rd_state rr) usrbuf2 cnt2
         (rd_f_pos rr) [] = Block.
Proof.
  intros Hf Hf2 Hl Hm Hne Hv text len Hfit Hcnt Hnothing.
  destruct fuel as [|fuel]; [lia|].
  pose proof (render_measurement_nonempty (Z.quot v 1000)
                (Z.abs (Z.rem v 1000))) as Hlen. fold text in Hlen.
  set (st0 := with_lock (lock st - 1) st).
  set (st1 := cache_text text (last_update m) st0).
  destruct (lunix_chrdev_read_nothing (S fuel) sensors st usrbuf cnt 0 evs
              sensors st0 evs sensors st1 evs) as (ub & Hr).
  - apply down_interruptible_free. exact Hl.
  - cbn [Z.eqb read_refresh_loop]. res_unfold.
    rewrite (state_update_stale _ _ _ _ sensors st0 m v Hm Hne Hv Hfit).
    reflexivity.
  - lia.
  - exact Hcnt.
  - subst st1. cbn [buf_lim buf_data cache_text with_buf].
    rewrite length_app. fold len.
    destruct Hnothing as [-> | Hw]; [left; lia|].
    right. split; [simpl; lia|]. lia.
  - rewrite Hr. eexists. split; [reflexivity|].
    cbn [rd_ret rd_f_pos rd_state rd_sensors].
    subst st1. cbn [buf_lim cache_text with_buf]. fold len.
    replace (len - 0) with len by lia.
    split.
    { destruct (cnt =? 0) eqn:E.
      - apply Z.eqb_eq in E. subst cnt.
        replace (Z.min 0 (Z.max 0 len)) with 0 by lia. reflexivity.
      - apply Z.eqb_neq in E.
        replace (Z.min cnt (Z.max 0 len) =? 0) with false by lia.
        reflexivity. }
    split; [reflexivity|].
    split; [exact (up_down (cache_text text (last_update m) st))|].
    change (up (cache_text text (last_update m) st0))
      with (up (with_lock (lock (cache_text text (last_update m) st) - 1)
                  (cache_text text (last_update m) st))).
    rewrite up_down.
    apply (lunix_chrdev_read_sleeps lookup_voltage lookup_temperature
             lookup_light LUNIX_CHRDEV_BUFSZ fuel2 sensors
             (cache_text text (last_update m) st) usrbuf2 cnt2 [] m
             Hf2 Hl Hm eq_refl (Forall_nil_2 _)).
Qed.

End ChrdevSkip.
(* ================================================================== *)
(** * Fields of a packet *)

Lemma lor_shiftl_byte lo hi :
  0 <= lo < 256 -> Z.lor lo (Z.shiftl hi 8) = lo + 256 * hi.
Proof.
  intros Hlo.
  assert (Hland : Z.land lo (Z.shiftl hi 8) = 0).
  { apply Z.bits_inj'. intros n Hn.
    rewrite Z.land_spec, Z.bits_0.
    destruct (Z.lt_ge_cases n 8) as [Hlt|Hge].
    - rewrite Z.shiftl_spec_low by lia. apply andb_false_r.
    - rewrite <- (Z.mod_small lo (2 ^ 8)) by lia.
      rewrite Z.mod_pow2_bits_high by lia. reflexivity. }
  pose proof (Z.add_lor_land lo (Z.shiftl hi 8)) as H.
  rewrite Hland in H. rewrite Z.shiftl_mul_pow2 in * by lia.
  change (2 ^ 8) with 256 in *. lia.
Qed.

(** X19.  [uint16_from_packet] reads a field least significant byte
    first: two bytes [lo], [hi] at an offset inside the buffer give
    [lo + 256 * hi], a value below 65536; and every 16-bit value stored
    that way is read back unchanged. *)
Theorem uint16_from_packet_little_endian pk off lo hi :
  0 <= off ->
  pk !! Z.to_nat off = Some lo -> pk !! Z.to_nat (off + 1) = Some hi ->
  is_byte lo -> is_byte hi ->
  uint16_from_packet pk off = lo + 256 * hi
  /\ 0 <= uint16_from_packet pk off < 65536
  /\ forall v, 0 <= v < 65536 -> (Z.to_nat off + 1 < length pk)%nat ->
       uint16_from_packet
         (<[Z.to_nat off := v mod 256]>
            (<[Z.to_nat (off + 1) := v / 256]> pk)) off = v.
Proof.
  intros Hoff Hlo Hhi Blo Bhi. unfold is_byte in *.
  assert (Hval : uint16_from_packet pk off = lo + 256 * hi).
  { unfold uint16_from_packet, packet_at.
    rewrite (list_lookup_total_correct _ _ _ Hlo).
    rewrite (list_lookup_total_correct _ _ _ Hhi).
    apply lor_shiftl_byte. exact Blo. }
  split; [exact Hval|]. split; [lia|].
  intros v Hv Hlen.
  unfold uint16_from_packet, packet_at.
  rewrite (list_lookup_total_correct _ (Z.to_nat off) (v mod 256)).
  2:{ apply list_lookup_insert_eq. rewrite length_insert. lia. }
  rewrite (list_lookup_total_correct _ (Z.to_nat (off + 1)) (v / 256)).
  2:{ rewrite list_lookup_insert_ne by lia.
      apply list_lookup_insert_eq. lia. }
  rewrite lor_shiftl_byte by (apply Z.mod_pos_bound; lia).
  pose proof (Z.div_mod v 256). lia.
Qed.
(* ================================================================== *)
(** * The properties at concrete inputs *)

Lemma read_restores_lock_witness :
  lock (rd_state sample_read_result) = lock sample_session
  /\ type (rd_state sample_read_result) = type sample_session
  /\ sensor (rd_state sample_read_result) = sensor sample_session.
Proof.
  refine (read_restores_lock uint16_to_batt sample_temperature sample_light
            sample_bufsz 2 sample_sensors sample_session sample_usrbuf
            64 0 [] sample_read_result _ _).
  - lia.
  - vm_compute. reflexivity.
Defined.

Lemma read_interrupted_no_effect_witness :
  rd_state sample_interrupted = sample_refreshed
  /\ rd_usrbuf sample_interrupted = sample_usrbuf
  /\ rd_f_pos sample_interrupted = 0.
Proof.
  refine (read_interrupted_no_effect uint16_to_batt sample_temperature
            sample_light sample_bufsz 1 sample_sensors sample_refreshed
            sample_usrbuf 64 0 [SignalPending] sample_interrupted _ _ _).
  - lia.
  - vm_compute. reflexivity.
  - reflexivity.
Defined.

Lemma read_offset_cyclic_witness :
  0 <= 0 < buf_lim (rd_state sample_read_result)
  /\ rd_f_pos sample_read_result
     = (0 + rd_ret sample_read_result)
       mod buf_lim (rd_state sample_read_result)
  /\ 0 <= rd_f_pos sample_read_result < buf_lim (rd_state sample_read_result).
Proof.
  refine (proj2 (read_offset_cyclic uint16_to_batt sample_temperature
                   sample_light sample_bufsz 2 sample_sensors sample_session
                   sample_usrbuf 64 0 [] sample_read_result _ _) _).
  - lia.
  - vm_compute. reflexivity.
  - vm_compute. reflexivity.
Defined.

Lemma read_copies_cache_witness :
  take 6 (ubuf_data (rd_usrbuf sample_read_result))
  = take 6 (drop 0 (buf_data (rd_state sample_read_result))).
Proof.
  pose proof (read_copies_cache uint16_to_batt sample_temperature
                sample_light sample_bufsz 2 sample_sensors sample_session
                sample_usrbuf 64 0 [] sample_read_result) as H.
  destruct H as (_ & H & _).
  - lia.
  - lia.
  - vm_compute. reflexivity.
  - vm_compute. reflexivity.
  - vm_compute. discriminate.
  - exact H.
Defined.

Lemma read_mid_text_no_refresh_witness :
  lunix_chrdev_read uint16_to_batt sample_temperature sample_light
    sample_bufsz 0 sample_sensors sample_refreshed sample_usrbuf 64 2
    sample_unnoticed <> Block.
Proof.
  refine (proj1 (read_mid_text_no_refresh uint16_to_batt sample_temperature
                   sample_light sample_bufsz 0 sample_sensors sample_refreshed
                   sample_usrbuf 64 2 sample_unnoticed _ _)).
  - vm_compute. reflexivity.
  - lia.
Defined.

Lemma read_sleeps_through_unnoticed_witness :
  lunix_chrdev_read uint16_to_batt sample_temperature sample_light
    sample_bufsz 1 sample_sensors sample_refreshed sample_usrbuf 64 0
    sample_unnoticed = Block.
Proof.
  refine (proj1 (read_sleeps_through_unnoticed uint16_to_batt
                   sample_temperature sample_light sample_bufsz 1
                   sample_sensors sample_refreshed sample_usrbuf 64
                   sample_unnoticed sample_page _ _ _ _ _)).
  - lia.
  - vm_compute. reflexivity.
  - vm_compute. reflexivity.
  - vm_compute. reflexivity.
  - constructor; [left; vm_compute; discriminate|].
    constructor; [right; vm_compute; reflexivity|].
    constructor.
Defined.

Lemma read_in_two_parts_witness :
  exists rr1 rr2,
    lunix_chrdev_read uint16_to_batt sample_temperature sample_light
      sample_bufsz 1 sample_sensors sample_session sample_usrbuf 2 0 []
    = Ret rr1
    /\ lunix_chrdev_read uint16_to_batt sample_temperature sample_light
         sample_bufsz 0 sample_sensors_fresh (rd_state rr1) sample_usrbuf
         64 (rd_f_pos rr1) sample_unnoticed
       = Ret rr2
    /\ take (Z.to_nat (rd_ret rr1)) (ubuf_data (rd_usrbuf rr1))
       ++ take (Z.to_nat (rd_ret rr2)) (ubuf_data (rd_usrbuf rr2))
       = text_2_443.
Proof.
  destruct (read_in_two_parts uint16_to_batt sample_temperature sample_light
              sample_bufsz 1 0 sample_sensors sample_sensors_fresh
              sample_session sample_usrbuf sample_usrbuf 2 64 []
              sample_unnoticed sample_page 2443)
    as (rr1 & rr2 & H1 & _ & _ & H2 & _ & _ & H3 & _).
  - lia.
  - vm_compute. reflexivity.
  - vm_compute. reflexivity.
  - vm_compute. discriminate.
  - vm_compute. reflexivity.
  - vm_compute. reflexivity.
  - vm_compute. split; reflexivity.
  - vm_compute. discriminate.
  - vm_compute. discriminate.
  - vm_compute. discriminate.
  - exists rr1, rr2. split; [exact H1|]. split; [exact H2|]. exact H3.
Defined.

Lemma read_value_once_witness :
  exists rr,
    lunix_chrdev_read uint16_to_batt sample_temperature sample_light
      sample_bufsz 1 sample_sensors sample_session sample_usrbuf 64 0 []
    = Ret rr
    /\ lunix_chrdev_read uint16_to_batt sample_temperature sample_light
         sample_bufsz 1 (rd_sensors rr) (rd_state rr) sample_usrbuf 64
         (rd_f_pos rr) [] = Block.
Proof.
  destruct (read_value_once uint16_to_batt sample_temperature sample_light
              sample_bufsz 1 1 sample_sensors sample_session sample_usrbuf
              sample_usrbuf 64 64 [] sample_page 2443)
    as (rr & H1 & _ & _ & H2 & _).
  - lia.
  - lia.
  - vm_compute. reflexivity.
  - vm_compute. reflexivity.
  - vm_compute. discriminate.
  - vm_compute. reflexivity.
  - vm_compute. reflexivity.
  - vm_compute. discriminate.
  - vm_compute. discriminate.
  - exists rr. split; [exact H1 | exact H2].
Defined.


Lemma refresh_stays_in_cache_witness :
  length (buf_data sample_refreshed) = length (buf_data sample_session).
Proof.
  refine (proj1 (refresh_stays_in_cache uint16_to_batt sample_temperature
                   sample_light sample_bufsz sample_sensors sample_session
                   0 sample_refreshed _ _)).
  - vm_compute. split; [reflexivity | discriminate].
  - vm_compute. reflexivity.
Defined.

Lemma open_minor_round_trip_witness :
  lunix_chrdev_open 0 (8 * 4 + 0) (Some sample_kmalloc)
  = (0, Some sample_session_node5).
Proof.
  refine (proj1 (open_minor_round_trip 4 0 sample_kmalloc _ _)).
  - lia.
  - vm_compute. split; [discriminate | reflexivity].
Defined.

Lemma chrdev_init_unwinds_witness :
  snd (lunix_chrdev_init 60 16 None (Some (- EBUSY)) sample_registry)
  = sample_registry.
Proof.
  destruct (chrdev_init_unwinds 60 16 None (Some (- EBUSY)) sample_registry)
    as [(H & _)|(_ & H & _)].
  - intros e He. discriminate He.
  - intros e He. inversion He. vm_compute. reflexivity.
  - vm_compute in H. discriminate H.
  - exact H.
Defined.

Lemma frame_stream_decoded_witness :
  extracted (feed_chunks initial_protocol_state sample_stream_chunks)
  = Some [Some (5, 512, 382, 893); None; Some (5, 512, 382, 893)].
Proof.
  refine (frame_stream_decoded sample_frames sample_stream_chunks _ _).
  - unfold sample_frames.
    repeat (constructor;
            [split; [repeat constructor; unfold is_byte; simpl; lia|];
             split; [simpl; lia | simpl; intros; lia] |]).
    constructor.
  - vm_compute. reflexivity.
Defined.

Lemma wire_frame_reaches_reader_witness :
  exists st' sensors' log rr,
    lunix_ldisc_receive_buf 16 1700000000 initial_protocol_state
      sample_sensors_fresh (frame_wire sample_frame)
    = Ret (st', sensors', log)
    /\ lunix_chrdev_read uint16_to_batt sample_temperature sample_light
         sample_bufsz 1 sensors' sample_session_node5 sample_usrbuf 64 0 []
       = Ret rr
    /\ ubuf_data (rd_usrbuf rr) = text_2_443.
Proof.
  destruct (wire_frame_reaches_reader uint16_to_batt sample_temperature
              sample_light sample_bufsz 16 1700000000 sample_frame
              sample_sensors_fresh fresh_sensor 1 sample_session_node5
              sample_usrbuf 64 [] 2443)
    as (st' & sensors' & log & rr & H1 & _ & _ & _ & H2 & _ & H3 & _).
  - unfold well_formed_sensor_frame.
    split; [repeat constructor; unfold is_byte; simpl; lia|].
    split; [simpl; lia|]. split; [reflexivity | simpl; lia].
  - vm_compute. split; discriminate.
  - vm_compute. reflexivity.
  - reflexivity.
  - reflexivity.
  - vm_compute. reflexivity.
  - lia.
  - vm_compute. discriminate.
  - vm_compute. reflexivity.
  - vm_compute. reflexivity.
  - vm_compute. discriminate.
  - vm_compute. discriminate.
  - exists st', sensors', log, rr.
    split; [exact H1|]. split; [exact H2|]. exact H3.
Defined.

Lemma read_undelivered_value_is_skipped_witness :
  exists rr,
    lunix_chrdev_read uint16_to_batt sample_temperature sample_light
      sample_bufsz 1 sample_sensors sample_session bad_usrbuf 64 0 []
    = Ret rr
    /\ rd_ret rr = - EFAULT
    /\ lunix_chrdev_read uint16_to_batt sample_temperature sample_light
         sample_bufsz 1 (rd_sensors rr) (rd_state rr) sample_usrbuf 64
         (rd_f_pos rr) [] = Block.
Proof.
  destruct (read_undelivered_value_is_skipped uint16_to_batt
              sample_temperature sample_light sample_bufsz 1 1
              sample_sensors sample_session bad_usrbuf sample_usrbuf
              64 64 [] sample_page 2443)
    as (rr & H1 & H2 & _ & _ & H3).
  - lia.
  - lia.
  - vm_compute. reflexivity.
  - vm_compute. reflexivity.
  - vm_compute. discriminate.
  - vm_compute. reflexivity.
  - vm_compute. reflexivity.
  - lia.
  - right. vm_compute. reflexivity.
  - exists rr. split; [exact H1|]. split; [exact H2 | exact H3].
Defined.

Lemma uint16_from_packet_little_endian_witness :
  uint16_from_packet (sample_packet 517 512 100 200) NODE_OFFSET
  = 5 + 256 * 2.
Proof.
  refine (proj1 (uint16_from_packet_little_endian
                   (sample_packet 517 512 100 200) NODE_OFFSET 5 2
                   _ _ _ _ _)).
  - vm_compute. discriminate.
  - vm_compute. reflexivity.
  - vm_compute. reflexivity.
  - vm_compute. split; [discriminate | reflexivity].
  - vm_compute. split; [discriminate | reflexivity].
Defined.
(* ================================================================== *)
(** * Opening a device node *)

Lemma lor_shiftl_low n lo hi :
  0 <= n -> 0 <= lo < 2 ^ n -> Z.lor (Z.shiftl hi n) lo = 2 ^ n * hi + lo.
Proof.
  intros Hn Hlo.
  assert (Hland : Z.land (Z.shiftl hi n) lo = 0).
  { apply Z.bits_inj'. intros i Hi.
    rewrite Z.land_spec, Z.bits_0.
    destruct (Z.lt_ge_cases i n) as [Hlt|Hge].
    - rewrite Z.shiftl_spec_low by lia. reflexivity.
    - rewrite <- (Z.mod_small lo (2 ^ n)) by lia.
      rewrite Z.mod_pow2_bits_high by lia. apply andb_false_r. }
  pose proof (Z.add_lor_land (Z.shiftl hi n) lo) as H.
  rewrite Hland in H. rewrite Z.shiftl_mul_pow2 in * by lia. lia.
Qed.

(** The device number of a node and its minor part. *)
Lemma MKDEV_minor major minor :
  0 <= minor < 2 ^ MINORBITS ->
  MKDEV major minor = MKDEV major 0 + minor
  /\ MINOR (MKDEV major minor) = minor.
Proof.
  intros Hm. unfold MKDEV, MINOR, MINORBITS in *.
  rewrite (lor_shiftl_low 20 minor major) by lia.
  rewrite Z.lor_0_r, Z.shiftl_mul_pow2 by lia.
  split; [lia|].
  change (2 ^ 20 - 1) with (Z.ones 20).
  rewrite Z.land_ones by lia.
  rewrite Z.add_comm, Z.mul_comm, Z.mod_add by lia.
  apply Z.mod_small. exact Hm.
Qed.

(** The producer leaves a session in good order. *)
Lemma session_ok_producer_runs bufsz evs : forall sensors st,
  session_ok bufsz sensors st ->
  session_ok bufsz (producer_runs evs sensors) st.
Proof.
  induction evs as [|[|i b t l now] evs IH]; intros sensors st Hok;
    cbn [producer_runs]; [exact Hok | apply IH; exact Hok |].
  apply IH. apply session_ok_sensors_update. exact Hok.
Qed.

Section OpenGate.

Variable lookup_voltage lookup_temperature lookup_light : Z -> Z.
Variable LUNIX_CHRDEV_BUFSZ : Z.
Hypothesis fits :
  tables_fit lookup_voltage lookup_temperature lookup_light LUNIX_CHRDEV_BUFSZ.

(** On a session in good order every later read returns or sleeps, and
    none returns [-EINVAL]. *)
Lemma read_session_total fuel reqs : forall sensors st f_pos,
  (2 <= fuel)%nat ->
  session_ok LUNIX_CHRDEV_BUFSZ sensors st -> 0 <= f_pos ->
  Forall (fun rq => 0 <= rq_cnt rq) reqs ->
  (exists rets,
     read_session lookup_voltage lookup_temperature lookup_light
       LUNIX_CHRDEV_BUFSZ fuel reqs sensors st f_pos = Ret rets
     /\ Forall (fun ret => ret <> - EINVAL) rets)
  \/ read_session lookup_voltage lookup_temperature lookup_light
       LUNIX_CHRDEV_BUFSZ fuel reqs sensors st f_pos = Block.
Proof.
  induction reqs as [|rq reqs IH]; intros sensors st f_pos Hf Hok Hpos Hall.
  - left. exists []. split; [reflexivity | constructor].
  - assert (Hc : 0 <= rq_cnt rq) by (invert Hall; assumption).
    assert (Hrest : Forall (fun rq => 0 <= rq_cnt rq) reqs)
      by (invert Hall; assumption).
    cbn [read_session]. res_unfold.
    destruct (lunix_chrdev_read_total lookup_voltage lookup_temperature
                lookup_light LUNIX_CHRDEV_BUFSZ fits fuel
                (producer_runs (rq_before rq) sensors) st (rq_usrbuf rq)
                (rq_cnt rq) f_pos (rq_during rq) Hf
                (session_ok_producer_runs _ _ _ _ Hok) Hc Hpos)
      as [(rr & Hr & Hok' & Hpos')|Hb].
    + rewrite Hr.
      pose proof (lunix_chrdev_read_ret _ _ _ _ _ _ _ _ _ _ _ _ Hc Hr)
        as Hret.
      destruct (IH (rd_sensors rr) (rd_state rr) (rd_f_pos rr) Hf Hok' Hpos'
                  Hrest) as [(rets & Hrs & Hne)|Hb].
      * left. rewrite Hrs. eexists. split; [reflexivity|].
        constructor; [|exact Hne].
        unfold EINVAL, ERESTARTSYS, EFAULT in *. lia.
      * right. rewrite Hb. reflexivity.
    + right. rewrite Hb. reflexivity.
Qed.

End OpenGate.

(** With the module loaded, a node of the driver reaches
    [lunix_chrdev_open] exactly when its minor number is one of the
    [lunix_sensor_cnt << 3] registered ones. *)
Lemma device_open_loaded major lunix_sensor_cnt k0 k minor
    nonseekable_ret kmalloc_ret :
  0 <= lunix_sensor_cnt < 2 ^ 29 ->
  lunix_chrdev_init major lunix_sensor_cnt None None k0 = (0, k) ->
  0 <= minor < 2 ^ MINORBITS ->
  device_open k (MKDEV major minor) nonseekable_ret kmalloc_ret
  = if minor <? 8 * lunix_sensor_cnt
    then lunix_chrdev_open nonseekable_ret minor kmalloc_ret
    else (- ENXIO, None).
Proof.
  intros Hcnt Hinit Hminor.
  unfold lunix_chrdev_init in Hinit.
  cbn [register_chrdev_region cdev_add Z.ltb Z.compare] in Hinit.
  invert Hinit.
  unfold device_open. cbn [cdev_live].
  destruct (MKDEV_minor major minor Hminor) as [-> ->].
  rewrite Z.shiftl_mul_pow2 by lia. change (2 ^ 3) with 8.
  rewrite to_uint32_small by lia.
  replace (MKDEV major 0 <=? MKDEV major 0 + minor) with true by lia.
  cbn [andb].
  destruct (minor <? 8 * lunix_sensor_cnt) eqn:E.
  - replace (MKDEV major 0 + minor <? MKDEV major 0 + lunix_sensor_cnt * 8)
      with true by lia. reflexivity.
  - replace (MKDEV major 0 + minor <? MKDEV major 0 + lunix_sensor_cnt * 8)
      with false by lia. reflexivity.
Qed.

Section OpenClaim.

Variable lookup_voltage lookup_temperature lookup_light : Z -> Z.
Variable LUNIX_CHRDEV_BUFSZ : Z.

(** C1.  With the module loaded, opening the node of minor number
    [minor], that is of sensor index [minor / 8] and measurement kind
    [minor % 8], fails and creates no session when the kind is invalid
    ([lunix_chrdev_open] returns [-EINVAL]) and when the index is not
    below [lunix_sensor_cnt] (such a minor lies outside the range
    [lunix_chrdev_init] registered, and the call ends with [-ENXIO]
    before the driver is reached).  A valid index and kind lead to
    [lunix_chrdev_open], which creates the session for them when it gets
    its memory.  Hence a session that exists has a valid kind and index,
    and on the initialised sensors, with a cache that holds every table
    entry, the reads that follow return or sleep: none of them returns
    [-EINVAL] and none reaches outside the sensors. *)
Theorem device_open_rejects_invalid major lunix_sensor_cnt k0 k minor
    nonseekable_ret kmalloc_ret :
  0 <= lunix_sensor_cnt < 2 ^ 29 ->
  lunix_chrdev_init major lunix_sensor_cnt None None k0 = (0, k) ->
  0 <= minor < 2 ^ MINORBITS ->
  let kind := minor mod 8 in
  let index := minor / 8 in
  let result :=
    device_open k (MKDEV major minor) nonseekable_ret kmalloc_ret in
  (N_LUNIX_MSR <= kind -> fst result < 0 /\ snd result = None)
  /\ (lunix_sensor_cnt <= index -> result = (- ENXIO, None))
  /\ (kind < N_LUNIX_MSR -> index < lunix_sensor_cnt ->
      result = lunix_chrdev_open nonseekable_ret minor kmalloc_ret
      /\ forall mem,
           0 <= nonseekable_ret -> kmalloc_ret = Some mem ->
           exists st,
             result = (nonseekable_ret, Some st)
             /\ type st = kind /\ sensor st = index)
  /\ (forall r st,
        result = (r, Some st) ->
        0 <= r
        /\ type st = kind /\ kind < N_LUNIX_MSR
        /\ sensor st = index /\ index < lunix_sensor_cnt
        /\ forall mem sensors fuel reqs,
             kmalloc_ret = Some mem ->
             Z.of_nat (length (buf_data mem)) = LUNIX_CHRDEV_BUFSZ ->
             0 < LUNIX_CHRDEV_BUFSZ ->
             tables_fit lookup_voltage lookup_temperature lookup_light
               LUNIX_CHRDEV_BUFSZ ->
             Z.of_nat (length sensors) = lunix_sensor_cnt ->
             Forall sensor_initialised sensors ->
             (2 <= fuel)%nat ->
             Forall (fun rq => 0 <= rq_cnt rq) reqs ->
             (exists rets,
                read_session lookup_voltage lookup_temperature lookup_light
                  LUNIX_CHRDEV_BUFSZ fuel reqs sensors st 0 = Ret rets
                /\ Forall (fun ret => ret <> - EINVAL) rets)
             \/ read_session lookup_voltage lookup_temperature lookup_light
                  LUNIX_CHRDEV_BUFSZ fuel reqs sensors st 0 = Block).
Proof.
  intros Hcnt Hinit Hminor kind index result.
  pose proof (device_open_loaded major lunix_sensor_cnt k0 k minor
                nonseekable_ret kmalloc_ret Hcnt Hinit Hminor) as Hres.
  fold result in Hres.
  assert (Hm0 : 0 <= minor) by lia.
  pose proof (Z.div_mod minor 8 ltac:(lia)) as Hdm.
  pose proof (Z.mod_pos_bound minor 8 ltac:(lia)) as Hmod.
  fold kind in Hmod. fold kind index in Hdm.
  assert (Hrange : minor < 8 * lunix_sensor_cnt <-> index < lunix_sensor_cnt)
    by (split; intros; nia).
  split; [|split; [|split]].
  - intros Hk. rewrite Hres.
    destruct (minor <? 8 * lunix_sensor_cnt) eqn:E.
    + unfold lunix_chrdev_open. fold kind.
      destruct (nonseekable_ret <? 0) eqn:En; [cbn; split; [lia|reflexivity]|].
      replace (kind >=? N_LUNIX_MSR) with true by lia.
      cbn. unfold EINVAL. split; [lia|reflexivity].
    + cbn. unfold ENXIO. split; [lia|reflexivity].
  - intros Hi. rewrite Hres.
    replace (minor <? 8 * lunix_sensor_cnt) with false by lia. reflexivity.
  - intros Hk Hi. rewrite Hres.
    replace (minor <? 8 * lunix_sensor_cnt) with true by lia.
    split; [reflexivity|].
    intros mem Hn ->. unfold lunix_chrdev_open. fold kind index.
    replace (nonseekable_ret <? 0) with false by lia.
    replace (kind >=? N_LUNIX_MSR) with false by lia.
    eexists. split; [reflexivity|]. split; reflexivity.
  - intros r st Hr. rewrite Hres in Hr.
    destruct (minor <? 8 * lunix_sensor_cnt) eqn:E; [|discriminate].
    apply Z.ltb_lt in E.
    pose proof (lunix_chrdev_open_state _ _ _ _ _ Hr) as [_ Hr0].
    pose proof (lunix_chrdev_open_ok _ _ _ _ _ Hm0 Hr)
      as (Hty & Hkind & Hs & _).
    fold kind in Hty. fold index in Hs.
    split; [exact Hr0|]. split; [exact Hty|]. split; [lia|].
    split; [exact Hs|]. split; [apply Hrange; exact E|].
    intros mem sensors fuel reqs -> Hbuf Hsz Hfit Hlen Hall Hf Hreqs.
    apply (read_session_total lookup_voltage lookup_temperature lookup_light
             LUNIX_CHRDEV_BUFSZ Hfit fuel reqs sensors st 0 Hf);
      [|lia|exact Hreqs].
    apply (lunix_chrdev_open_session_ok LUNIX_CHRDEV_BUFSZ lunix_sensor_cnt
             sensors nonseekable_ret minor mem r st); try assumption.
    rewrite Z.shiftl_mul_pow2 by lia. change (2 ^ 3) with 8. lia.
Qed.

End OpenClaim.

Lemma device_open_rejects_invalid_witness :
  device_open sample_loaded (MKDEV 60 128) 0 (Some sample_kmalloc)
  = (- ENXIO, None).
Proof.
  refine (proj1 (proj2 (device_open_rejects_invalid uint16_to_batt
                          sample_temperature sample_light sample_bufsz
                          60 16 sample_registry sample_loaded 128 0
                          (Some sample_kmalloc) _ _ _)) _).
  - vm_compute. split; [discriminate | reflexivity].
  - vm_compute. reflexivity.
  - vm_compute. split; [discriminate | reflexivity].
  - vm_compute. discriminate.
Defined.

(** The node of minor 0 is opened, and three reads follow: the whole
    text, the first three bytes of the next value, and a failed copy. *)
Example device_open_then_reads :
  device_open sample_loaded (MKDEV 60 0) 0 (Some sample_kmalloc)
  = (0, Some sample_session)
  /\ read_session uint16_to_batt sample_temperature sample_light sample_bufsz
       2 sample_requests sample_sensors sample_session 0
     = Ret [6; 3; - EFAULT].
Proof. split; vm_compute; reflexivity. Qed.

(** A kind above the three measurements is refused by
    [lunix_chrdev_open] itself. *)
Example device_open_invalid_kind :
  device_open sample_loaded (MKDEV 60 3) 0 (Some sample_kmalloc)
  = (- EINVAL, None).
Proof. vm_compute. reflexivity. Qed.
